(** * Document ingestion pipeline of the RAG tutorial

    A shallow embedding of the helper functions of notebook
    "3. Data Setup - Setting Up the Document Ingestion Pipeline":
    [ingest_document], [ingest_all_documents], [get_successful_document_ids],
    [check_status_of_ingestion], [check_files_status] and
    [get_successful_dataset_ids], together with the store-id helper
    [createStoreId].

    Python exceptions are values of [exn] and every fallible computation
    returns a [result]; the HTTP platform, the local file system and the
    completion order of the thread pool are explicit parameters ([Env],
    [Scheduler]).  The parts of [tenacity], [requests], [json] and [pandas]
    that the notebook calls are modelled next to the code that calls them. *)

From Stdlib Require Import String Ascii ZArith List Bool Lia Permutation QArith Lqa.
Import ListNotations.
Local Open Scope string_scope.
Local Open Scope Z_scope.

Set Implicit Arguments.
Set Warnings "-register-all".

(** ** Python values, exceptions and results *)

(** JSON documents as [response.json()] returns them.  Objects keep their
    members in order, as Python dicts do. *)
Inductive json : Type :=
| JNull
| JBool (b : bool)
| JNum (z : Z)
| JStr (s : string)
| JArr (items : list json)
| JObj (members : list (string * json)).

(** The key of a failed subscript: a dict key or a pandas index label. *)
Inductive pykey : Type :=
| KStr (s : string)
| KInt (z : Z).

(** The exceptions the pipeline can meet.  [ConnectionError] and [HTTPError]
    are the subclasses of [requests.RequestException] used here; [RetryError]
    is tenacity's, carrying the exception of the last attempt. *)
Inductive exn : Type :=
| ConnectionError
| HTTPError (status_code : Z)
| FileNotFoundError (path : string)
| AssertionError
| KeyError (key : pykey)
| IndexError
| TypeError
| AttributeError
| JSONDecodeError
| MergeError
| UnboundLocalError (var : string)
| RetryError (last_attempt : exn).

(** [isinstance(e, requests.RequestException)] *)
Definition is_RequestException (e : exn) : bool :=
  match e with
  | ConnectionError | HTTPError _ => true
  | _ => false
  end.

(** [isinstance(e, Exception)]: every exception of [exn] derives from
    [Exception] (none is a [KeyboardInterrupt] or [SystemExit]). *)
Definition is_Exception (e : exn) : bool := true.

Inductive result (A : Type) : Type :=
| Ok (a : A)
| Raise (e : exn).
Arguments Ok {A} a.
Arguments Raise {A} e.

Definition bind {A B : Type} (m : result A) (k : A -> result B) : result B :=
  match m with
  | Ok a => k a
  | Raise e => Raise e
  end.

Declare Scope py_scope.
Delimit Scope py_scope with py.
Notation "x <- m ;; k" := (bind m (fun x => k))
  (at level 61, m at next level, right associativity) : py_scope.
Notation "m ;;; k" := (bind m (fun _ => k))
  (at level 61, right associativity) : py_scope.
Local Open Scope py_scope.

(** [try: body  except Exception as e: handler(e)] *)
Definition try_except {A : Type} (body : result A) (handler : exn -> result A)
  : result A :=
  match body with
  | Ok a => Ok a
  | Raise e => if is_Exception e then handler e else Raise e
  end.

(** Monadic map over a list, left to right, stopping at the first raise. *)
Fixpoint mapM {A B : Type} (f : A -> result B) (l : list A) : result (list B) :=
  match l with
  | [] => Ok []
  | a :: l' => b <- f a ;; bs <- mapM f l' ;; Ok (b :: bs)
  end.

(** Ordered dictionaries with string keys. *)
Definition pydict (V : Type) : Type := list (string * V).

Fixpoint dict_find {V : Type} (d : pydict V) (k : string) : option V :=
  match d with
  | [] => None
  | (k', v) :: d' => if String.eqb k' k then Some v else dict_find d' k
  end.

(** [d[k]] *)
Definition dict_getitem {V : Type} (d : pydict V) (k : string) : result V :=
  match dict_find d k with
  | Some v => Ok v
  | None => Raise (KeyError (KStr k))
  end.

(** [d.get(k, default)] *)
Definition dict_get {V : Type} (d : pydict V) (k : string) (default : V) : V :=
  match dict_find d k with
  | Some v => v
  | None => default
  end.

(** Subscripts and methods on JSON values, with Python's dynamic errors. *)

(** [j[k]] for a string key *)
Definition json_getitem (j : json) (k : string) : result json :=
  match j with
  | JObj d => dict_getitem d k
  | JArr _ | JStr _ => Raise TypeError
  | _ => Raise TypeError
  end.

(** [j[0]] *)
Definition json_first (j : json) : result json :=
  match j with
  | JArr (x :: _) => Ok x
  | JArr [] => Raise IndexError
  | JObj d =>
      (* a dict subscripted by the integer 0: no string key equals 0 *)
      Raise (KeyError (KInt 0))
  | JStr s =>
      match s with
      | EmptyString => Raise IndexError
      | String c _ => Ok (JStr (String c EmptyString))
      end
  | _ => Raise TypeError
  end.

(** [j.get(k, default)] *)
Definition json_get (j : json) (k : string) (default : json) : result json :=
  match j with
  | JObj d => Ok (dict_get d k default)
  | _ => Raise AttributeError
  end.

(** [j > 0] *)
Definition json_gt0 (j : json) : result bool :=
  match j with
  | JNum z => Ok (0 <? z)
  | JBool b => Ok b
  | _ => Raise TypeError
  end.

(** ** tenacity: the [@retry] decorator

    [retry(stop=stop_after_attempt(n), wait=wait_exponential(multiplier, min,
    max), retry=retry_if_exception_type(C))] as the library runs it: attempt
    numbers start at 1; a result is returned at once; an exception that the
    retry predicate rejects is re-raised as it is; when the stop condition
    holds the call ends with [RetryError] of the last attempt; otherwise the
    wrapper sleeps [wait(attempt_number)] and tries again. *)

Record RetryPolicy : Type := {
  stop_after_attempt : nat;
  wait_multiplier : Z;
  wait_min : Z;
  wait_max : Z;
  retry_if_exception : exn -> bool
}.

(** [wait_exponential.__call__]:
    [max(max(0, min), min(multiplier * 2 ** (attempt_number - 1), max))] *)
Definition wait_exponential (p : RetryPolicy) (attempt_number : nat) : Z :=
  Z.max (Z.max 0 (wait_min p))
        (Z.min (wait_multiplier p * 2 ^ (Z.of_nat attempt_number - 1)) (wait_max p)).

(** What a decorated call does, in order. *)
Inductive event : Type :=
| Attempt (attempt_number : nat)
| Sleep (seconds : Z).

Definition attempts_of (tr : list event) : list nat :=
  flat_map (fun ev => match ev with Attempt n => [n] | Sleep _ => [] end) tr.

Definition sleeps_of (tr : list event) : list Z :=
  flat_map (fun ev => match ev with Sleep d => [d] | Attempt _ => [] end) tr.

Section Retrying.
Variable A : Type.
Variable p : RetryPolicy.
(** The decorated function; its argument is the number of the attempt, so
    that the outside world may answer each attempt differently. *)
Variable fn : nat -> result A.

(** [remaining] is the number of attempts still allowed after this one. *)
Fixpoint retry_from (remaining : nat) (attempt_number : nat)
  : result A * list event :=
  match fn attempt_number with
  | Ok a => (Ok a, [Attempt attempt_number])
  | Raise e =>
      if negb (retry_if_exception p e) then
        (Raise e, [Attempt attempt_number])
      else
        match remaining with
        | O => (Raise (RetryError e), [Attempt attempt_number])
        | S remaining' =>
            let (r, tr) := retry_from remaining' (S attempt_number) in
            (r, Attempt attempt_number
                  :: Sleep (wait_exponential p attempt_number) :: tr)
        end
  end.

Definition retry_trace : result A * list event :=
  retry_from (Nat.pred (stop_after_attempt p)) 1%nat.

Definition retry : result A := fst retry_trace.
End Retrying.

(** The policy both helpers are decorated with:
    [stop_after_attempt(3)], [wait_exponential(multiplier=1, min=2, max=10)],
    [retry_if_exception_type(requests.RequestException)]. *)
Definition notebook_policy : RetryPolicy := {|
  stop_after_attempt := 3;
  wait_multiplier := 1;
  wait_min := 2;
  wait_max := 10;
  retry_if_exception := is_RequestException
|}.

(** ** requests and the platform *)

(** What a request gives back: either [requests] raised a connection error,
    or a response arrived with a status code and a decoded JSON body. *)
Inductive response : Type :=
| NoResponse
| Response (status_code : Z) (body : json).

(** [response.raise_for_status()]: raises for 4xx and 5xx. *)
Definition raise_for_status (status_code : Z) : result unit :=
  if (400 <=? status_code) && (status_code <? 600)
  then Raise (HTTPError status_code)
  else Ok tt.

(** The values a report cell holds. *)
Inductive cell : Type :=
| CNone                  (* None *)
| CNaN                   (* a missing value *)
| CStr (s : string)      (* a str *)
| CVal (j : json)        (* a decoded JSON number, bool, list or dict *)
| CText (j : json)       (* the str json.dumps(j, indent=4) *)
| CErr (e : exn).        (* the str str(e) *)

(** A decoded JSON value as a Python object. *)
Definition of_json (j : json) : cell :=
  match j with
  | JNull => CNone
  | JStr s => CStr s
  | _ => CVal j
  end.

(** [json.dumps(j, indent=4)] *)
Definition json_dumps (j : json) : cell := CText j.

(** [json.loads(c)]: the text written by [json.dumps] decodes to the value it
    was written from; [None] and NaN are not text.  The pipeline passes no
    other str to it. *)
Definition json_loads (c : cell) : result json :=
  match c with
  | CText j => Ok j
  | CNone | CNaN | CVal _ => Raise TypeError
  | CStr _ | CErr _ => Raise JSONDecodeError
  end.

(** The outside world of one run of the notebook.  The [nat] argument of the
    two endpoints is the number of the attempt made for that item. *)
Record Env : Type := {
  (** [os.listdir(directory_path)] *)
  listdir : string -> result (list string);
  (** whether [open(document_path, mode="rb")] succeeds *)
  can_open : string -> bool;
  (** [POST {base}/stages/{stage_id}/files] with the given [name] *)
  post_files : string -> string -> nat -> response;
  (** [GET {base}/transformations/{transformation_id}/runs?file_id={file_id}] *)
  get_runs : string -> cell -> nat -> response
}.

(** [concurrent.futures.as_completed]: the futures in the order in which
    they finish. *)
Record Scheduler : Type := {
  as_completed : forall A : Type, list A -> list A
}.

Definition fair (sched : Scheduler) : Prop :=
  forall (A : Type) (l : list A), Permutation (as_completed sched l) l.

Definition submission_order : Scheduler := {| as_completed := fun _ l => l |}.
Definition reverse_order : Scheduler := {| as_completed := fun _ l => rev l |}.

(** [os.path.join(a, b)] on POSIX *)
Definition os_path_join (a b : string) : string :=
  if String.prefix "/" b then b
  else if String.eqb a "" then b
  else if String.eqb (String.substring (String.length a - 1) 1 a) "/" then a ++ b
  else a ++ "/" ++ b.

(** ** pandas: the DataFrame operations the notebook uses

    A frame is its list of column names and its rows; every row carries its
    index label and one cell per column.  Labels survive a boolean filter;
    a frame built by [pd.DataFrame] or returned by [merge] is labelled
    0, 1, 2, ... *)

Record DataFrame : Type := {
  columns : list string;
  rows : list (Z * pydict cell)
}.

(** A column of a frame: the cells with their index labels. *)
Definition Series : Type := list (Z * cell).

Definition has_column (cols : list string) (c : string) : bool :=
  existsb (String.eqb c) cols.

Fixpoint enumerate_from {A : Type} (label : Z) (l : list A) : list (Z * A) :=
  match l with
  | [] => []
  | a :: l' => (label, a) :: enumerate_from (label + 1) l'
  end.

(** The keys of the records, each once, in order of first appearance. *)
Definition union_keys (records : list (pydict cell)) : list string :=
  fold_left
    (fun cols record =>
       fold_left (fun acc k => if has_column acc k then acc else (acc ++ [k])%list)
                 (map fst record) cols)
    records [].

(** The row of a record over the given columns; an absent key is NaN. *)
Definition align (cols : list string) (record : pydict cell) : pydict cell :=
  map (fun c => (c, dict_get record c CNaN)) cols.

(** [pd.DataFrame(records)] for a list of dicts. *)
Definition pd_DataFrame (records : list (pydict cell)) : DataFrame :=
  let cols := union_keys records in
  {| columns := cols; rows := enumerate_from 0 (map (align cols) records) |}.

(** [len(df)] *)
Definition len (df : DataFrame) : nat := length (rows df).

(** [df[c]] *)
Definition getcol (df : DataFrame) (c : string) : result Series :=
  if has_column (columns df) c
  then Ok (map (fun r => (fst r, dict_get (snd r) c CNaN)) (rows df))
  else Raise (KeyError (KStr c)).

(** [c == s] for a cell and a str literal. *)
Definition cell_eq_str (c : cell) (s : string) : bool :=
  match c with
  | CStr s' => String.eqb s' s
  | _ => false
  end.

(** [df[df[c] == s]]: the rows whose cell in column [c] equals [s], with
    their labels. *)
Definition filter_eq (df : DataFrame) (c s : string) : result DataFrame :=
  col <- getcol df c ;;
  Ok {| columns := columns df;
        rows := filter (fun r => cell_eq_str (dict_get (snd r) c CNaN) s)
                       (rows df) |}.

(** [series.tolist()] *)
Definition tolist (s : Series) : list cell := map snd s.

(** [series[i]] for an integer [i] on an integer index: by label. *)
Fixpoint series_getitem (s : Series) (i : Z) : result cell :=
  match s with
  | [] => Raise (KeyError (KInt i))
  | (label, c) :: s' => if Z.eqb label i then Ok c else series_getitem s' i
  end.

(** Equality of the values in the cells of a frame can be decided. *)
Fixpoint json_eq_dec (a b : json) {struct a} : {a = b} + {a <> b}.
Proof.
  decide equality.
  - apply bool_dec.
  - apply Z.eq_dec.
  - apply string_dec.
  - apply (list_eq_dec json_eq_dec).
  - apply list_eq_dec. decide equality. apply string_dec.
Defined.

Definition pykey_eq_dec (a b : pykey) : {a = b} + {a <> b}.
Proof. decide equality; [apply string_dec | apply Z.eq_dec]. Defined.

Fixpoint exn_eq_dec (a b : exn) {struct a} : {a = b} + {a <> b}.
Proof.
  decide equality;
    [apply Z.eq_dec | apply string_dec | apply pykey_eq_dec | apply string_dec].
Defined.

Definition cell_eq_dec (a b : cell) : {a = b} + {a <> b}.
Proof.
  decide equality;
    [apply string_dec | apply json_eq_dec | apply json_eq_dec | apply exn_eq_dec].
Defined.

(** The value a cell stands for as a merge key.  The missing values are one
    key; a JSON null is [None] and a JSON string is a str; [True] and [1],
    [False] and [0] are equal and hash alike in Python. *)
Definition key_value (c : cell) : cell :=
  match c with
  | CNone | CNaN | CVal JNull => CNone
  | CVal (JStr s) => CStr s
  | CVal (JBool b) => CVal (JNum (if b then 1 else 0))
  | _ => c
  end.

(** Whether two cells of a key column denote the same key: equal values
    match, whatever their type, and missing values match each other. *)
Definition key_eqb (a b : cell) : bool :=
  if cell_eq_dec (key_value a) (key_value b) then true else false.


Fixpoint has_dup (l : list string) : bool :=
  match l with
  | [] => false
  | x :: l' => has_column l' x || has_dup l'
  end.

(** [left.merge(right, on=key, how="left", suffixes=(lsuffix, rsuffix))] *)
Definition merge_left (left right : DataFrame) (key lsuffix rsuffix : string)
  : result DataFrame :=
  if negb (has_column (columns right) key) then Raise (KeyError (KStr key))
  else if negb (has_column (columns left) key) then Raise (KeyError (KStr key))
  else
    let overlap c :=
      negb (String.eqb c key)
      && has_column (columns left) c && has_column (columns right) c in
    let lname c := if overlap c then c ++ lsuffix else c in
    let rname c := if overlap c then c ++ rsuffix else c in
    let rcols := filter (fun c => negb (String.eqb c key)) (columns right) in
    let cols := (map lname (columns left) ++ map rname rcols)%list in
    if has_dup cols then Raise MergeError
    else
      let lpart (r : pydict cell) :=
        map (fun c => (lname c, dict_get r c CNaN)) (columns left) in
      let rpart (r : pydict cell) :=
        map (fun c => (rname c, dict_get r c CNaN)) rcols in
      let missing := map (fun c => (rname c, CNaN)) rcols in
      let joined :=
        flat_map
          (fun l =>
             let k := dict_get (snd l) key CNaN in
             match filter (fun r => key_eqb k (dict_get (snd r) key CNaN))
                          (rows right) with
             | [] => [(lpart (snd l) ++ missing)%list]
             | matches => map (fun r => (lpart (snd l) ++ rpart (snd r))%list) matches
             end)
          (rows left) in
      Ok {| columns := cols; rows := enumerate_from 0 joined |}.

(** ** Phase 1: upload *)

Section Pipeline.
Variable env : Env.

(** The body of [ingest_document], run once per attempt. *)
Definition ingest_document_body
    (document_path : string) (ingestion_context : json)
    (name stage_id : string) (attempt_number : nat) : result (pydict cell) :=
  if can_open env document_path then
    match post_files env stage_id name attempt_number with
    | NoResponse => Raise ConnectionError
    | Response status_code file_uploaded =>
        raise_for_status status_code ;;;
        file_id <- json_getitem file_uploaded "fileId" ;;
        Ok [("file_id", of_json file_id);
            ("status", CStr "Success");
            ("error_type", CNone);
            ("error_message", CNone)]
    end
  else Raise (FileNotFoundError document_path).

(** [ingest_document] with its decorator. *)
Definition ingest_document
    (document_path : string) (ingestion_context : json)
    (name stage_id : string) : result (pydict cell) :=
  retry notebook_policy
    (ingest_document_body document_path ingestion_context name stage_id).

(** The body of the [for future in as_completed(...)] loop of
    [ingest_all_documents]: the row appended for one finished future. *)
Definition ingest_row (directory_path : string)
    (item : result (pydict cell) * string) : result (pydict cell) :=
  let (future, file_name) := item in
  let file_path := os_path_join directory_path file_name in
  try_except
    (result <- future ;;
     file_id <- dict_getitem result "file_id" ;;
     status <- dict_getitem result "status" ;;
     error_type <- dict_getitem result "error_type" ;;
     error_message <- dict_getitem result "error_message" ;;
     Ok [("file_path", CStr file_path);
         ("file_id", file_id);
         ("status", status);
         ("error_type", error_type);
         ("error_message", error_message)])
    (fun e =>
     Ok [("file_path", CStr file_path);
         ("file_id", CNone);
         ("status", CStr "Ingestion Failed");
         ("error", CErr e)]).

(** The dict [future_to_file] of [ingest_all_documents]: one future per
    listed file, paired with the file's name. *)
Definition submit_uploads
    (directory_path : string) (ingestion_context : json) (stage_id : string)
    (files : list string) : list (result (pydict cell) * string) :=
  map (fun file =>
         (ingest_document (os_path_join directory_path file)
                          ingestion_context file stage_id, file))
      files.

(** The list [results] of [ingest_all_documents], before it is turned into
    a DataFrame. *)
Definition ingest_results (sched : Scheduler)
    (directory_path : string) (ingestion_context : json) (stage_id : string)
  : result (list (pydict cell)) :=
  files <- listdir env directory_path ;;
  let future_to_file :=
    submit_uploads directory_path ingestion_context stage_id files in
  mapM (ingest_row directory_path) (as_completed sched future_to_file).

(** [ingest_all_documents(directory_path, ingestion_context, stage_id,
    max_workers)]; the pool size only bounds how many futures run at once and
    does not enter the result. *)
Definition ingest_all_documents (sched : Scheduler)
    (directory_path : string) (ingestion_context : json) (stage_id : string)
  : result DataFrame :=
  results <- ingest_results sched directory_path ingestion_context stage_id ;;
  Ok (pd_DataFrame results).

(** ** Phase 2: status polling *)

(** [get_successful_document_ids(df)] *)
Definition get_successful_document_ids (df : DataFrame) : result (list cell) :=
  successful <- filter_eq df "status" "Success" ;;
  file_ids <- getcol successful "file_id" ;;
  Ok (tolist file_ids).

(** The body of [check_status_of_ingestion], run once per attempt. *)
Definition check_status_of_ingestion_body
    (transformation_id : string) (file_id : cell) (attempt_number : nat)
  : result json :=
  match get_runs env transformation_id file_id attempt_number with
  | NoResponse => Raise ConnectionError
  | Response status_code page =>
      raise_for_status status_code ;;;
      total <- json_getitem page "total" ;;
      positive <- json_gt0 total ;;
      if positive : bool then
        runs <- json_getitem page "runs" ;;
        json_first runs
      else Raise AssertionError
  end.

(** [check_status_of_ingestion] with its decorator. *)
Definition check_status_of_ingestion
    (transformation_id : string) (file_id : cell) : result json :=
  retry notebook_policy
    (check_status_of_ingestion_body transformation_id file_id).

(** The local variables of [check_files_status] that the loop updates: [run]
    is unbound ([None]) until a future's result has been assigned to it. *)
Record poll_state : Type := {
  run : option json;
  status_results : list (pydict cell)
}.

(** The [except Exception as e] handler of the polling loop. *)
Definition poll_handler (st : poll_state) (file_id : cell) (e : exn)
  : result poll_state :=
  match run st with
  | None => Raise (UnboundLocalError "run")
  | Some r =>
      status <- json_getitem r "status" ;;
      Ok {| run := run st;
            status_results :=
              (status_results st ++
                 [[("file_id", file_id);
                   ("status", of_json status);
                   ("output", CNone);
                   ("error", CErr e)]])%list |}
  end.

(** One iteration of [for future in as_completed(future_to_file)] in
    [check_files_status]. *)
Definition poll_step (st : poll_state) (item : result json * cell)
  : result poll_state :=
  let (future, file_id) := item in
  match future with
  | Raise e => if is_Exception e then poll_handler st file_id e else Raise e
  | Ok r =>
      (* [run = future.result()] has rebound [run] from here on *)
      let st' := {| run := Some r; status_results := status_results st |} in
      let appended :=
        output_value <- json_get r "output" (JObj []) ;;
        let output := json_dumps output_value in
        run_id <- json_getitem r "runId" ;;
        status <- json_getitem r "status" ;;
        errors <- json_getitem r "errors" ;;
        Ok {| run := Some r;
              status_results :=
                (status_results st ++
                   [[("file_id", file_id);
                     ("run_id", of_json run_id);
                     ("status", of_json status);
                     ("output", output);
                     ("error", of_json errors)]])%list |} in
      match appended with
      | Ok st'' => Ok st''
      | Raise e => if is_Exception e then poll_handler st' file_id e else Raise e
      end
  end.

Fixpoint poll_loop (st : poll_state) (items : list (result json * cell))
  : result poll_state :=
  match items with
  | [] => Ok st
  | item :: items' => st' <- poll_step st item ;; poll_loop st' items'
  end.

(** The dict [future_to_file] of [check_files_status]: one future per
    successful file id, paired with that id. *)
Definition submit_status_checks
    (transformation_id : string) (successful_file_ids : list cell)
  : list (result json * cell) :=
  map (fun file_id =>
         (check_status_of_ingestion transformation_id file_id, file_id))
      successful_file_ids.

(** The list [status_results] of [check_files_status] when the loop ends. *)
Definition poll_results (sched : Scheduler)
    (transformation_id : string) (df : DataFrame)
  : result (list (pydict cell)) :=
  successful_file_ids <- get_successful_document_ids df ;;
  let future_to_file :=
    submit_status_checks transformation_id successful_file_ids in
  st <- poll_loop {| run := None; status_results := [] |}
                  (as_completed sched future_to_file) ;;
  Ok (status_results st).

(** [check_files_status(transformation_id, df, max_workers)] *)
Definition check_files_status (sched : Scheduler)
    (transformation_id : string) (df : DataFrame) : result DataFrame :=
  results <- poll_results sched transformation_id df ;;
  merge_left df (pd_DataFrame results) "file_id" "_ingestion" "".
End Pipeline.

(** ** Dataset ids of the completed rows *)

Fixpoint range_from (start : Z) (n : nat) : list Z :=
  match n with
  | O => []
  | S n' => start :: range_from (start + 1) n'
  end.

(** [range(n)] *)
Definition range (n : nat) : list Z := range_from 0 n.

(** [get_successful_dataset_ids(df)] *)
Definition get_successful_dataset_ids (df : DataFrame) : result (list cell) :=
  mapM (fun i =>
          output <- getcol df "output" ;;
          text <- series_getitem output i ;;
          decoded <- json_loads text ;;
          dataset_id <- json_get decoded "datasetId" JNull ;;
          Ok (of_json dataset_id))
       (range (len df)).

(** The last cell of the section:
    [get_successful_dataset_ids(status_df[status_df["status"] == "completed"])] *)
Definition successful_dataset_ids (status_df : DataFrame) : result (list cell) :=
  completed <- filter_eq status_df "status" "completed" ;;
  get_successful_dataset_ids completed.

(** ** The store-id helper *)

Definition APPLICATION_STORES_NAMESPACE : string :=
  "98215f16-4645-404f-8907-9469d95439e2".

(** [createStoreId(storeName, namespace = APPLICATION_STORES_NAMESPACE)]; an
    omitted second argument is [None]. *)
Definition createStoreId (storeName : string) (namespace : option string)
  : string :=
  let namespace :=
    match namespace with
    | Some n => n
    | None => APPLICATION_STORES_NAMESPACE
    end in
  namespace ++ "-" ++ storeName.


(** * Example platforms and stated properties *)

(** An attempt that raises a [requests.RequestException]. *)
Definition transient {A : Type} (fn : nat -> result A) (k : nat) : Prop :=
  exists e, fn k = Raise e /\ is_RequestException e = true.

(** A call that fails with HTTP 503 twice and then returns. *)
Definition flaky_twice (n : nat) : result Z :=
  if (n <? 3)%nat then Raise (HTTPError 503) else Ok 7.

(** The delays of one decorated call of the notebook. *)
Definition delays {A : Type} (fn : nat -> result A) : list Z :=
  sleeps_of (snd (retry_trace notebook_policy fn)).

(** Two consecutive delays grow, or are equal at the cap. *)
Definition increasing_or_at_cap (d1 d2 : Z) : Prop :=
  d1 < d2 \/ (d1 = d2 /\ d2 = wait_max notebook_policy).

(** A platform with no local files, where every upload is accepted and every
    status page is empty. *)
Definition env_empty_pages : Env := {|
  listdir := fun _ => Ok [];
  can_open := fun _ => false;
  post_files := fun _ name _ => Response 200 (JObj [("fileId", JStr name)]);
  get_runs := fun _ _ _ => Response 200 (JObj [("total", JNum 0); ("runs", JArr [])])
|}.

(** An empty page counted among the failures that are retried. *)
Definition empty_page_is_retried : Prop :=
  forall env transformation_id file_id n status_code page,
    get_runs env transformation_id file_id n = Response status_code page ->
    ~ (400 <= status_code < 600) ->
    json_getitem page "total" = Ok (JNum 0) ->
    exists e,
      check_status_of_ingestion_body env transformation_id file_id n = Raise e
      /\ retry_if_exception notebook_policy e = true.

(** One uploaded file whose status check answers 503 every time. *)
Definition env_status_down : Env := {|
  listdir := fun _ => Ok ["a.pdf"];
  can_open := fun _ => true;
  post_files := fun _ _ _ => Response 200 (JObj [("fileId", JStr "f1")]);
  get_runs := fun _ _ _ => Response 503 JNull
|}.

(** The phase-1 report of [env_status_down]. *)
Definition report_one_upload : DataFrame :=
  pd_DataFrame
    [[("file_path", CStr "files/a.pdf");
      ("file_id", CStr "f1");
      ("status", CStr "Success");
      ("error_type", CNone);
      ("error_message", CNone)]].

(** One listed file that cannot be opened. *)
Definition env_unreadable_file : Env := {|
  listdir := fun _ => Ok ["a.pdf"];
  can_open := fun _ => false;
  post_files := fun _ _ _ => Response 200 (JObj [("fileId", JStr "f1")]);
  get_runs := fun _ _ _ => Response 503 JNull
|}.

(** A run object as the platform returns it. *)
Definition run_json (run_id status : string) (output : json) : json :=
  JObj [("runId", JStr run_id);
        ("status", JStr status);
        ("output", output);
        ("errors", JArr [])].

Definition page_of (r : json) : json :=
  JObj [("total", JNum 1); ("runs", JArr [r])].

(** Three files: a.pdf and b.pdf are uploaded, c.pdf cannot be opened; the
    run of a.pdf is completed, the status check of b.pdf answers 503 every
    time. *)
Definition env_second_lookup_fails : Env := {|
  listdir := fun _ => Ok ["a.pdf"; "b.pdf"; "c.pdf"];
  can_open := fun path => negb (String.eqb path "files/c.pdf");
  post_files := fun _ name _ =>
    Response 200 (JObj [("fileId", JStr ("id-" ++ name))]);
  get_runs := fun _ file_id _ =>
    if key_eqb file_id (CStr "id-a.pdf")
    then Response 200
           (page_of (run_json "r1" "completed" (JObj [("datasetId", JStr "d1")])))
    else Response 503 JNull
|}.

(** A merged report with a completed, a running and a completed row. *)
Definition report_with_gap : DataFrame :=
  pd_DataFrame
    [[("status", CStr "completed");
      ("output", json_dumps (JObj [("datasetId", JStr "d1")]))];
     [("status", CStr "running");
      ("output", json_dumps JNull)];
     [("status", CStr "completed");
      ("output", json_dumps (JObj [("datasetId", JStr "d2")]))]].

(** The same rows with the running one last. *)
Definition report_without_gap : DataFrame :=
  pd_DataFrame
    [[("status", CStr "completed");
      ("output", json_dumps (JObj [("datasetId", JStr "d1")]))];
     [("status", CStr "completed");
      ("output", json_dumps (JObj [("datasetId", JStr "d2")]))];
     [("status", CStr "running");
      ("output", json_dumps JNull)]].

(** Three uploaded files whose runs are completed, running and completed. *)
Definition env_three_runs : Env := {|
  listdir := fun _ => Ok ["a.pdf"; "b.pdf"; "c.pdf"];
  can_open := fun _ => true;
  post_files := fun _ name _ =>
    Response 200 (JObj [("fileId", JStr ("id-" ++ name))]);
  get_runs := fun _ file_id _ =>
    if key_eqb file_id (CStr "id-a.pdf")
    then Response 200
           (page_of (run_json "r1" "completed" (JObj [("datasetId", JStr "d1")])))
    else if key_eqb file_id (CStr "id-b.pdf")
    then Response 200 (page_of (run_json "r2" "running" JNull))
    else Response 200
           (page_of (run_json "r3" "completed" (JObj [("datasetId", JStr "d2")])))
|}.

(** * The evaluation notebook

    The classes of notebook "5a. Evaluation (Simple)": [QATask],
    [QaEvaluationLogic] and [QaAggregationLogic], with the [Input] and
    [Output] models of the skill.  Scores are kept as exact fractions: the
    quotient of two lengths, and the mean of such quotients. *)

(** [Input] and [Output] of the Q&A skill. *)
Record Input : Type := {
  question : string;
  namespace : string;
  collection : string;
  index : string
}.

Record Output : Type := {
  answer : option string;
  sources : option (list string)
}.

Record EvaluationExpectedOutput : Type := {
  keywords : list string
}.

Record Example : Type := {
  input : Input;
  expected_output : EvaluationExpectedOutput
}.

Record QaEvaluation : Type := {
  matched_keywords : list string;
  missing_keywords : list string;
  match_score : Q;
  passed : bool
}.

Record QaAggregatedEvaluation : Type := {
  pass_rate : Q;
  average_match_score : Q
}.

(** [c.lower()] for an ASCII character. *)
Definition ascii_lower (c : ascii) : ascii :=
  let n := nat_of_ascii c in
  if ((65 <=? n) && (n <=? 90))%nat then ascii_of_nat (n + 32) else c.

(** [s.lower()] for ASCII text. *)
Fixpoint str_lower (s : string) : string :=
  match s with
  | EmptyString => EmptyString
  | String c s' => String (ascii_lower c) (str_lower s')
  end.

(** Text whose characters are all ASCII. *)
Fixpoint is_ascii (s : string) : bool :=
  match s with
  | EmptyString => true
  | String c s' => (nat_of_ascii c <? 128)%nat && is_ascii s'
  end.

(** [needle in hay] for two strs. *)
Fixpoint str_contains (needle hay : string) : bool :=
  String.prefix needle hay
  || match hay with
     | EmptyString => false
     | String _ hay' => str_contains needle hay'
     end.

(** [self.threshold] of [QaEvaluationLogic] *)
Definition threshold : Q := 1 # 2.

(** The loop of [do_evaluate_single_output] over the required keywords. *)
Definition sort_keywords (output_text : string) (required_keywords : list string)
  : list string * list string :=
  fold_left
    (fun lists keyword =>
       if str_contains (str_lower keyword) output_text
       then ((fst lists ++ [keyword])%list, snd lists)
       else (fst lists, (snd lists ++ [keyword])%list))
    required_keywords ([], []).

(** [QaEvaluationLogic.do_evaluate_single_output(example, output)] *)
Definition do_evaluate_single_output (example : Example) (output : Output)
  : result QaEvaluation :=
  let required_keywords := keywords (expected_output example) in
  match answer output with
  | None => Raise AttributeError
  | Some text =>
      let output_text := str_lower text in
      let lists := sort_keywords output_text required_keywords in
      let matched_keywords := fst lists in
      let missing_keywords := snd lists in
      let match_score :=
        match required_keywords with
        | [] => 1%Q
        | _ :: _ =>
            (Z.of_nat (length matched_keywords)
             # Pos.of_nat (length required_keywords))%Q
        end in
      let passed := Qle_bool threshold match_score in
      Ok {| matched_keywords := matched_keywords;
            missing_keywords := missing_keywords;
            match_score := match_score;
            passed := passed |}
  end.

(** [sum] of a list of fractions *)
Definition Qsum (l : list Q) : Q := fold_left Qplus l 0%Q.

(** [QaAggregationLogic.aggregate(evaluations)] *)
Definition aggregate (evaluations : list QaEvaluation) : QaAggregatedEvaluation :=
  let evaluation_list := evaluations in
  match evaluation_list with
  | [] => {| pass_rate := 0%Q; average_match_score := 0%Q |}
  | _ :: _ =>
      let passed_count := length (filter passed evaluation_list) in
      let pass_rate :=
        (Z.of_nat passed_count # Pos.of_nat (length evaluation_list))%Q in
      let average_match_score :=
        (Qsum (map match_score evaluation_list)
         / inject_Z (Z.of_nat (length evaluation_list)))%Q in
      {| pass_rate := pass_rate; average_match_score := average_match_score |}
  end.

(** What the skill endpoint gives back to [QATask.do_run]: no response at
    all, or a response whose body may or may not be JSON. *)
Inductive kernel_response : Type :=
| KernelUnreachable
| KernelResponse (status_code : Z) (body : option json).

(** Validation of the [answer] field, [str | None]. *)
Definition validate_answer (j : json) : option (option string) :=
  match j with
  | JNull => Some None
  | JStr s => Some (Some s)
  | _ => None
  end.

Fixpoint validate_str_list (items : list json) : option (list string) :=
  match items with
  | [] => Some []
  | JStr s :: items' =>
      match validate_str_list items' with
      | Some l => Some (s :: l)
      | None => None
      end
  | _ :: _ => None
  end.

(** Validation of the [sources] field, [list[str] | None]. *)
Definition validate_sources (j : json) : option (option (list string)) :=
  match j with
  | JNull => Some None
  | JArr items =>
      match validate_str_list items with
      | Some l => Some (Some l)
      | None => None
      end
  | _ => None
  end.

(** The [try] block of [QATask.do_run]; [None] when it raised (the handler
    only prints the exception). *)
Definition do_run_try (kernel : Input -> kernel_response) (input : Input)
  : option Output :=
  match kernel input with
  | KernelUnreachable => None
  | KernelResponse _ None => None
  | KernelResponse _ (Some response) =>
      match json_getitem response "answer" with
      | Raise _ => None
      | Ok answer_value =>
          match json_getitem response "sources" with
          | Raise _ => None
          | Ok sources_value =>
              match validate_answer answer_value,
                    validate_sources sources_value with
              | Some a, Some s => Some {| answer := a; sources := s |}
              | _, _ => None
              end
          end
      end
  end.

(** [QATask.do_run(input, task_span)] *)
Definition do_run (kernel : Input -> kernel_response) (input : Input) : Output :=
  match do_run_try kernel input with
  | Some output => output
  | None => {| answer := None; sources := None |}
  end.

(** * The set-up helpers of the ingestion notebook

    [get_or_create_repository], [get_or_create_stage],
    [get_or_create_collection] and [create_index_and_assign_to_collection].
    A request is named by its endpoint and arguments; the platform answers
    each request with a [response]; every helper returns its outcome together
    with the requests it made, in order. *)

Inductive request : Type :=
| ListRepositories (name : json)        (* GET {data}/repositories?name={name} *)
| CreateRepository (repository : json)  (* POST {data}/repositories *)
| ListStages (name : json)              (* GET {data}/stages?name={name} *)
| CreateStage (stage : json)            (* POST {data}/stages *)
| ListCollections (namespace : string)  (* GET {search}/collections/{namespace} *)
| CreateCollection (namespace collection : string)
                                        (* PUT {search}/collections/{namespace}/{collection} *)
| CreateIndex (namespace index_name : string) (payload : json)
                                        (* PUT {search}/indexes/{namespace}/{index_name} *)
| AssignIndex (namespace collection_name index_name : string).
                                        (* PUT {search}/collections/{namespace}/{collection_name}/indexes/{index_name} *)

Definition Platform : Type := request -> response.

(** [get_or_create_repository(repository)] *)
Definition get_or_create_repository (platform : Platform) (repository : json)
  : result json * list request :=
  match json_getitem repository "name" with
  | Raise e => (Raise e, [])
  | Ok name =>
      let listing := ListRepositories name in
      match platform listing with
      | NoResponse => (Raise ConnectionError, [listing])
      | Response status_code page =>
          match (raise_for_status status_code ;;;
                 total <- json_getitem page "total" ;;
                 json_gt0 total) with
          | Raise e => (Raise e, [listing])
          | Ok true =>
              (repositories <- json_getitem page "repositories" ;;
               first <- json_first repositories ;;
               json_getitem first "repositoryId",
               [listing])
          | Ok false =>
              let creation := CreateRepository repository in
              match platform creation with
              | NoResponse => (Raise ConnectionError, [listing; creation])
              | Response status_code' repo_created =>
                  (raise_for_status status_code' ;;;
                   json_getitem repo_created "repositoryId",
                   [listing; creation])
              end
          end
      end
  end.

(** [get_or_create_stage(stage)] *)
Definition get_or_create_stage (platform : Platform) (stage : json)
  : result json * list request :=
  match json_getitem stage "name" with
  | Raise e => (Raise e, [])
  | Ok name =>
      let listing := ListStages name in
      match platform listing with
      | NoResponse => (Raise ConnectionError, [listing])
      | Response status_code page =>
          match (raise_for_status status_code ;;;
                 total <- json_getitem page "total" ;;
                 json_gt0 total) with
          | Raise e => (Raise e, [listing])
          | Ok true =>
              (stages <- json_getitem page "stages" ;;
               first <- json_first stages ;;
               json_getitem first "stageId",
               [listing])
          | Ok false =>
              let creation := CreateStage stage in
              match platform creation with
              | NoResponse => (Raise ConnectionError, [listing; creation])
              | Response status_code' stage_created =>
                  (raise_for_status status_code' ;;;
                   json_getitem stage_created "stageId",
                   [listing; creation])
              end
          end
      end
  end.

(** [len(j)] *)
Definition json_len (j : json) : result nat :=
  match j with
  | JArr items => Ok (length items)
  | JObj members => Ok (length members)
  | JStr s => Ok (String.length s)
  | _ => Raise TypeError
  end.

(** [s in j] for a str [s]: an element of a list, a key of a dict, a
    substring of a str. *)
Definition json_contains (s : string) (j : json) : result bool :=
  match j with
  | JArr items =>
      Ok (existsb (fun item => match item with
                               | JStr s' => String.eqb s' s
                               | _ => false
                               end) items)
  | JObj members => Ok (existsb (fun member => String.eqb (fst member) s) members)
  | JStr text => Ok (str_contains s text)
  | _ => Raise TypeError
  end.

(** The strs [get_or_create_collection] returns. *)
Inductive collection_message : Type :=
| CollectionCreated (collection : string)   (* f"{collection} created" *)
| CollectionExists (collection : string)    (* f"{collection} exists" *)
| CollectionFailed (e : exn) (response : response).
                                            (* f"{e}, Response: {response}" *)

(** The [except Exception as e] handler of [get_or_create_collection];
    [response] is the local variable, unbound until a request has returned. *)
Definition collection_handler (response : option response) (e : exn)
  : result collection_message :=
  match response with
  | None => Raise (UnboundLocalError "response")
  | Some r => Ok (CollectionFailed e r)
  end.

(** [get_or_create_collection(namespace, collection)] *)
Definition get_or_create_collection (platform : Platform)
    (namespace collection : string)
  : result collection_message * list request :=
  let listing := ListCollections namespace in
  match platform listing with
  | NoResponse => (collection_handler None ConnectionError, [listing])
  | Response status_code collections_list =>
      let listed := Response status_code collections_list in
      match (raise_for_status status_code ;;;
             n <- json_len collections_list ;;
             if (n =? 0)%nat then Ok true
             else (found <- json_contains collection collections_list ;;
                   Ok (negb found))) with
      | Raise e => (collection_handler (Some listed) e, [listing])
      | Ok false => (Ok (CollectionExists collection), [listing])
      | Ok true =>
          let creation := CreateCollection namespace collection in
          match platform creation with
          | NoResponse =>
              (collection_handler (Some listed) ConnectionError,
               [listing; creation])
          | Response status_code' body =>
              match raise_for_status status_code' with
              | Raise e =>
                  (collection_handler (Some (Response status_code' body)) e,
                   [listing; creation])
              | Ok _ => (Ok (CollectionCreated collection), [listing; creation])
              end
          end
      end
  end.

(** [create_index_and_assign_to_collection(index_name, collection_name,
    namespace, chunk_size, chunk_overlap, embedding_type)] *)
Definition create_index_and_assign_to_collection (platform : Platform)
    (index_name collection_name namespace : string)
    (chunk_size chunk_overlap : Z) (embedding_type : string)
  : result unit * list request :=
  let payload := JObj [("chunk_size", JNum chunk_size);
                       ("chunk_overlap", JNum chunk_overlap);
                       ("embedding_type", JStr embedding_type)] in
  let creation := CreateIndex namespace index_name payload in
  match platform creation with
  | NoResponse => (Raise ConnectionError, [creation])
  | Response status_code _ =>
      match raise_for_status status_code with
      | Raise e => (Raise e, [creation])
      | Ok _ =>
          let assignment := AssignIndex namespace collection_name index_name in
          match platform assignment with
          | NoResponse => (Raise ConnectionError, [creation; assignment])
          | Response status_code' _ =>
              (raise_for_status status_code' ;;; Ok tt, [creation; assignment])
          end
      end
  end.

(** * The Q&A skill

    [custom_rag] of notebook "4. Skill setup", over the [Csi] interface of
    the skill SDK: search, document metadata and chat are functions of the
    record; the skill returns its output together with the Csi calls it made,
    in order.  [list(set(...))] leaves the order of the names open; the order
    is the parameter [list_of_set]. *)

Record IndexPath : Type := {
  index_namespace : string;
  index_collection : string;
  index_index : string
}.

Record DocumentPath : Type := {
  path_namespace : string;
  path_collection : string;
  path_name_of_document : string
}.

Record SearchResult : Type := {
  document_path : DocumentPath;
  content : string;
  score : Q
}.

Record Message : Type := {
  role : string;
  message_content : string
}.

Record ChatParams : Type := {
  max_tokens : Z
}.

Record ChatResponse : Type := {
  response_message : Message
}.

Record Csi : Type := {
  (** [csi.search(index, query, max_results, min_score)] *)
  search : IndexPath -> string -> Z -> Q -> list SearchResult;
  (** [csi.document_metadata(document_path)]; [None] is [JNull] *)
  document_metadata : DocumentPath -> json;
  (** [csi.chat(model, messages, params)] *)
  chat : string -> list Message -> ChatParams -> ChatResponse
}.

Inductive csi_call : Type :=
| Search (index : IndexPath) (query : string) (max_results : Z) (min_score : Q)
| DocumentMetadata (path : DocumentPath)
| Chat (model : string) (messages : list Message) (params : ChatParams).

(** A path component that counts: not empty and not ".". *)
Definition is_component (s : string) : bool :=
  negb (String.eqb s "" || String.eqb s ".").

(** [current] is the component being read, [last] the last one completed. *)
Fixpoint path_name_from (s current last : string) : string :=
  match s with
  | EmptyString => if is_component current then current else last
  | String c s' =>
      if Ascii.eqb c "/"
      then path_name_from s' "" (if is_component current then current else last)
      else path_name_from s' (current ++ String c "") last
  end.

(** [Path(s).name] on POSIX: the last component of [s] that is neither empty
    nor ".", or the empty str when there is none. *)
Definition path_name (s : string) : string := path_name_from s "" "".

Fixpoint no_slash (s : string) : bool :=
  match s with
  | EmptyString => true
  | String c s' => negb (Ascii.eqb c "/") && no_slash s'
  end.

Definition nl : string := String (ascii_of_nat 10) "".

(** [sep.join(parts)] *)
Fixpoint str_join (sep : string) (parts : list string) : string :=
  match parts with
  | [] => ""
  | [part] => part
  | part :: parts' => part ++ sep ++ str_join sep parts'
  end.

(** The f-string [content] of [custom_rag]. *)
Definition rag_prompt (context question : string) : string :=
  "Using the provided context documents below, answer the following question accurately and comprehensively. If the information is directly available in the context documents, cite it clearly. If not, use your knowledge to fill in the gaps while ensuring that the response is consistent with the given information. Do not fabricate facts or make assumptions beyond what the context or your knowledge base provides. Ensure that the response is structured, concise, and tailored to the specific question being asked."
  ++ nl ++ nl ++ "Input: " ++ context ++ nl ++ nl
  ++ "Question: " ++ question ++ nl.

(** [Path(d.get("fileName")).name] for one metadata object [d]. *)
Definition document_name (d : json) : result string :=
  file_name <- json_get d "fileName" JNull ;;
  match file_name with
  | JStr s => Ok (path_name s)
  | _ => Raise TypeError
  end.

(** [custom_rag(csi, input)] *)
Definition custom_rag (list_of_set : list string -> list string)
    (csi : Csi) (input : Input) : result Output * list csi_call :=
  let index := {| index_namespace := namespace input;
                  index_collection := collection input;
                  index_index := index input |} in
  let searching := Search index (question input) 3 (1 # 2) in
  let documents := search csi index (question input) 3 (1 # 2) in
  match documents with
  | [] => (Ok {| answer := None; sources := None |}, [searching])
  | _ :: _ =>
      let documents_metadata :=
        map (fun result => document_metadata csi (document_path result))
            documents in
      let lookups :=
        map (fun result => DocumentMetadata (document_path result)) documents in
      match mapM document_name documents_metadata with
      | Raise e => (Raise e, searching :: lookups)
      | Ok names =>
          let document_names := list_of_set names in
          let context := str_join nl (map content documents) in
          let content := rag_prompt context (question input) in
          let message := {| role := "user"; message_content := content |} in
          let params := {| max_tokens := 512 |} in
          let response := chat csi "llama-3.1-8b-instruct" [message] params in
          (Ok {| answer := Some (message_content (response_message response));
                 sources := Some document_names |},
           (searching :: lookups ++ [Chat "llama-3.1-8b-instruct" [message] params])%list)
      end
  end.

(** * Vocabulary for the further properties *)

(** The row [ingest_all_documents] appends for one finished upload. *)
Definition phase1_row (directory_path : string)
    (item : result (pydict cell) * string) : pydict cell :=
  match fst item with
  | Ok result =>
      [("file_path", CStr (os_path_join directory_path (snd item)));
       ("file_id", dict_get result "file_id" CNaN);
       ("status", CStr "Success");
       ("error_type", CNone);
       ("error_message", CNone)]
  | Raise e =>
      [("file_path", CStr (os_path_join directory_path (snd item)));
       ("file_id", CNone);
       ("status", CStr "Ingestion Failed");
       ("error", CErr e)]
  end.

(** The file id of an upload future, when the upload returned. *)
Definition uploaded_file_id (item : result (pydict cell) * string) : list cell :=
  match fst item with
  | Ok result => [dict_get result "file_id" CNaN]
  | Raise _ => []
  end.

(** A run object that has a status. *)
Definition has_status (r : json) : Prop :=
  exists members status, r = JObj members /\ dict_find members "status" = Some status.

(** No two rows of a frame have matching cells in column [key]. *)
Fixpoint distinct_keys (key : string) (rs : list (Z * pydict cell)) : Prop :=
  match rs with
  | [] => True
  | r :: rs' =>
      Forall (fun r' => key_eqb (dict_get (snd r) key CNaN)
                                (dict_get (snd r') key CNaN) = false) rs'
      /\ distinct_keys key rs'
  end.

(** The phase-1 report of [env_three_runs]. *)
Definition report_three_uploads : DataFrame :=
  pd_DataFrame
    (map (fun name =>
            [("file_path", CStr ("files/" ++ name));
             ("file_id", CStr ("id-" ++ name));
             ("status", CStr "Success");
             ("error_type", CNone);
             ("error_message", CNone)])
         ["a.pdf"; "b.pdf"; "c.pdf"]).

(** An example in the style of the notebook: an answer about encoders and
    three required keywords, one of which does not occur in it. *)
Definition example_encoder : Example := {|
  input := {| question := "What is an encoder?";
              namespace := "Studio";
              collection := "pharia-tutorial-rag";
              index := "rag-tutorial-index" |};
  expected_output := {| keywords := ["Encoder"; "pickle"; "layers"] |}
|}.

Definition output_encoder : Output := {|
  answer := Some "An encoder is a stack of identical layers.";
  sources := Some ["attention.pdf"]
|}.

(** A skill endpoint that cannot be reached. *)
Definition kernel_down (input : Input) : kernel_response := KernelUnreachable.

(** A platform on which the repository "docs" exists, every other listing
    is empty, creations are accepted and the search service is down. *)
Definition platform_with_docs : Platform :=
  fun r =>
    match r with
    | ListRepositories _ =>
        Response 200
          (JObj [("total", JNum 1);
                 ("repositories", JArr [JObj [("repositoryId", JStr "repo-1")]])])
    | CreateRepository _ => Response 201 (JObj [("repositoryId", JStr "repo-2")])
    | ListStages _ => Response 200 (JObj [("total", JNum 0); ("stages", JArr [])])
    | CreateStage _ => Response 201 (JObj [("stageId", JStr "stage-1")])
    | ListCollections _ => NoResponse
    | CreateCollection _ _ => NoResponse
    | CreateIndex _ _ _ => Response 409 JNull
    | AssignIndex _ _ _ => Response 200 JNull
    end.

(** A Csi whose search finds two passages of the same paper. *)
Definition csi_two_documents : Csi := {|
  search := fun _ _ _ _ =>
    [{| document_path := {| path_namespace := "Studio";
                            path_collection := "pharia-tutorial-rag";
                            path_name_of_document := "doc-1" |};
        content := "An encoder is a stack of layers.";
        score := 9 # 10 |};
     {| document_path := {| path_namespace := "Studio";
                            path_collection := "pharia-tutorial-rag";
                            path_name_of_document := "doc-2" |};
        content := "Each layer has two sub-layers.";
        score := 8 # 10 |}];
  document_metadata := fun _ => JObj [("fileName", JStr "files_to_upload/attention.pdf")];
  chat := fun _ _ _ =>
    {| response_message :=
         {| role := "assistant";
            message_content := "An encoder is a stack of identical layers." |} |}
|}.

(** A Csi whose documents have no metadata. *)
Definition csi_without_metadata : Csi := {|
  search := search csi_two_documents;
  document_metadata := fun _ => JNull;
  chat := chat csi_two_documents
|}.

(** The row the polling loop appends for a returned run with all its keys. *)
Definition status_row (file_id : cell) (r : json) : pydict cell :=
  match r with
  | JObj members =>
      [("file_id", file_id);
       ("run_id", of_json (dict_get members "runId" JNull));
       ("status", of_json (dict_get members "status" JNull));
       ("output", json_dumps (dict_get members "output" (JObj [])));
       ("error", of_json (dict_get members "errors" JNull))]
  | _ => []
  end.

(** A run that is completed and produced the dataset [dataset_id]. *)
Definition completed_run (r : json) (dataset_id : string) : Prop :=
  exists members run_id errors output_members,
    r = JObj members
    /\ dict_find members "runId" = Some run_id
    /\ dict_find members "status" = Some (JStr "completed")
    /\ dict_find members "errors" = Some errors
    /\ dict_find members "output" = Some (JObj output_members)
    /\ dict_find output_members "datasetId" = Some (JStr dataset_id).

(** The row of a finished status check that returned. *)
Definition status_row_of (item : result json * cell) : pydict cell :=
  match fst item with
  | Ok r => status_row (snd item) r
  | Raise _ => []
  end.

(** Two files that are uploaded and whose runs are completed; the run and
    the dataset are named after the file id. *)
Definition env_all_completed : Env := {|
  listdir := fun _ => Ok ["a.pdf"; "b.pdf"];
  can_open := fun _ => true;
  post_files := fun _ name _ =>
    Response 200 (JObj [("fileId", JStr ("id-" ++ name))]);
  get_runs := fun _ file_id _ =>
    match file_id with
    | CStr id =>
        Response 200
          (page_of (run_json ("run-" ++ id) "completed"
                      (JObj [("datasetId", JStr ("ds-" ++ id))])))
    | _ => Response 404 JNull
    end
|}.

(** A platform whose upload endpoint answers 503 twice and then accepts the
    file. *)
Definition env_flaky_upload : Env := {|
  listdir := fun _ => Ok ["a.pdf"];
  can_open := fun _ => true;
  post_files := fun _ _ attempt_number =>
    if (attempt_number <? 3)%nat then Response 503 JNull
    else Response 200 (JObj [("fileId", JStr "f1")]);
  get_runs := fun _ _ _ => Response 503 JNull
|}.

(** * Properties *)

(** ** The retry decorator *)

Section RetryFacts.
Variable A : Type.
Variable p : RetryPolicy.
Variable fn : nat -> result A.

Lemma retry_from_ok remaining n a :
  fn n = Ok a -> retry_from p fn remaining n = (Ok a, [Attempt n]).
Proof. intros H. destruct remaining; simpl; rewrite H; reflexivity. Qed.

Lemma retry_from_permanent remaining n e :
  fn n = Raise e -> retry_if_exception p e = false ->
  retry_from p fn remaining n = (Raise e, [Attempt n]).
Proof. intros H Hp. destruct remaining; simpl; rewrite H, Hp; reflexivity. Qed.

Lemma retry_from_stop n e :
  fn n = Raise e -> retry_if_exception p e = true ->
  retry_from p fn 0 n = (Raise (RetryError e), [Attempt n]).
Proof. intros H Hp. simpl. rewrite H, Hp. reflexivity. Qed.

Lemma retry_from_again remaining n e :
  fn n = Raise e -> retry_if_exception p e = true ->
  retry_from p fn (S remaining) n =
  (fst (retry_from p fn remaining (S n)),
   Attempt n :: Sleep (wait_exponential p n)
     :: snd (retry_from p fn remaining (S n))).
Proof.
  intros H Hp. simpl. rewrite H, Hp. simpl.
  destruct (retry_from p fn remaining (S n)); reflexivity.
Qed.

(** The attempts of a decorated call are numbered consecutively and there
    are at most [remaining + 1] of them. *)
Lemma retry_from_attempts remaining :
  forall n, exists k,
    (1 <= k <= S remaining)%nat /\
    attempts_of (snd (retry_from p fn remaining n)) = seq n k.
Proof.
  induction remaining as [|remaining IH]; intros n.
  - exists 1%nat. split; [lia|]. simpl.
    destruct (fn n) as [a|e]; [reflexivity|].
    destruct (retry_if_exception p e); reflexivity.
  - destruct (fn n) as [a|e] eqn:Hfn.
    + exists 1%nat. split; [lia|]. rewrite (retry_from_ok _ Hfn). reflexivity.
    + destruct (retry_if_exception p e) eqn:Hp.
      * destruct (IH (S n)) as [k [Hk Hseq]].
        exists (S k). split; [lia|].
        rewrite (retry_from_again _ Hfn Hp). simpl. rewrite Hseq. reflexivity.
      * exists 1%nat. split; [lia|].
        rewrite (retry_from_permanent _ Hfn Hp). reflexivity.
Qed.

(** Every sleep of a decorated call is a value of [wait_exponential]. *)
Lemma retry_from_sleeps remaining :
  forall n d, In d (sleeps_of (snd (retry_from p fn remaining n))) ->
  exists k, (n <= k)%nat /\ d = wait_exponential p k.
Proof.
  induction remaining as [|remaining IH]; intros n d.
  - simpl. destruct (fn n) as [a|e]; [simpl; tauto|].
    destruct (retry_if_exception p e); simpl; tauto.
  - destruct (fn n) as [a|e] eqn:Hfn.
    + rewrite (retry_from_ok _ Hfn). simpl. tauto.
    + destruct (retry_if_exception p e) eqn:Hp.
      * rewrite (retry_from_again _ Hfn Hp). simpl. intros [Hd|Hd].
        -- exists n. split; [lia | congruence].
        -- destruct (IH _ _ Hd) as [k [Hk Heq]]. exists k. split; [lia|exact Heq].
      * rewrite (retry_from_permanent _ Hfn Hp). simpl. tauto.
Qed.
End RetryFacts.

(** The waits of the notebook's policy. *)
Lemma notebook_wait_formula n :
  wait_exponential notebook_policy n
  = Z.max 2 (Z.min (1 * 2 ^ (Z.of_nat n - 1)) 10).
Proof. reflexivity. Qed.

Lemma notebook_wait_bounds n :
  2 <= wait_exponential notebook_policy n <= 10.
Proof. rewrite notebook_wait_formula. lia. Qed.

Lemma notebook_wait_monotone n m :
  (n <= m)%nat ->
  wait_exponential notebook_policy n <= wait_exponential notebook_policy m.
Proof.
  intros H. rewrite !notebook_wait_formula.
  destruct n as [|n].
  - (* attempt numbers start at 1; 2 ^ (-1) is 0 *)
    simpl. lia.
  - assert (2 ^ (Z.of_nat (S n) - 1) <= 2 ^ (Z.of_nat m - 1))
      by (apply Z.pow_le_mono_r; lia).
    lia.
Qed.

(** Both helpers of the notebook are a body under the same decorator. *)
Lemma decorated_operations env :
  (forall document_path ingestion_context name stage_id,
     ingest_document env document_path ingestion_context name stage_id
     = retry notebook_policy
         (ingest_document_body env document_path ingestion_context name stage_id))
  /\ (forall transformation_id file_id,
        check_status_of_ingestion env transformation_id file_id
        = retry notebook_policy
            (check_status_of_ingestion_body env transformation_id file_id)).
Proof. split; reflexivity. Qed.

(** A call under the notebook's decorator never makes more than 3 attempts;
    the first attempt that succeeds ends it with that result; three transient
    failures end it with [RetryError] around the third. *)
Lemma decorated_call_attempts (A : Type) (fn : nat -> result A) :
  (exists k, (1 <= k <= 3)%nat /\
     attempts_of (snd (retry_trace notebook_policy fn)) = seq 1 k)
  /\ (forall n a,
        (1 <= n <= 3)%nat ->
        (forall k, (1 <= k < n)%nat -> transient fn k) ->
        fn n = Ok a ->
        retry notebook_policy fn = Ok a /\
        attempts_of (snd (retry_trace notebook_policy fn)) = seq 1 n)
  /\ (forall e3,
        transient fn 1%nat -> transient fn 2%nat ->
        fn 3%nat = Raise e3 -> is_RequestException e3 = true ->
        retry notebook_policy fn = Raise (RetryError e3) /\
        attempts_of (snd (retry_trace notebook_policy fn)) = [1; 2; 3]%nat).
Proof.
  unfold retry, retry_trace. change (Nat.pred (stop_after_attempt notebook_policy)) with 2%nat.
  split; [apply retry_from_attempts|]. split.
  - intros n a Hn Hbefore Hok.
    assert (Hcases : n = 1%nat \/ n = 2%nat \/ n = 3%nat) by lia.
    destruct Hcases as [->|[->| ->]].
    + rewrite (retry_from_ok notebook_policy fn _ _ Hok). split; reflexivity.
    + destruct (Hbefore 1%nat ltac:(lia)) as [e1 [H1 T1]].
      rewrite (retry_from_again notebook_policy fn _ _ H1 T1).
      rewrite (retry_from_ok notebook_policy fn _ _ Hok). split; reflexivity.
    + destruct (Hbefore 1%nat ltac:(lia)) as [e1 [H1 T1]].
      destruct (Hbefore 2%nat ltac:(lia)) as [e2 [H2 T2]].
      rewrite (retry_from_again notebook_policy fn _ _ H1 T1).
      rewrite (retry_from_again notebook_policy fn _ _ H2 T2).
      rewrite (retry_from_ok notebook_policy fn _ _ Hok). split; reflexivity.
  - intros e3 [e1 [H1 T1]] [e2 [H2 T2]] H3 T3.
    rewrite (retry_from_again notebook_policy fn _ _ H1 T1).
    rewrite (retry_from_again notebook_policy fn _ _ H2 T2).
    rewrite (retry_from_stop notebook_policy fn _ H3 T3). split; reflexivity.
Qed.

(** Against C3 as stated: when the three attempts of a status check all fail
    with HTTP 503, the call makes its three attempts, but the caller does not
    get the [HTTPError] of the last attempt: it gets tenacity's
    [RetryError]. *)
Lemma final_failure_is_not_surfaced :
  ~ (forall env,
       (forall document_path ingestion_context name stage_id,
          let body :=
            ingest_document_body env document_path ingestion_context name
              stage_id in
          let call :=
            ingest_document env document_path ingestion_context name stage_id in
          let attempts := attempts_of (snd (retry_trace notebook_policy body)) in
          (forall n result,
             (1 <= n <= 3)%nat ->
             (forall k, (1 <= k < n)%nat -> transient body k) ->
             body n = Ok result ->
             call = Ok result /\ attempts = seq 1 n)
          /\ (forall e3,
                transient body 1%nat -> transient body 2%nat ->
                body 3%nat = Raise e3 -> is_RequestException e3 = true ->
                call = Raise e3 /\ attempts = [1; 2; 3]%nat))
       /\ (forall transformation_id file_id,
             let body :=
               check_status_of_ingestion_body env transformation_id file_id in
             let call :=
               check_status_of_ingestion env transformation_id file_id in
             let attempts :=
               attempts_of (snd (retry_trace notebook_policy body)) in
             (forall n run,
                (1 <= n <= 3)%nat ->
                (forall k, (1 <= k < n)%nat -> transient body k) ->
                body n = Ok run ->
                call = Ok run /\ attempts = seq 1 n)
             /\ (forall e3,
                   transient body 1%nat -> transient body 2%nat ->
                   body 3%nat = Raise e3 -> is_RequestException e3 = true ->
                   call = Raise e3 /\ attempts = [1; 2; 3]%nat))).
Proof.
  intros H.
  destruct (H env_status_down) as [_ Hstatus].
  destruct (Hstatus "t" (CStr "f1")) as [_ Hfail].
  destruct (Hfail (HTTPError 503)) as [Hcall _].
  - exists (HTTPError 503). split; reflexivity.
  - exists (HTTPError 503). split; reflexivity.
  - reflexivity.
  - reflexivity.
  - assert (Hrun : check_status_of_ingestion env_status_down "t" (CStr "f1")
                   = Raise (RetryError (HTTPError 503))) by reflexivity.
    rewrite Hrun in Hcall. discriminate Hcall.
Qed.

(** C3, amended. For [ingest_document] and for [check_status_of_ingestion]: a
    call never makes more than 3 attempts of its body; if attempt [n] is the
    first one that succeeds, its result is returned and the attempts made are
    exactly 1..n; if the three attempts all raise a transient failure, exactly
    the attempts 1, 2, 3 are made and the call ends with tenacity's
    [RetryError] holding the failure of the third attempt, not with that
    failure itself. *)
Theorem retry_first_success_or_three_attempts env :
  (forall document_path ingestion_context name stage_id,
     let body :=
       ingest_document_body env document_path ingestion_context name stage_id in
     let call :=
       ingest_document env document_path ingestion_context name stage_id in
     let attempts := attempts_of (snd (retry_trace notebook_policy body)) in
     (exists k, (1 <= k <= 3)%nat /\ attempts = seq 1 k)
     /\ (forall n result,
           (1 <= n <= 3)%nat ->
           (forall k, (1 <= k < n)%nat -> transient body k) ->
           body n = Ok result ->
           call = Ok result /\ attempts = seq 1 n)
     /\ (forall e3,
           transient body 1%nat -> transient body 2%nat ->
           body 3%nat = Raise e3 -> is_RequestException e3 = true ->
           call = Raise (RetryError e3) /\ attempts = [1; 2; 3]%nat))
  /\ (forall transformation_id file_id,
        let body :=
          check_status_of_ingestion_body env transformation_id file_id in
        let call := check_status_of_ingestion env transformation_id file_id in
        let attempts := attempts_of (snd (retry_trace notebook_policy body)) in
        (exists k, (1 <= k <= 3)%nat /\ attempts = seq 1 k)
        /\ (forall n run,
              (1 <= n <= 3)%nat ->
              (forall k, (1 <= k < n)%nat -> transient body k) ->
              body n = Ok run ->
              call = Ok run /\ attempts = seq 1 n)
        /\ (forall e3,
              transient body 1%nat -> transient body 2%nat ->
              body 3%nat = Raise e3 -> is_RequestException e3 = true ->
              call = Raise (RetryError e3) /\ attempts = [1; 2; 3]%nat)).
Proof.
  split.
  - intros document_path ingestion_context name stage_id body call attempts.
    exact (decorated_call_attempts body).
  - intros transformation_id file_id body call attempts.
    exact (decorated_call_attempts body).
Qed.

Lemma retry_first_success_or_three_attempts_witness :
  ingest_document env_flaky_upload "files/a.pdf" JNull "a.pdf" "stage"
  = Ok [("file_id", CStr "f1");
        ("status", CStr "Success");
        ("error_type", CNone);
        ("error_message", CNone)]
  /\ attempts_of
       (snd (retry_trace notebook_policy
               (ingest_document_body env_flaky_upload "files/a.pdf" JNull
                  "a.pdf" "stage")))
     = [1; 2; 3]%nat.
Proof.
  apply (proj1 (proj2 (proj1 (retry_first_success_or_three_attempts
                                env_flaky_upload)
                         "files/a.pdf" JNull "a.pdf" "stage"))
           3%nat).
  - lia.
  - intros k Hk. exists (HTTPError 503). split; [|reflexivity].
    assert (Hcases : k = 1%nat \/ k = 2%nat) by lia.
    destruct Hcases as [-> | ->]; reflexivity.
  - reflexivity.
Defined.

(** ** Delays between attempts *)

(** A decorated call sleeps after every attempt but the last, for the time
    [wait_exponential] gives for that attempt. *)
Lemma retry_from_sleeps_follow_attempts (A : Type) p (fn : nat -> result A) :
  forall remaining n,
    sleeps_of (snd (retry_from p fn remaining n))
    = map (wait_exponential p)
          (removelast (attempts_of (snd (retry_from p fn remaining n)))).
Proof.
  induction remaining as [|remaining IH]; intros n.
  - simpl. destruct (fn n) as [a|e]; [reflexivity|].
    destruct (retry_if_exception p e); reflexivity.
  - destruct (fn n) as [a|e] eqn:Hfn.
    + rewrite (retry_from_ok p fn _ _ Hfn). reflexivity.
    + destruct (retry_if_exception p e) eqn:Hp.
      * rewrite (retry_from_again p fn _ _ Hfn Hp).
        destruct (retry_from_attempts p fn remaining (S n)) as [k [Hk Hseq]].
        cbn [snd sleeps_of attempts_of flat_map app].
        fold (sleeps_of (snd (retry_from p fn remaining (S n)))).
        fold (attempts_of (snd (retry_from p fn remaining (S n)))).
        rewrite IH, Hseq.
        destruct k as [|k]; [lia|]. reflexivity.
      * rewrite (retry_from_permanent p fn _ _ Hfn Hp). reflexivity.
Qed.

(** Against C4 as stated: in the run that fails twice and then succeeds both
    delays are 2; they are equal although neither is at the cap of 10. *)
Lemma delays_equal_below_cap :
  ~ (forall (fn : nat -> result Z) (a : Z),
       transient fn 1%nat -> transient fn 2%nat -> fn 3%nat = Ok a ->
       exists d1 d2,
         delays fn = [d1; d2] /\ 2 <= d1 <= 10 /\ 2 <= d2 <= 10 /\
         increasing_or_at_cap d1 d2).
Proof.
  intros H.
  destruct (H flaky_twice 7) as [d1 [d2 [Hd [_ [_ Hinc]]]]].
  - exists (HTTPError 503). split; reflexivity.
  - exists (HTTPError 503). split; reflexivity.
  - reflexivity.
  - assert (Hrun : delays flaky_twice = [2; 2]) by reflexivity.
    rewrite Hrun in Hd. injection Hd as <- <-.
    destruct Hinc as [Hlt | [_ Hcap]].
    + lia.
    + discriminate Hcap.
Qed.

(** C4, amended. The wait after attempt [n] is
    [min(10, 1 * 2^(n-1))] clamped to [2, 10]; every call sleeps exactly that
    long after each attempt but its last; the waits never decrease from one
    attempt to the next; and a run that fails on attempts 1 and 2 and
    succeeds on attempt 3 returns that success after the two delays 2 and 2,
    each within [2, 10], the second not smaller than the first. *)
Theorem retry_delays_clamped_and_nondecreasing :
  (forall n,
     wait_exponential notebook_policy n
     = Z.max 2 (Z.min 10 (1 * 2 ^ (Z.of_nat n - 1)))
     /\ 2 <= wait_exponential notebook_policy n <= 10)
  /\ (forall n m, (n <= m)%nat ->
        wait_exponential notebook_policy n <= wait_exponential notebook_policy m)
  /\ (forall (A : Type) (fn : nat -> result A),
        delays fn
        = map (wait_exponential notebook_policy)
              (removelast (attempts_of (snd (retry_trace notebook_policy fn)))))
  /\ (forall (A : Type) (fn : nat -> result A) (a : A),
        transient fn 1%nat -> transient fn 2%nat -> fn 3%nat = Ok a ->
        retry notebook_policy fn = Ok a /\
        delays fn = [2; 2]).
Proof.
  split; [|split; [|split]].
  - intros n. split; [|apply notebook_wait_bounds].
    rewrite notebook_wait_formula, (Z.min_comm 10). reflexivity.
  - apply notebook_wait_monotone.
  - intros A fn. apply retry_from_sleeps_follow_attempts.
  - intros A fn a [e1 [H1 T1]] [e2 [H2 T2]] H3.
    unfold delays, retry, retry_trace.
    change (Nat.pred (stop_after_attempt notebook_policy)) with 2%nat.
    rewrite (retry_from_again notebook_policy fn _ _ H1 T1).
    rewrite (retry_from_again notebook_policy fn _ _ H2 T2).
    rewrite (retry_from_ok notebook_policy fn _ _ H3).
    split; reflexivity.
Qed.

Lemma retry_delays_clamped_and_nondecreasing_witness :
  retry notebook_policy flaky_twice = Ok 7 /\ delays flaky_twice = [2; 2].
Proof.
  apply (proj2 (proj2 (proj2 retry_delays_clamped_and_nondecreasing))
           Z flaky_twice 7).
  - exists (HTTPError 503). split; reflexivity.
  - exists (HTTPError 503). split; reflexivity.
  - reflexivity.
Defined.

(** ** Permanent failures *)

Lemma retry_permanent_once (A : Type) (fn : nat -> result A) e :
  fn 1%nat = Raise e -> is_RequestException e = false ->
  retry_trace notebook_policy fn = (Raise e, [Attempt 1]).
Proof.
  intros H Hp. unfold retry_trace.
  apply (retry_from_permanent notebook_policy fn _ _ H Hp).
Qed.

Lemma raise_for_status_ok status_code :
  ~ (400 <= status_code < 600) -> raise_for_status status_code = Ok tt.
Proof.
  intros H. unfold raise_for_status.
  destruct (Z.leb_spec 400 status_code), (Z.ltb_spec status_code 600);
    simpl; try reflexivity; lia.
Qed.

Lemma raise_for_status_error status_code :
  400 <= status_code < 600 ->
  raise_for_status status_code = Raise (HTTPError status_code).
Proof.
  intros H. unfold raise_for_status.
  destruct (Z.leb_spec 400 status_code), (Z.ltb_spec status_code 600);
    simpl; try reflexivity; lia.
Qed.

Section StatusCheck.
Variable env : Env.
Variables (transformation_id : string) (file_id : cell) (n : nat).

Lemma status_body_no_response :
  get_runs env transformation_id file_id n = NoResponse ->
  check_status_of_ingestion_body env transformation_id file_id n
  = Raise ConnectionError.
Proof. intros H. unfold check_status_of_ingestion_body. rewrite H. reflexivity. Qed.

Lemma status_body_http_error status_code page :
  get_runs env transformation_id file_id n = Response status_code page ->
  400 <= status_code < 600 ->
  check_status_of_ingestion_body env transformation_id file_id n
  = Raise (HTTPError status_code).
Proof.
  intros H Hc. unfold check_status_of_ingestion_body.
  rewrite H, (raise_for_status_error Hc). reflexivity.
Qed.

Lemma status_body_empty_page status_code page :
  get_runs env transformation_id file_id n = Response status_code page ->
  ~ (400 <= status_code < 600) ->
  json_getitem page "total" = Ok (JNum 0) ->
  check_status_of_ingestion_body env transformation_id file_id n
  = Raise AssertionError.
Proof.
  intros H Hc Ht. unfold check_status_of_ingestion_body.
  rewrite H, (raise_for_status_ok Hc). simpl. rewrite Ht. reflexivity.
Qed.

Lemma status_body_first_run status_code page total r rest :
  get_runs env transformation_id file_id n = Response status_code page ->
  ~ (400 <= status_code < 600) ->
  json_getitem page "total" = Ok (JNum total) -> 0 < total ->
  json_getitem page "runs" = Ok (JArr (r :: rest)) ->
  check_status_of_ingestion_body env transformation_id file_id n = Ok r.
Proof.
  intros H Hc Ht Hpos Hr. unfold check_status_of_ingestion_body.
  rewrite H, (raise_for_status_ok Hc). simpl. rewrite Ht. simpl.
  destruct (Z.ltb_spec 0 total); [|lia].
  rewrite Hr. reflexivity.
Qed.
End StatusCheck.

(** C6. A failure that is not a [requests.RequestException] ends the call
    after exactly one attempt and reaches the caller unchanged: so for any
    decorated operation, for [ingest_document] when the local file cannot be
    opened, and for [check_status_of_ingestion] when the page is empty. *)
Theorem permanent_failure_is_not_retried env :
  (forall (A : Type) (fn : nat -> result A) e,
     fn 1%nat = Raise e -> is_RequestException e = false ->
     retry_trace notebook_policy fn = (Raise e, [Attempt 1]))
  /\ (forall document_path ingestion_context name stage_id,
        can_open env document_path = false ->
        retry_trace notebook_policy
          (ingest_document_body env document_path ingestion_context name stage_id)
        = (Raise (FileNotFoundError document_path), [Attempt 1])
        /\ ingest_document env document_path ingestion_context name stage_id
           = Raise (FileNotFoundError document_path))
  /\ (forall transformation_id file_id status_code page,
        get_runs env transformation_id file_id 1%nat = Response status_code page ->
        ~ (400 <= status_code < 600) ->
        json_getitem page "total" = Ok (JNum 0) ->
        retry_trace notebook_policy
          (check_status_of_ingestion_body env transformation_id file_id)
        = (Raise AssertionError, [Attempt 1])
        /\ check_status_of_ingestion env transformation_id file_id
           = Raise AssertionError).
Proof.
  split; [|split].
  - intros A fn e. apply retry_permanent_once.
  - intros document_path ingestion_context name stage_id Hopen.
    assert (Htrace :
      retry_trace notebook_policy
        (ingest_document_body env document_path ingestion_context name stage_id)
      = (Raise (FileNotFoundError document_path), [Attempt 1])).
    { apply retry_permanent_once; [|reflexivity].
      unfold ingest_document_body. rewrite Hopen. reflexivity. }
    split; [exact Htrace|].
    unfold ingest_document, retry. rewrite Htrace. reflexivity.
  - intros transformation_id file_id status_code page Hget Hcode Htotal.
    assert (Htrace :
      retry_trace notebook_policy
        (check_status_of_ingestion_body env transformation_id file_id)
      = (Raise AssertionError, [Attempt 1])).
    { apply retry_permanent_once; [|reflexivity].
      exact (status_body_empty_page env transformation_id file_id 1 Hget Hcode Htotal). }
    split; [exact Htrace|].
    unfold check_status_of_ingestion, retry. rewrite Htrace. reflexivity.
Qed.

Lemma permanent_failure_is_not_retried_witness :
  retry_trace notebook_policy
    (ingest_document_body env_empty_pages "files/a.pdf" JNull "a.pdf" "stage")
  = (Raise (FileNotFoundError "files/a.pdf"), [Attempt 1])
  /\ ingest_document env_empty_pages "files/a.pdf" JNull "a.pdf" "stage"
     = Raise (FileNotFoundError "files/a.pdf").
Proof.
  apply (proj1 (proj2 (permanent_failure_is_not_retried env_empty_pages))).
  reflexivity.
Defined.

(** ** Classification of the status check's failures *)

(** Against C5 as stated: on a platform that answers 200 with an empty page
    the status check stops after its first attempt with [AssertionError]; the
    empty page is not retried. *)
Lemma empty_page_not_retried :
  retry_trace notebook_policy
    (check_status_of_ingestion_body env_empty_pages "t" (CStr "f1"))
  = (Raise AssertionError, [Attempt 1])
  /\ ~ empty_page_is_retried.
Proof.
  split; [reflexivity|].
  intros H.
  destruct (H env_empty_pages "t" (CStr "f1") 1%nat 200
              (JObj [("total", JNum 0); ("runs", JArr [])]))
    as [e [Hraise Hretry]].
  - reflexivity.
  - lia.
  - reflexivity.
  - simpl in Hraise. injection Hraise as <-. discriminate Hretry.
Qed.

(** C5, amended. For [check_status_of_ingestion]: a connection error and a
    4xx or 5xx status raise a [requests.RequestException], which the
    decorator retries; an empty page ([total == 0]) fails the assertion with
    [AssertionError], which the decorator does not retry: on the first
    attempt it ends the call after that one attempt; and when [total > 0] the
    first run of the page is returned. *)
Theorem status_check_failure_classes env transformation_id file_id :
  (forall n,
     get_runs env transformation_id file_id n = NoResponse ->
     check_status_of_ingestion_body env transformation_id file_id n
     = Raise ConnectionError
     /\ retry_if_exception notebook_policy ConnectionError = true)
  /\ (forall n status_code page,
        get_runs env transformation_id file_id n = Response status_code page ->
        400 <= status_code < 600 ->
        check_status_of_ingestion_body env transformation_id file_id n
        = Raise (HTTPError status_code)
        /\ retry_if_exception notebook_policy (HTTPError status_code) = true)
  /\ (forall n status_code page,
        get_runs env transformation_id file_id n = Response status_code page ->
        ~ (400 <= status_code < 600) ->
        json_getitem page "total" = Ok (JNum 0) ->
        check_status_of_ingestion_body env transformation_id file_id n
        = Raise AssertionError
        /\ retry_if_exception notebook_policy AssertionError = false
        /\ (n = 1%nat ->
            retry_trace notebook_policy
              (check_status_of_ingestion_body env transformation_id file_id)
            = (Raise AssertionError, [Attempt 1])))
  /\ (forall n status_code page total r rest,
        get_runs env transformation_id file_id n = Response status_code page ->
        ~ (400 <= status_code < 600) ->
        json_getitem page "total" = Ok (JNum total) -> 0 < total ->
        json_getitem page "runs" = Ok (JArr (r :: rest)) ->
        check_status_of_ingestion_body env transformation_id file_id n = Ok r).
Proof.
  split; [|split; [|split]].
  - intros n H. split; [|reflexivity].
    apply status_body_no_response, H.
  - intros n status_code page H Hc. split; [|reflexivity].
    exact (status_body_http_error env transformation_id file_id n H Hc).
  - intros n status_code page H Hc Ht.
    pose proof (status_body_empty_page env transformation_id file_id n H Hc Ht)
      as Hbody.
    split; [exact Hbody|]. split; [reflexivity|].
    intros ->. apply retry_permanent_once; [exact Hbody | reflexivity].
  - intros n status_code page total r rest.
    apply status_body_first_run.
Qed.

Lemma status_check_failure_classes_witness :
  check_status_of_ingestion_body env_empty_pages "t" (CStr "f1") 1
  = Raise AssertionError
  /\ retry_if_exception notebook_policy AssertionError = false
  /\ (1%nat = 1%nat ->
      retry_trace notebook_policy
        (check_status_of_ingestion_body env_empty_pages "t" (CStr "f1"))
      = (Raise AssertionError, [Attempt 1])).
Proof.
  apply (proj1 (proj2 (proj2
           (status_check_failure_classes env_empty_pages "t" (CStr "f1"))))
           1%nat 200 (JObj [("total", JNum 0); ("runs", JArr [])])).
  - reflexivity.
  - lia.
  - reflexivity.
Defined.

(** ** The store-id helper *)

(** C10. [createStoreId] is a function of its arguments alone: with the
    namespace omitted it returns the fixed namespace id, a hyphen and the
    store name; with a namespace given it returns that namespace, a hyphen
    and the store name. *)
Theorem createStoreId_concatenates storeName :
  createStoreId storeName None
  = "98215f16-4645-404f-8907-9469d95439e2-" ++ storeName
  /\ (forall namespace,
        createStoreId storeName (Some namespace)
        = namespace ++ "-" ++ storeName).
Proof. split; reflexivity. Qed.

(** ** Phase 1 accounts for every file *)

Lemma mapM_total (A B : Type) (f : A -> result B) (l : list A) :
  (forall a, exists b, f a = Ok b) ->
  exists bs, mapM f l = Ok bs /\ length bs = length l.
Proof.
  intros Hf. induction l as [|a l [bs [Hbs Hlen]]].
  - exists []. split; reflexivity.
  - destruct (Hf a) as [b Hb]. exists (b :: bs).
    simpl. rewrite Hb. simpl. rewrite Hbs. simpl. split; [reflexivity | lia].
Qed.

Lemma mapM_map (A B C : Type) (f : A -> result B) (g : B -> C) (h : A -> C) :
  (forall a b, f a = Ok b -> g b = h a) ->
  forall l bs, mapM f l = Ok bs -> map g bs = map h l.
Proof.
  intros Hgh. induction l as [|a l IH]; intros bs H; simpl in H.
  - injection H as <-. reflexivity.
  - destruct (f a) as [b|e] eqn:Hb; [|discriminate]. simpl in H.
    destruct (mapM f l) as [bs'|e]; [|discriminate]. simpl in H.
    injection H as <-. simpl. rewrite (Hgh _ _ Hb), (IH bs' eq_refl). reflexivity.
Qed.

(** The loop body of phase 1 never raises, and its row names the file. *)
Lemma ingest_row_total directory_path item :
  exists row, ingest_row directory_path item = Ok row.
Proof.
  destruct item as [future file_name]. unfold ingest_row, try_except.
  match goal with |- exists row, match ?body with _ => _ end = _ =>
    destruct body as [row|e] end; eexists; reflexivity.
Qed.

Lemma ingest_row_file_path directory_path item row :
  ingest_row directory_path item = Ok row ->
  dict_find row "file_path" = Some (CStr (os_path_join directory_path (snd item))).
Proof.
  destruct item as [future file_name]. unfold ingest_row, try_except.
  match goal with |- match ?body with _ => _ end = _ -> _ =>
    destruct body as [row'|e] eqn:Hbody end.
  - intros H. injection H as <-.
    destruct future as [result|e]; [|discriminate]. simpl in Hbody.
    repeat match type of Hbody with
           | bind ?m _ = _ => destruct m; [simpl in Hbody | discriminate]
           end.
    injection Hbody as <-. reflexivity.
  - simpl. intros H. injection H as <-. reflexivity.
Qed.

Lemma enumerate_from_length (A : Type) (l : list A) :
  forall label, length (enumerate_from label l) = length l.
Proof. induction l as [|a l IH]; intros label; simpl; [|rewrite IH]; reflexivity. Qed.

Lemma len_pd_DataFrame records : len (pd_DataFrame records) = length records.
Proof.
  unfold len, pd_DataFrame. simpl.
  rewrite enumerate_from_length, length_map. reflexivity.
Qed.

(** X1. [ingest_all_documents] returns a report with one row per listed file,
    whatever the uploads did and in whatever order they finished: the rows'
    [file_path]s are the listed files, each once. *)
Lemma ingest_all_documents_complete env sched
    directory_path ingestion_context stage_id files :
  listdir env directory_path = Ok files ->
  fair sched ->
  exists results,
    ingest_results env sched directory_path ingestion_context stage_id
    = Ok results
    /\ ingest_all_documents env sched directory_path ingestion_context stage_id
       = Ok (pd_DataFrame results)
    /\ len (pd_DataFrame results) = length files
    /\ Permutation
         (map (fun row => dict_find row "file_path") results)
         (map (fun file => Some (CStr (os_path_join directory_path file))) files).
Proof.
  intros Hls Hfair.
  unfold ingest_all_documents, ingest_results. rewrite Hls. simpl.
  set (futures := submit_uploads env directory_path ingestion_context stage_id files).
  destruct (mapM_total (ingest_row directory_path) (as_completed sched futures)
              (ingest_row_total directory_path)) as [results [Hres Hlen]].
  exists results. rewrite Hres. simpl.
  pose proof (Hfair _ futures) as Hperm.
  split; [reflexivity|]. split; [reflexivity|]. split.
  - rewrite len_pd_DataFrame, Hlen, (Permutation_length Hperm).
    unfold futures, submit_uploads. apply length_map.
  - rewrite (mapM_map (ingest_row directory_path)
               (fun row => dict_find row "file_path")
               (fun item => Some (CStr (os_path_join directory_path (snd item))))
               (ingest_row_file_path directory_path) _ Hres).
    eapply Permutation_trans.
    + apply Permutation_map, Hperm.
    + unfold futures, submit_uploads. rewrite map_map. simpl. apply Permutation_refl.
Qed.

(** ** Phase 2: the handler of the polling loop *)

Lemma as_completed_singleton sched (A : Type) (x : A) :
  fair sched -> as_completed sched [x] = [x].
Proof.
  intros Hfair. apply Permutation_length_1_inv, Permutation_sym, Hfair.
Qed.

(** After an iteration whose future returned, [run] is bound to that
    future's result, whether or not the row could be built. *)
Lemma poll_step_binds_run st r file_id st' :
  poll_step st (Ok r, file_id) = Ok st' -> run st' = Some r.
Proof.
  unfold poll_step.
  match goal with |- match ?appended with _ => _ end = _ -> _ =>
    destruct appended as [st''|e] eqn:Happ end.
  - intros H. injection H as <-.
    repeat match type of Happ with
           | bind ?m _ = _ => destruct m; [simpl in Happ | discriminate]
           end.
    injection Happ as <-. reflexivity.
  - simpl. unfold poll_handler. simpl.
    destruct (json_getitem r "status"); simpl; [|discriminate].
    intros H. injection H as <-. reflexivity.
Qed.

(** An iteration whose future raised, entered with [run] unbound. *)
Lemma poll_step_unbound rs e file_id :
  poll_step {| run := None; status_results := rs |} (Raise e, file_id)
  = Raise (UnboundLocalError "run").
Proof. reflexivity. Qed.

(** An iteration whose future raised, entered with [run] bound. *)
Lemma poll_step_stale r rs e file_id status :
  json_getitem r "status" = Ok status ->
  poll_step {| run := Some r; status_results := rs |} (Raise e, file_id)
  = Ok {| run := Some r;
          status_results :=
            (rs ++ [[("file_id", file_id);
                     ("status", of_json status);
                     ("output", CNone);
                     ("error", CErr e)]])%list |}.
Proof. intros H. simpl. unfold poll_handler. simpl. rewrite H. reflexivity. Qed.

(** C1, at an input where it fails. One file is uploaded and its status
    check fails on every attempt.  Phase 1 returns its one-row report; the
    retries of the status check end with [RetryError]; and
    [check_files_status] then ends with [UnboundLocalError]: the failure of
    the item leaves the batch driver and no report is returned. *)
Theorem status_failure_leaves_check_files_status sched :
  fair sched ->
  ingest_all_documents env_status_down sched "files" JNull "stage"
  = Ok report_one_upload
  /\ len report_one_upload = 1%nat
  /\ check_status_of_ingestion env_status_down "t" (CStr "f1")
     = Raise (RetryError (HTTPError 503))
  /\ check_files_status env_status_down sched "t" report_one_upload
     = Raise (UnboundLocalError "run").
Proof.
  intros Hfair. split; [|split; [|split]].
  - unfold ingest_all_documents, ingest_results. simpl listdir. cbn [bind].
    unfold submit_uploads. cbn [map].
    rewrite (as_completed_singleton _ Hfair). reflexivity.
  - reflexivity.
  - reflexivity.
  - unfold check_files_status, poll_results.
    change (get_successful_document_ids report_one_upload) with (Ok [CStr "f1"]).
    cbn [bind]. unfold submit_status_checks. cbn [map].
    rewrite (as_completed_singleton _ Hfair). reflexivity.
Qed.

Lemma submission_order_fair : fair submission_order.
Proof. intros A l. apply Permutation_refl. Defined.

Lemma status_failure_leaves_check_files_status_witness :
  ingest_all_documents env_status_down submission_order "files" JNull "stage"
  = Ok report_one_upload
  /\ len report_one_upload = 1%nat
  /\ check_status_of_ingestion env_status_down "t" (CStr "f1")
     = Raise (RetryError (HTTPError 503))
  /\ check_files_status env_status_down submission_order "t" report_one_upload
     = Raise (UnboundLocalError "run").
Proof.
  apply (status_failure_leaves_check_files_status submission_order_fair).
Defined.

(** ** Poll targets and the merged report *)

(** The ids polled in phase 2 are the [file_id]s of the rows of the phase-1
    report whose status is "Success", in row order. *)
Lemma poll_targets_are_success_rows df successful_file_ids :
  get_successful_document_ids df = Ok successful_file_ids ->
  successful_file_ids
  = map (fun r => dict_get (snd r) "file_id" CNaN)
        (filter (fun r => cell_eq_str (dict_get (snd r) "status" CNaN) "Success")
                (rows df)).
Proof.
  unfold get_successful_document_ids, filter_eq, getcol.
  destruct (has_column (columns df) "status"); [|discriminate].
  cbn [bind columns rows].
  destruct (has_column (columns df) "file_id"); [|discriminate].
  cbn [bind]. intros H. injection H as <-.
  unfold tolist. rewrite map_map. reflexivity.
Qed.



(** Without a successful upload there is nothing to merge with: the frame
    built from the empty [status_results] has no [file_id] column and the
    merge ends with [KeyError]; for an empty directory the phase-1 report has
    no [status] column either. *)
Lemma check_files_status_without_success :
  (exists df,
     ingest_all_documents env_unreadable_file submission_order
       "files" JNull "stage" = Ok df
     /\ len df = 1%nat
     /\ get_successful_document_ids df = Ok []
     /\ check_files_status env_unreadable_file submission_order "t" df
        = Raise (KeyError (KStr "file_id")))
  /\ (exists df,
        ingest_all_documents env_empty_pages submission_order
          "files" JNull "stage" = Ok df
        /\ len df = 0%nat
        /\ check_files_status env_empty_pages submission_order "t" df
           = Raise (KeyError (KStr "status"))).
Proof.
  split; eexists; (split; [vm_compute; reflexivity|]);
    repeat split; vm_compute; reflexivity.
Qed.

(** C7, at an input where it fails. a.pdf and b.pdf are uploaded and c.pdf
    fails phase 1.  Only the two successful ids are polled and all three
    rows reach the merged report, the row of c.pdf with a missing status.
    But the status check of b.pdf fails, and its row carries the status
    "completed" of a.pdf's run, which was polled before it, instead of a
    null status; when b.pdf's check is the first to finish, no merged report
    is returned at all. *)
Theorem failed_lookup_row_has_status_of_other_item :
  exists df merged,
    ingest_all_documents env_second_lookup_fails submission_order
      "files" JNull "stage" = Ok df
    /\ getcol df "status"
       = Ok [(0, CStr "Success"); (1, CStr "Success"); (2, CStr "Ingestion Failed")]
    /\ get_successful_document_ids df = Ok [CStr "id-a.pdf"; CStr "id-b.pdf"]
    /\ check_status_of_ingestion env_second_lookup_fails "t" (CStr "id-b.pdf")
       = Raise (RetryError (HTTPError 503))
    /\ check_files_status env_second_lookup_fails submission_order "t" df
       = Ok merged
    /\ getcol merged "file_path"
       = Ok [(0, CStr "files/a.pdf"); (1, CStr "files/b.pdf"); (2, CStr "files/c.pdf")]
    /\ getcol merged "status"
       = Ok [(0, CStr "completed"); (1, CStr "completed"); (2, CNaN)]
    /\ getcol merged "output"
       = Ok [(0, CText (JObj [("datasetId", JStr "d1")])); (1, CNone); (2, CNaN)]
    /\ check_files_status env_second_lookup_fails reverse_order "t" df
       = Raise (UnboundLocalError "run").
Proof.
  eexists. eexists.
  split; [vm_compute; reflexivity|].
  split; [vm_compute; reflexivity|].
  split; [vm_compute; reflexivity|].
  split; [vm_compute; reflexivity|].
  split; [vm_compute; reflexivity|].
  repeat split; vm_compute; reflexivity.
Qed.

(** ** Dataset ids of the completed rows *)

(** C8, at an input where it fails. For the report with rows completed
    (d1), running, completed (d2), the completed rows keep the labels 0 and 2;
    [get_successful_dataset_ids] then asks the output column for the label 1
    and ends with [KeyError] instead of returning d1 and d2.  The same happens
    to the report the pipeline itself builds for three such files.  With the
    running row last, the labels are 0 and 1 and d1, d2 are returned. *)
Theorem dataset_ids_of_completed_rows_key_error :
  (exists completed,
     filter_eq report_with_gap "status" "completed" = Ok completed
     /\ map fst (rows completed) = [0; 2]
     /\ len completed = 2%nat)
  /\ successful_dataset_ids report_with_gap = Raise (KeyError (KInt 1))
  /\ (exists df status_df,
        ingest_all_documents env_three_runs submission_order
          "files" JNull "stage" = Ok df
        /\ check_files_status env_three_runs submission_order "t" df
           = Ok status_df
        /\ getcol status_df "status"
           = Ok [(0, CStr "completed"); (1, CStr "running"); (2, CStr "completed")]
        /\ successful_dataset_ids status_df = Raise (KeyError (KInt 1)))
  /\ successful_dataset_ids report_without_gap = Ok [CStr "d1"; CStr "d2"].
Proof.
  split; [eexists; repeat split; vm_compute; reflexivity|].
  split; [vm_compute; reflexivity|].
  split; [|vm_compute; reflexivity].
  eexists. eexists.
  split; [vm_compute; reflexivity|].
  repeat split; vm_compute; reflexivity.
Qed.

(** When the labels of a frame are 0, 1, ..., n-1, the loop of
    [get_successful_dataset_ids] reads the output cells in row order: a
    lookup by label is then a lookup by position. *)
Lemma mapM_ext (A B : Type) (f g : A -> result B) (l : list A) :
  (forall a, f a = g a) -> mapM f l = mapM g l.
Proof.
  intros Hfg. induction l as [|a l IH]; simpl; [reflexivity|].
  rewrite Hfg, IH. reflexivity.
Qed.

Lemma mapM_over_map (A B C : Type) (f : B -> result C) (g : A -> B) (l : list A) :
  mapM f (map g l) = mapM (fun a => f (g a)) l.
Proof.
  induction l as [|a l IH]; simpl; [reflexivity|]. rewrite IH. reflexivity.
Qed.

Lemma series_getitem_skip (pre rest : Series) (i : Z) :
  (forall x, In x pre -> fst x <> i) ->
  series_getitem (pre ++ rest)%list i = series_getitem rest i.
Proof.
  induction pre as [|[label c] pre IH]; intros Hpre; simpl; [reflexivity|].
  destruct (Z.eqb_spec label i) as [Heq|Hne].
  - exfalso. apply (Hpre (label, c)); [left; reflexivity | exact Heq].
  - apply IH. intros x Hx. apply Hpre. right. exact Hx.
Qed.

Lemma series_lookup_in_order (B : Type) (h : cell -> result B) (s : Series) :
  forall (pre : Series) (start : Z),
    (forall x, In x pre -> fst x < start) ->
    map fst s = range_from start (length s) ->
    mapM (fun i => c <- series_getitem (pre ++ s)%list i ;; h c)
         (range_from start (length s))
    = mapM (fun x => h (snd x)) s.
Proof.
  induction s as [|[label c] s IH]; intros pre start Hpre Hlabels.
  - reflexivity.
  - simpl in Hlabels. injection Hlabels as -> Hrest.
    cbn [length range_from mapM snd].
    rewrite series_getitem_skip
      by (intros x Hx; specialize (Hpre x Hx); lia).
    cbn [series_getitem]. rewrite Z.eqb_refl. cbn [bind].
    destruct (h c) as [b|e]; [|reflexivity]. cbn [bind].
    rewrite <- (IH (pre ++ [(start, c)])%list (start + 1)).
    + rewrite <- app_assoc. reflexivity.
    + intros x Hx. apply in_app_or in Hx. destruct Hx as [Hx|[<-|[]]].
      * specialize (Hpre x Hx). lia.
      * simpl. lia.
    + exact Hrest.
Qed.

Lemma get_successful_dataset_ids_by_position df :
  has_column (columns df) "output" = true ->
  map fst (rows df) = range (len df) ->
  get_successful_dataset_ids df
  = mapM (fun r =>
            decoded <- json_loads (dict_get (snd r) "output" CNaN) ;;
            dataset_id <- json_get decoded "datasetId" JNull ;;
            Ok (of_json dataset_id))
         (rows df).
Proof.
  intros Hcol Hlabels. unfold get_successful_dataset_ids, getcol.
  rewrite Hcol. cbn [bind].
  set (s := map (fun r => (fst r, dict_get (snd r) "output" CNaN)) (rows df)).
  set (h := fun text : cell =>
              decoded <- json_loads text ;;
              dataset_id <- json_get decoded "datasetId" JNull ;;
              Ok (of_json dataset_id)).
  assert (Hlen : length s = len df) by (unfold s, len; apply length_map).
  assert (Hs : map fst s = range_from 0 (length s)).
  { rewrite Hlen. unfold s. rewrite map_map. exact Hlabels. }
  pose proof (@series_lookup_in_order cell h s [] 0
                (fun x (Hx : In x []) => match Hx with end) Hs) as Hmain.
  cbn [app] in Hmain.
  transitivity (mapM (fun i => c <- series_getitem s i ;; h c) (range (len df))).
  { apply mapM_ext. intros i. reflexivity. }
  unfold range. rewrite <- Hlen, Hmain.
  unfold s. rewrite mapM_over_map. reflexivity.
Qed.

(** Frames built by [pd.DataFrame] and by [merge] are labelled 0, ..., n-1;
    it is the boolean filter that leaves gaps. *)
Lemma enumerate_from_labels (A : Type) (l : list A) :
  forall start, map fst (enumerate_from start l) = range_from start (length l).
Proof.
  induction l as [|a l IH]; intros start; simpl; [|rewrite IH]; reflexivity.
Qed.

Lemma pd_DataFrame_labels records :
  map fst (rows (pd_DataFrame records)) = range (len (pd_DataFrame records)).
Proof.
  unfold range, len, pd_DataFrame. cbn [rows].
  rewrite enumerate_from_labels, enumerate_from_length. reflexivity.
Qed.

Lemma merge_left_labels left right key lsuffix rsuffix merged :
  merge_left left right key lsuffix rsuffix = Ok merged ->
  map fst (rows merged) = range (len merged).
Proof.
  unfold merge_left.
  destruct (has_column (columns right) key); [|discriminate].
  destruct (has_column (columns left) key); [|discriminate].
  cbn [negb].
  match goal with |- (if has_dup ?cols then _ else _) = _ -> _ =>
    destruct (has_dup cols) end; [discriminate|].
  intros H. injection H as <-. unfold range, len. cbn [rows].
  rewrite enumerate_from_labels, enumerate_from_length. reflexivity.
Qed.

(** * Further properties of the pipeline *)

(** ** What a decorated call can return *)

(** X2. Whatever a decorated call returns comes from one of its at most three
    attempts, all earlier ones having failed transiently; whatever it raises
    is either the non-request exception of such an attempt, unchanged, or
    [RetryError] around the transient failure of the third attempt. *)
Theorem retry_outcome_inversion (A : Type) (fn : nat -> result A) :
  (forall a,
     retry notebook_policy fn = Ok a ->
     exists n, (1 <= n <= 3)%nat /\ fn n = Ok a /\
               forall k, (1 <= k < n)%nat -> transient fn k)
  /\ (forall e,
        retry notebook_policy fn = Raise e ->
        (exists n, (1 <= n <= 3)%nat /\ fn n = Raise e /\
                   is_RequestException e = false /\
                   forall k, (1 <= k < n)%nat -> transient fn k)
        \/ (exists e3, e = RetryError e3 /\ fn 3%nat = Raise e3 /\
                       is_RequestException e3 = true /\
                       transient fn 1%nat /\ transient fn 2%nat)).
Proof.
  unfold retry, retry_trace.
  change (Nat.pred (stop_after_attempt notebook_policy)) with 2%nat.
  assert (Hbelow : forall n (P : nat -> Prop),
            (forall k, (1 <= k < n)%nat -> P k) -> P n ->
            forall k, (1 <= k < S n)%nat -> P k).
  { intros n P Hlt Hn k Hk.
    destruct (Nat.eq_dec k n) as [->|Hne]; [exact Hn | apply Hlt; lia]. }
  assert (Hnone : forall k, (1 <= k < 1)%nat -> transient fn k)
    by (intros k Hk; lia).
  destruct (fn 1%nat) as [a1|e1] eqn:H1.
  { rewrite (retry_from_ok notebook_policy fn _ _ H1). split.
    - intros a Ha. injection Ha as <-. exists 1%nat. repeat split; [lia|lia|exact H1|exact Hnone].
    - intros e He. discriminate He. }
  destruct (is_RequestException e1) eqn:T1.
  2:{ rewrite (retry_from_permanent notebook_policy fn _ _ H1 T1). split.
      - intros a Ha. discriminate Ha.
      - intros e He. injection He as <-. left. exists 1%nat.
        repeat split; [lia|lia|exact H1|exact T1|exact Hnone]. }
  assert (Tr1 : transient fn 1%nat) by (exists e1; split; assumption).
  pose proof (Hbelow 1%nat (transient fn) Hnone Tr1) as Hone.
  rewrite (retry_from_again notebook_policy fn _ _ H1 T1). cbn [fst].
  destruct (fn 2%nat) as [a2|e2] eqn:H2.
  { rewrite (retry_from_ok notebook_policy fn _ _ H2). split.
    - intros a Ha. injection Ha as <-. exists 2%nat. repeat split; [lia|lia|exact H2|exact Hone].
    - intros e He. discriminate He. }
  destruct (is_RequestException e2) eqn:T2.
  2:{ rewrite (retry_from_permanent notebook_policy fn _ _ H2 T2). split.
      - intros a Ha. discriminate Ha.
      - intros e He. injection He as <-. left. exists 2%nat.
        repeat split; [lia|lia|exact H2|exact T2|exact Hone]. }
  assert (Tr2 : transient fn 2%nat) by (exists e2; split; assumption).
  pose proof (Hbelow 2%nat (transient fn) Hone Tr2) as Htwo.
  rewrite (retry_from_again notebook_policy fn _ _ H2 T2). cbn [fst].
  destruct (fn 3%nat) as [a3|e3] eqn:H3.
  { rewrite (retry_from_ok notebook_policy fn _ _ H3). split.
    - intros a Ha. injection Ha as <-. exists 3%nat. repeat split; [lia|lia|exact H3|exact Htwo].
    - intros e He. discriminate He. }
  destruct (is_RequestException e3) eqn:T3.
  - rewrite (retry_from_stop notebook_policy fn _ H3 T3). split.
    + intros a Ha. discriminate Ha.
    + intros e He. injection He as <-. right. exists e3.
      repeat split; assumption.
  - rewrite (retry_from_permanent notebook_policy fn _ _ H3 T3). split.
    + intros a Ha. discriminate Ha.
    + intros e He. injection He as <-. left. exists 3%nat.
      repeat split; [lia|lia|exact H3|exact T3|exact Htwo].
Qed.

Lemma retry_outcome_inversion_witness :
  exists n, (1 <= n <= 3)%nat /\ flaky_twice n = Ok 7 /\
            forall k, (1 <= k < n)%nat -> transient flaky_twice k.
Proof.
  apply (proj1 (retry_outcome_inversion flaky_twice) 7). reflexivity.
Defined.

(** ** Phase 1: what the report holds *)

(** The attempt a returned value comes from. *)
Lemma retry_ok_attempt (A : Type) (fn : nat -> result A) a :
  retry notebook_policy fn = Ok a ->
  exists n, (1 <= n <= 3)%nat /\ fn n = Ok a /\
            forall k, (1 <= k < n)%nat -> transient fn k.
Proof.
  unfold retry, retry_trace.
  change (Nat.pred (stop_after_attempt notebook_policy)) with 2%nat.
  destruct (fn 1%nat) as [a1|e1] eqn:H1.
  { rewrite (retry_from_ok notebook_policy fn _ _ H1). intros Ha.
    injection Ha as <-. exists 1%nat. repeat split; [lia|lia|exact H1|].
    intros k Hk. lia. }
  destruct (is_RequestException e1) eqn:T1;
    [|rewrite (retry_from_permanent notebook_policy fn _ _ H1 T1); discriminate].
  rewrite (retry_from_again notebook_policy fn _ _ H1 T1). cbn [fst].
  destruct (fn 2%nat) as [a2|e2] eqn:H2.
  { rewrite (retry_from_ok notebook_policy fn _ _ H2). intros Ha.
    injection Ha as <-. exists 2%nat. repeat split; [lia|lia|exact H2|].
    intros k Hk. assert (k = 1%nat) as -> by lia. exists e1. split; assumption. }
  destruct (is_RequestException e2) eqn:T2;
    [|rewrite (retry_from_permanent notebook_policy fn _ _ H2 T2); discriminate].
  rewrite (retry_from_again notebook_policy fn _ _ H2 T2). cbn [fst].
  destruct (fn 3%nat) as [a3|e3] eqn:H3.
  { rewrite (retry_from_ok notebook_policy fn _ _ H3). intros Ha.
    injection Ha as <-. exists 3%nat. repeat split; [lia|lia|exact H3|].
    intros k Hk. assert (k = 1%nat \/ k = 2%nat) as [-> | ->] by lia;
      [exists e1 | exists e2]; split; assumption. }
  destruct (is_RequestException e3) eqn:T3.
  - rewrite (retry_from_stop notebook_policy fn _ H3 T3). discriminate.
  - rewrite (retry_from_permanent notebook_policy fn _ _ H3 T3). discriminate.
Qed.

Lemma raise_for_status_ok_inv status_code :
  raise_for_status status_code = Ok tt -> ~ (400 <= status_code < 600).
Proof.
  unfold raise_for_status.
  destruct (Z.leb_spec 400 status_code), (Z.ltb_spec status_code 600);
    simpl; intros Hraise; try discriminate Hraise; lia.
Qed.

Lemma ingest_document_body_ok_inv env document_path ingestion_context
    name stage_id n result :
  ingest_document_body env document_path ingestion_context name stage_id n
  = Ok result ->
  can_open env document_path = true
  /\ exists status_code file_uploaded file_id,
       post_files env stage_id name n = Response status_code file_uploaded
       /\ ~ (400 <= status_code < 600)
       /\ json_getitem file_uploaded "fileId" = Ok file_id
       /\ result = [("file_id", of_json file_id);
                    ("status", CStr "Success");
                    ("error_type", CNone);
                    ("error_message", CNone)].
Proof.
  unfold ingest_document_body.
  destruct (can_open env document_path); [|discriminate].
  destruct (post_files env stage_id name n) as [|status_code file_uploaded];
    [discriminate|].
  destruct (raise_for_status status_code) as [[]|e] eqn:Hstatus; [|discriminate].
  cbn [bind].
  destruct (json_getitem file_uploaded "fileId") as [file_id|e] eqn:Hid;
    [|discriminate].
  cbn [bind]. intros Hres. injection Hres as <-.
  split; [reflexivity|].
  exists status_code, file_uploaded, file_id.
  repeat split; try reflexivity; try assumption.
  apply raise_for_status_ok_inv, Hstatus.
Qed.

(** X3. A result of [ingest_document] always stems from an accepted upload: the
    file could be opened, one of the first three POSTs was answered without
    a 4xx or 5xx status and with a [fileId], every earlier attempt failed
    with a request exception, and the result is the "Success" dict carrying
    that [fileId]. *)
Theorem ingest_document_success_inversion env document_path ingestion_context
    name stage_id result :
  ingest_document env document_path ingestion_context name stage_id = Ok result ->
  can_open env document_path = true
  /\ exists n status_code file_uploaded file_id,
       (1 <= n <= 3)%nat
       /\ post_files env stage_id name n = Response status_code file_uploaded
       /\ ~ (400 <= status_code < 600)
       /\ json_getitem file_uploaded "fileId" = Ok file_id
       /\ result = [("file_id", of_json file_id);
                    ("status", CStr "Success");
                    ("error_type", CNone);
                    ("error_message", CNone)]
       /\ forall k, (1 <= k < n)%nat ->
            transient (ingest_document_body env document_path
                         ingestion_context name stage_id) k.
Proof.
  unfold ingest_document. intros H.
  destruct (retry_ok_attempt _ H) as [n [Hn [Hbody Hbefore]]].
  destruct (ingest_document_body_ok_inv _ _ _ _ _ _ Hbody)
    as [Hopen [status_code [file_uploaded [file_id [Hpost [Hcode [Hid Hres]]]]]]].
  split; [exact Hopen|].
  exists n, status_code, file_uploaded, file_id.
  repeat split; try assumption; lia.
Qed.

Lemma ingest_document_success_inversion_witness :
  can_open env_status_down "files/a.pdf" = true
  /\ exists n status_code file_uploaded file_id,
       (1 <= n <= 3)%nat
       /\ post_files env_status_down "stage" "a.pdf" n
          = Response status_code file_uploaded
       /\ ~ (400 <= status_code < 600)
       /\ json_getitem file_uploaded "fileId" = Ok file_id
       /\ [("file_id", CStr "f1"); ("status", CStr "Success");
           ("error_type", CNone); ("error_message", CNone)]
          = [("file_id", of_json file_id);
             ("status", CStr "Success");
             ("error_type", CNone);
             ("error_message", CNone)]
       /\ forall k, (1 <= k < n)%nat ->
            transient (ingest_document_body env_status_down "files/a.pdf"
                         JNull "a.pdf" "stage") k.
Proof.
  apply (ingest_document_success_inversion env_status_down
           "files/a.pdf" JNull "a.pdf" "stage").
  reflexivity.
Defined.

(** ** From the phase-1 report to the poll targets *)

Lemma has_column_app cols k k' :
  has_column (cols ++ [k'])%list k = has_column cols k || String.eqb k k'.
Proof.
  unfold has_column. rewrite existsb_app. simpl. rewrite orb_false_r. reflexivity.
Qed.

Lemma add_keys_keeps ks : forall cols k,
  has_column cols k = true ->
  has_column
    (fold_left (fun acc k' => if has_column acc k' then acc else (acc ++ [k'])%list)
               ks cols) k = true.
Proof.
  induction ks as [|k' ks IH]; intros cols k Hk; simpl; [exact Hk|].
  apply IH. destruct (has_column cols k'); [exact Hk|].
  rewrite has_column_app, Hk. reflexivity.
Qed.

Lemma add_keys_adds ks : forall cols k,
  In k ks ->
  has_column
    (fold_left (fun acc k' => if has_column acc k' then acc else (acc ++ [k'])%list)
               ks cols) k = true.
Proof.
  induction ks as [|k' ks IH]; intros cols k Hin; simpl; [destruct Hin|].
  destruct Hin as [->|Hin]; [|apply IH, Hin].
  apply add_keys_keeps.
  destruct (has_column cols k) eqn:Hk; [exact Hk|].
  rewrite has_column_app, String.eqb_refl. apply orb_true_r.
Qed.

Lemma union_fold_keeps (records : list (pydict cell)) : forall cols k,
  has_column cols k = true ->
  has_column
    (fold_left
       (fun cols record =>
          fold_left (fun acc k' => if has_column acc k' then acc else (acc ++ [k'])%list)
                    (map fst record) cols)
       records cols) k = true.
Proof.
  induction records as [|record records IH]; intros cols k Hk; simpl; [exact Hk|].
  apply IH, add_keys_keeps, Hk.
Qed.

(** Every key of the first record is a column of the frame. *)
Lemma union_keys_first (record : pydict cell) records k :
  In k (map fst record) -> has_column (union_keys (record :: records)) k = true.
Proof.
  intros Hin. unfold union_keys. simpl.
  apply union_fold_keeps, add_keys_adds, Hin.
Qed.

Lemma align_get cols (record : pydict cell) c :
  has_column cols c = true ->
  dict_get (align cols record) c CNaN = dict_get record c CNaN.
Proof.
  unfold align, dict_get at 1. induction cols as [|c' cols IH]; simpl; [discriminate|].
  rewrite (String.eqb_sym c' c).
  destruct (String.eqb c c') eqn:Heq; simpl.
  - intros _. apply String.eqb_eq in Heq. subst c'. reflexivity.
  - exact IH.
Qed.

Lemma enumerate_from_filter_map (A B : Type) (p : A -> bool) (g : A -> B) l :
  forall label,
    map (fun r => g (snd r)) (filter (fun r => p (snd r)) (enumerate_from label l))
    = map g (filter p l).
Proof.
  induction l as [|a l IH]; intros label; simpl; [reflexivity|].
  destruct (p a); simpl; rewrite IH; reflexivity.
Qed.

Lemma mapM_pure (A B : Type) (f : A -> result B) (g : A -> B) l :
  (forall a, In a l -> f a = Ok (g a)) -> mapM f l = Ok (map g l).
Proof.
  induction l as [|a l IH]; intros H; simpl; [reflexivity|].
  rewrite (H a (or_introl eq_refl)). cbn [bind].
  rewrite IH by (intros a' Ha'; apply H; right; exact Ha'). reflexivity.
Qed.

(** The loop body of phase 1 on a future of [ingest_document]. *)
Lemma ingest_row_of_upload env directory_path ingestion_context stage_id files item :
  In item (submit_uploads env directory_path ingestion_context stage_id files) ->
  ingest_row directory_path item = Ok (phase1_row directory_path item).
Proof.
  unfold submit_uploads. rewrite in_map_iff. intros [file [<- _]].
  unfold ingest_row, phase1_row. cbn [fst snd].
  destruct (ingest_document env (os_path_join directory_path file)
              ingestion_context file stage_id) as [result|e] eqn:Hdoc.
  - destruct (retry_ok_attempt _ Hdoc) as [n [_ [Hbody _]]].
    destruct (ingest_document_body_ok_inv _ _ _ _ _ _ Hbody)
      as [_ [status_code [file_uploaded [file_id [_ [_ [_ ->]]]]]]].
    reflexivity.
  - reflexivity.
Qed.

Lemma success_ids_of_phase1_rows cols directory_path
    (items : list (result (pydict cell) * string)) :
  has_column cols "status" = true ->
  has_column cols "file_id" = true ->
  map (fun r => dict_get r "file_id" CNaN)
      (filter (fun r => cell_eq_str (dict_get r "status" CNaN) "Success")
              (map (align cols) (map (phase1_row directory_path) items)))
  = flat_map uploaded_file_id items.
Proof.
  intros Hstatus Hid. induction items as [|item items IH]; [reflexivity|].
  cbn [map filter flat_map].
  rewrite (@align_get cols _ "status" Hstatus).
  unfold phase1_row at 1, uploaded_file_id at 1.
  destruct (fst item) as [result|e] eqn:Hitem.
  - match goal with |- context [if ?c then _ else _] => change c with true end.
    cbn [map app]. rewrite (@align_get cols _ "file_id" Hid), IH.
    unfold phase1_row. rewrite Hitem. reflexivity.
  - match goal with |- context [if ?c then _ else _] => change c with false end.
    cbn [app]. exact IH.
Qed.

(** X4. The ids [check_files_status] polls are exactly the file ids of the
    uploads that returned, in the order in which the uploads finished; for
    an empty directory the phase-1 report has no [status] column and the
    lookup of the ids ends with [KeyError]. *)
Theorem poll_targets_are_successful_uploads env sched
    directory_path ingestion_context stage_id files :
  listdir env directory_path = Ok files ->
  fair sched ->
  exists df,
    ingest_all_documents env sched directory_path ingestion_context stage_id
    = Ok df
    /\ (files = [] ->
        get_successful_document_ids df = Raise (KeyError (KStr "status")))
    /\ (files <> [] ->
        get_successful_document_ids df
        = Ok (flat_map uploaded_file_id
                (as_completed sched
                   (submit_uploads env directory_path ingestion_context
                      stage_id files)))).
Proof.
  intros Hls Hfair.
  unfold ingest_all_documents, ingest_results. rewrite Hls. cbn [bind].
  set (futures := submit_uploads env directory_path ingestion_context stage_id files).
  pose proof (Hfair _ futures) as Hperm.
  set (items := as_completed sched futures) in *.
  rewrite (mapM_pure (ingest_row directory_path) (phase1_row directory_path)).
  2:{ intros item Hin.
      apply (ingest_row_of_upload env directory_path ingestion_context
               stage_id files).
      exact (Permutation_in item Hperm Hin). }
  cbn [bind]. eexists. split; [reflexivity|]. split.
  - intros ->. unfold futures in Hperm. cbn in Hperm.
    apply Permutation_sym, Permutation_nil in Hperm. rewrite Hperm.
    reflexivity.
  - intros Hfiles.
    destruct items as [|item items'] eqn:Hitems.
    { exfalso. apply Permutation_nil in Hperm.
      unfold futures, submit_uploads in Hperm.
      destruct files; [congruence | discriminate Hperm]. }
    set (records := map (phase1_row directory_path) (item :: items')).
    assert (Hstatus : has_column (union_keys records) "status" = true).
    { apply union_keys_first. unfold phase1_row.
      destruct (fst item); simpl; tauto. }
    assert (Hid : has_column (union_keys records) "file_id" = true).
    { apply union_keys_first. unfold phase1_row.
      destruct (fst item); simpl; tauto. }
    unfold get_successful_document_ids, filter_eq, getcol, pd_DataFrame.
    cbn [columns rows]. rewrite Hstatus. cbn [bind columns rows].
    rewrite Hid. cbn [bind]. unfold tolist. rewrite map_map. cbn [snd].
    rewrite (enumerate_from_filter_map
               (fun r => cell_eq_str (dict_get r "status" CNaN) "Success")
               (fun r => dict_get r "file_id" CNaN)).
    f_equal.
    exact (@success_ids_of_phase1_rows (union_keys records) directory_path
             (item :: items') Hstatus Hid).
Qed.

Lemma poll_targets_are_successful_uploads_witness :
  exists df,
    ingest_all_documents env_second_lookup_fails submission_order
      "files" JNull "stage" = Ok df
    /\ (["a.pdf"; "b.pdf"; "c.pdf"] = [] ->
        get_successful_document_ids df = Raise (KeyError (KStr "status")))
    /\ (["a.pdf"; "b.pdf"; "c.pdf"] <> [] ->
        get_successful_document_ids df
        = Ok (flat_map uploaded_file_id
                (as_completed submission_order
                   (submit_uploads env_second_lookup_fails "files" JNull
                      "stage" ["a.pdf"; "b.pdf"; "c.pdf"])))).
Proof.
  apply (poll_targets_are_successful_uploads env_second_lookup_fails
           (sched := submission_order) "files" JNull "stage").
  - reflexivity.
  - apply submission_order_fair.
Defined.

(** ** Phase 2 once a status check has returned *)

Lemma has_status_getitem r :
  has_status r -> exists status, json_getitem r "status" = Ok status.
Proof.
  intros [members [status [-> Hfind]]]. exists status.
  unfold json_getitem, dict_getitem. rewrite Hfind. reflexivity.
Qed.

(** One iteration of the polling loop when [run] is bound to a run with a
    status, or the future itself returned one: a row with the future's own
    file id is appended and [run] stays bound to a run with a status. *)
Lemma poll_step_appends st item :
  (exists r, run st = Some r /\ has_status r) \/ (exists r, fst item = Ok r) ->
  (forall r, fst item = Ok r -> has_status r) ->
  exists st' row r',
    poll_step st item = Ok st'
    /\ status_results st' = (status_results st ++ [row])%list
    /\ dict_get row "file_id" CNaN = snd item
    /\ run st' = Some r' /\ has_status r'.
Proof.
  destruct item as [[r|e] file_id]; cbn [fst snd]; intros Hbound Hruns.
  - pose proof (Hruns r eq_refl) as Hr.
    destruct (has_status_getitem Hr) as [status Hstatus].
    destruct Hr as [members [status' [-> Hfind]]].
    unfold poll_step. cbn [json_get bind].
    destruct (json_getitem (JObj members) "runId") as [run_id|e1];
      cbn [bind is_Exception].
    + rewrite Hstatus. cbn [bind].
      destruct (json_getitem (JObj members) "errors") as [errors|e3];
        cbn [bind is_Exception].
      * eexists. eexists. exists (JObj members).
        repeat split; try reflexivity. exists members, status'. split; [reflexivity|exact Hfind].
      * unfold poll_handler. cbn [run status_results]. rewrite Hstatus. cbn [bind].
        eexists. eexists. exists (JObj members).
        repeat split; try reflexivity. exists members, status'. split; [reflexivity|exact Hfind].
    + unfold poll_handler. cbn [run status_results]. rewrite Hstatus. cbn [bind].
      eexists. eexists. exists (JObj members).
      repeat split; try reflexivity. exists members, status'. split; [reflexivity|exact Hfind].
  - destruct Hbound as [[r [Hrun Hr]] | [r Habs]]; [|discriminate Habs].
    destruct (has_status_getitem Hr) as [status Hstatus].
    unfold poll_step, poll_handler. cbn [is_Exception]. rewrite Hrun, Hstatus.
    cbn [bind].
    eexists. eexists. exists r.
    repeat split; try reflexivity; assumption.
Qed.

Lemma poll_loop_appends items : forall st,
  (exists r, run st = Some r /\ has_status r)
  \/ (exists r file_id rest, items = (Ok r, file_id) :: rest) ->
  (forall r file_id, In (Ok r, file_id) items -> has_status r) ->
  exists st',
    poll_loop st items = Ok st'
    /\ map (fun row => dict_get row "file_id" CNaN) (status_results st')
       = (map (fun row => dict_get row "file_id" CNaN) (status_results st)
            ++ map snd items)%list.
Proof.
  induction items as [|item items IH]; intros st Hbound Hruns.
  - exists st. split; [reflexivity|]. cbn [map]. rewrite app_nil_r. reflexivity.
  - destruct (poll_step_appends st item) as [st1 [row [r1 [Hstep [Hrows [Hid [Hrun1 Hr1]]]]]]].
    + destruct Hbound as [Hb | [r [file_id [rest Heq]]]]; [left; exact Hb|].
      right. exists r. injection Heq as -> _. reflexivity.
    + intros r Hitem. destruct item as [future file_id]. cbn [fst] in Hitem. subst future.
      apply (Hruns r file_id). left. reflexivity.
    + destruct (IH st1) as [st' [Hloop Hmap]].
      * left. exists r1. split; assumption.
      * intros r file_id Hin. apply (Hruns r file_id). right. exact Hin.
      * exists st'. cbn [poll_loop]. rewrite Hstep. cbn [bind].
        split; [exact Hloop|].
        rewrite Hmap, Hrows, map_app. cbn [map]. rewrite Hid, <- app_assoc.
        reflexivity.
Qed.

(** X5. When the status check that finishes first returns, and every returned
    run is an object with a status, the polling loop of [check_files_status]
    ends without raising and has appended one row per polled id, each with the
    id of its own future, in the order in which the futures finished. *)
Theorem polling_completes_after_first_success env sched
    transformation_id df successful_file_ids r0 file_id0 rest :
  get_successful_document_ids df = Ok successful_file_ids ->
  as_completed sched
    (submit_status_checks env transformation_id successful_file_ids)
  = (Ok r0, file_id0) :: rest ->
  (forall r file_id, In (Ok r, file_id) ((Ok r0, file_id0) :: rest) ->
                     has_status r) ->
  exists status_rows,
    poll_results env sched transformation_id df = Ok status_rows
    /\ map (fun row => dict_get row "file_id" CNaN) status_rows
       = file_id0 :: map snd rest
    /\ length status_rows = S (length rest).
Proof.
  intros Hids Horder Hruns.
  unfold poll_results. rewrite Hids. cbn [bind]. rewrite Horder.
  destruct (@poll_loop_appends ((Ok r0, file_id0) :: rest)
              {| run := None; status_results := [] |}) as [st [Hloop Hmap]].
  - right. exists r0, file_id0, rest. reflexivity.
  - exact Hruns.
  - rewrite Hloop. cbn [bind]. exists (status_results st).
    cbn [status_results map app snd] in Hmap.
    split; [reflexivity|]. split; [exact Hmap|].
    rewrite <- (length_map (fun row => dict_get row "file_id" CNaN)), Hmap.
    cbn [length]. rewrite length_map. reflexivity.
Qed.

Lemma polling_completes_after_first_success_witness :
  exists status_rows,
    poll_results env_three_runs submission_order "t" report_three_uploads
    = Ok status_rows
    /\ map (fun row => dict_get row "file_id" CNaN) status_rows
       = CStr "id-a.pdf"
         :: map snd
              [(Ok (run_json "r2" "running" JNull), CStr "id-b.pdf");
               (Ok (run_json "r3" "completed" (JObj [("datasetId", JStr "d2")])),
                CStr "id-c.pdf")]
    /\ length status_rows = 3%nat.
Proof.
  apply (polling_completes_after_first_success
           env_three_runs submission_order "t" report_three_uploads
           (successful_file_ids :=
              [CStr "id-a.pdf"; CStr "id-b.pdf"; CStr "id-c.pdf"])
           (r0 := run_json "r1" "completed" (JObj [("datasetId", JStr "d1")]))).
  - reflexivity.
  - reflexivity.
  - intros r file_id [H|[H|[H|[]]]]; injection H as <- _;
      eexists; eexists; split; reflexivity.
Defined.

(** ** The run that the handler of the polling loop reads *)

Lemma poll_loop_app l1 : forall l2 st,
  poll_loop st (l1 ++ l2) = (st1 <- poll_loop st l1 ;; poll_loop st1 l2).
Proof.
  induction l1 as [|item l1 IH]; intros l2 st; [reflexivity|].
  cbn [app poll_loop].
  destruct (poll_step st item) as [st1|e]; cbn [bind]; [apply IH | reflexivity].
Qed.

(** From a state whose [run] is bound to a run with a status, or on futures
    the first of which returned, the loop appends one row per future. *)
Lemma poll_loop_extends items : forall st,
  items = []
  \/ (exists r, run st = Some r /\ has_status r)
  \/ (exists r file_id rest, items = (Ok r, file_id) :: rest) ->
  (forall r file_id, In (Ok r, file_id) items -> has_status r) ->
  exists st' new,
    poll_loop st items = Ok st'
    /\ status_results st' = (status_results st ++ new)%list
    /\ length new = length items.
Proof.
  induction items as [|item items IH]; intros st Hbound Hruns.
  - exists st, []. cbn [poll_loop]. rewrite app_nil_r. auto.
  - destruct (poll_step_appends st item)
      as [st1 [row [r1 [Hstep [Hrows [_ [Hrun1 Hr1]]]]]]].
    + destruct Hbound as [Hnil | [Hb | [r [file_id [rest Heq]]]]];
        [discriminate Hnil | left; exact Hb |].
      right. exists r. injection Heq as -> _. reflexivity.
    + intros r Hitem. destruct item as [future file_id]. cbn [fst] in Hitem.
      subst future. apply (Hruns r file_id). left. reflexivity.
    + destruct (IH st1) as [st' [new [Hloop [Hnew Hlen]]]].
      * right. left. exists r1. split; assumption.
      * intros r file_id Hin. apply (Hruns r file_id). right. exact Hin.
      * exists st', (row :: new). cbn [poll_loop]. rewrite Hstep. cbn [bind].
        split; [exact Hloop|]. split.
        -- rewrite Hnew, Hrows, <- app_assoc. reflexivity.
        -- cbn [length]. rewrite Hlen. reflexivity.
Qed.

(** While futures raise, [run] stays what it was, and each of them gets a
    row with the status of that run. *)
Lemma poll_loop_failures r status (failures : list (exn * cell)) : forall rs,
  json_getitem r "status" = Ok status ->
  poll_loop {| run := Some r; status_results := rs |}
            (map (fun f => (Raise (fst f), snd f)) failures)
  = Ok {| run := Some r;
          status_results :=
            (rs ++ map (fun f => [("file_id", snd f);
                                  ("status", of_json status);
                                  ("output", CNone);
                                  ("error", CErr (fst f))]) failures)%list |}.
Proof.
  induction failures as [|[e file_id] failures IH]; intros rs Hstatus.
  - cbn [map poll_loop]. rewrite app_nil_r. reflexivity.
  - cbn [map poll_loop fst snd].
    rewrite (@poll_step_stale r rs e file_id status Hstatus). cbn [bind].
    rewrite (IH _ Hstatus), <- app_assoc. reflexivity.
Qed.

(** C2. In the polling loop of [check_files_status] the status of a failure
    row is read from [run], the result of the last future that returned.
    When the future that finishes first raises, [run] is unbound and
    [check_files_status] ends with [UnboundLocalError] instead of a row.  When
    it returns, and every returned run has a status, the loop returns its
    rows, and wherever a returned run [r] is followed by futures that raise,
    each of these gets a row with its own file id and error but with the
    status of [r], the run of another file. *)
Theorem poll_handler_reads_run_of_earlier_iteration env sched
    transformation_id df successful_file_ids items :
  get_successful_document_ids df = Ok successful_file_ids ->
  as_completed sched
    (submit_status_checks env transformation_id successful_file_ids) = items ->
  (forall e file_id rest,
     items = (Raise e, file_id) :: rest ->
     poll_results env sched transformation_id df
     = Raise (UnboundLocalError "run")
     /\ check_files_status env sched transformation_id df
        = Raise (UnboundLocalError "run"))
  /\ (forall r0 file_id0 rest,
        items = (Ok r0, file_id0) :: rest ->
        (forall r file_id, In (Ok r, file_id) items -> has_status r) ->
        exists status_rows,
          poll_results env sched transformation_id df = Ok status_rows
          /\ check_files_status env sched transformation_id df
             = merge_left df (pd_DataFrame status_rows)
                 "file_id" "_ingestion" ""
          /\ forall before r file_id (failures : list (exn * cell)) after,
               items
               = (before ++ (Ok r, file_id)
                    :: map (fun f => (Raise (fst f), snd f)) failures
                    ++ after)%list ->
               exists status rows_before row rows_after,
                 json_getitem r "status" = Ok status
                 /\ status_rows
                    = (rows_before ++ row
                         :: map (fun f => [("file_id", snd f);
                                           ("status", of_json status);
                                           ("output", CNone);
                                           ("error", CErr (fst f))]) failures
                         ++ rows_after)%list
                 /\ length rows_before = length before
                 /\ length rows_after = length after
                 /\ dict_get row "file_id" CNaN = file_id).
Proof.
  intros Hids Hitems. split.
  - intros e file_id rest Hfirst.
    unfold check_files_status, poll_results.
    rewrite Hids. cbn [bind]. rewrite Hitems, Hfirst. split; reflexivity.
  - intros r0 file_id0 rest Hfirst Hruns.
    destruct (@poll_loop_extends items {| run := None; status_results := [] |})
      as [st [rows [Hloop [Hrows _]]]].
    { right. right. exists r0, file_id0, rest. exact Hfirst. }
    { exact Hruns. }
    cbn [status_results app] in Hrows.
    exists rows.
    assert (Hpoll : poll_results env sched transformation_id df = Ok rows).
    { unfold poll_results. rewrite Hids. cbn [bind]. rewrite Hitems, Hloop.
      cbn [bind]. rewrite Hrows. reflexivity. }
    split; [exact Hpoll|]. split.
    { unfold check_files_status. rewrite Hpoll. reflexivity. }
    intros before r file_id failures after Hsplit.
    rewrite Hsplit in Hloop, Hruns.
    rewrite poll_loop_app in Hloop.
    (* the futures before the one that returned [r] *)
    destruct (@poll_loop_extends before {| run := None; status_results := [] |})
      as [st1 [rows_before [Hbefore [Hrows1 Hlen1]]]].
    { destruct before as [|item before']; [left; reflexivity|].
      right. right. rewrite Hfirst in Hsplit. cbn [app] in Hsplit.
      injection Hsplit as <- _. exists r0, file_id0, before'. reflexivity. }
    { intros r' file_id' Hin. apply (Hruns r' file_id').
      apply in_or_app. left. exact Hin. }
    cbn [status_results app] in Hrows1.
    rewrite Hbefore in Hloop. cbn [bind poll_loop] in Hloop.
    (* the future that returned [r] *)
    destruct (poll_step_appends st1 (Ok r, file_id))
      as [st2 [row [r' [Hstep [Hrows2 [Hid [Hrun2 _]]]]]]].
    { right. exists r. reflexivity. }
    { intros r'' Heq. injection Heq as <-. apply (Hruns r file_id).
      apply in_or_app. right. left. reflexivity. }
    pose proof (@poll_step_binds_run _ _ _ _ Hstep) as Hbound.
    destruct (@has_status_getitem r) as [status Hstatus].
    { apply (Hruns r file_id). apply in_or_app. right. left. reflexivity. }
    rewrite Hstep in Hloop. cbn [bind] in Hloop.
    (* the futures that raised after it *)
    rewrite poll_loop_app in Hloop.
    clear Hrun2.
    destruct st2 as [run2 rows2]. cbn [run status_results snd] in *. subst run2.
    rewrite (@poll_loop_failures r status failures rows2 Hstatus) in Hloop.
    cbn [bind] in Hloop.
    (* the remaining futures *)
    destruct (@poll_loop_extends after
                {| run := Some r;
                   status_results :=
                     (rows2 ++ map (fun f : exn * cell =>
                                      [("file_id", snd f);
                                       ("status", of_json status);
                                       ("output", CNone);
                                       ("error", CErr (fst f))]) failures)%list |})
      as [st4 [rows_after [Hafter [Hrows4 Hlen4]]]].
    { right. left. exists r. split; [reflexivity|].
      apply (Hruns r file_id). apply in_or_app. right. left. reflexivity. }
    { intros r'' file_id'' Hin. apply (Hruns r'' file_id'').
      apply in_or_app. right. right. apply in_or_app. right. exact Hin. }
    rewrite Hafter in Hloop. injection Hloop as <-.
    cbn [status_results] in Hrows4.
    exists status, rows_before, row, rows_after.
    split; [exact Hstatus|]. split.
    { rewrite <- Hrows, Hrows4, Hrows2, Hrows1, <- !app_assoc. reflexivity. }
    split; [exact Hlen1|]. split; [exact Hlen4 | exact Hid].
Qed.

Lemma poll_handler_reads_run_of_earlier_iteration_witness :
  exists status_rows,
    poll_results env_second_lookup_fails submission_order "t"
      report_three_uploads = Ok status_rows
    /\ exists status rows_before row rows_after,
         json_getitem
           (run_json "r1" "completed" (JObj [("datasetId", JStr "d1")]))
           "status" = Ok status
         /\ status_rows
            = (rows_before ++ row
                 :: map (fun f : exn * cell =>
                           [("file_id", snd f);
                            ("status", of_json status);
                            ("output", CNone);
                            ("error", CErr (fst f))])
                        [(RetryError (HTTPError 503), CStr "id-b.pdf");
                         (RetryError (HTTPError 503), CStr "id-c.pdf")]
                 ++ rows_after)%list
         /\ length rows_before = 0%nat
         /\ length rows_after = 0%nat
         /\ dict_get row "file_id" CNaN = CStr "id-a.pdf".
Proof.
  destruct (proj2 (@poll_handler_reads_run_of_earlier_iteration
                     env_second_lookup_fails submission_order "t"
                     report_three_uploads
                     [CStr "id-a.pdf"; CStr "id-b.pdf"; CStr "id-c.pdf"]
                     [(Ok (run_json "r1" "completed"
                             (JObj [("datasetId", JStr "d1")])),
                       CStr "id-a.pdf");
                      (Raise (RetryError (HTTPError 503)), CStr "id-b.pdf");
                      (Raise (RetryError (HTTPError 503)), CStr "id-c.pdf")]
                     eq_refl eq_refl)
             _ _ _ eq_refl)
    as [status_rows [Hpoll [_ Hstale]]].
  - intros r file_id [H|[H|[H|[]]]]; try discriminate H.
    injection H as <- _. eexists. eexists. split; reflexivity.
  - exists status_rows. split; [exact Hpoll|].
    exact (Hstale []
             (run_json "r1" "completed" (JObj [("datasetId", JStr "d1")]))
             (CStr "id-a.pdf")
             [(RetryError (HTTPError 503), CStr "id-b.pdf");
              (RetryError (HTTPError 503), CStr "id-c.pdf")]
             [] eq_refl).
Defined.

(** ** The merged report has one row per upload *)

Lemma key_eqb_shared k a b :
  key_eqb k a = true -> key_eqb k b = true -> key_eqb a b = true.
Proof.
  unfold key_eqb.
  destruct (cell_eq_dec (key_value k) (key_value a)) as [Ha|]; [|discriminate].
  destruct (cell_eq_dec (key_value k) (key_value b)) as [Hb|]; [|discriminate].
  intros _ _.
  destruct (cell_eq_dec (key_value a) (key_value b)); [reflexivity | congruence].
Qed.

Lemma key_eqb_str s s' : key_eqb (CStr s) (CStr s') = String.eqb s s'.
Proof.
  unfold key_eqb. cbn [key_value].
  destruct (cell_eq_dec (CStr s) (CStr s')) as [Heq|Hne];
    destruct (String.eqb_spec s s') as [Hs|Hs]; congruence.
Qed.

Lemma matches_at_most_one key rs :
  distinct_keys key rs ->
  forall k,
    (length (filter (fun r => key_eqb k (dict_get (snd r) key CNaN)) rs) <= 1)%nat.
Proof.
  induction rs as [|r rs IH]; intros Hdistinct k; cbn [filter length]; [lia|].
  destruct Hdistinct as [Hr Hrs].
  destruct (key_eqb k (dict_get (snd r) key CNaN)) eqn:Hk; [|apply IH, Hrs].
  cbn [length].
  assert (Hnone : filter (fun r' => key_eqb k (dict_get (snd r') key CNaN)) rs = []).
  { clear IH Hrs. induction rs as [|r' rs IH']; [reflexivity|].
    inversion Hr as [|? ? Hr' Hrest]; subst. cbn [filter].
    destruct (key_eqb k (dict_get (snd r') key CNaN)) eqn:Hk'.
    - rewrite (key_eqb_shared _ _ _ Hk Hk') in Hr'. discriminate Hr'.
    - apply IH', Hrest. }
  rewrite Hnone. cbn [length]. lia.
Qed.

Lemma flat_map_length_one (A B : Type) (f : A -> list B) (l : list A) :
  (forall a, length (f a) = 1%nat) -> length (flat_map f l) = length l.
Proof.
  intros Hf. induction l as [|a l IH]; simpl; [reflexivity|].
  rewrite length_app, Hf, IH. reflexivity.
Qed.

Lemma merge_left_one_row_per_left_row left right key lsuffix rsuffix merged :
  merge_left left right key lsuffix rsuffix = Ok merged ->
  distinct_keys key (rows right) ->
  len merged = len left.
Proof.
  unfold merge_left.
  destruct (has_column (columns right) key); [|discriminate].
  destruct (has_column (columns left) key); [|discriminate].
  cbn [negb].
  match goal with |- (if has_dup ?cols then _ else _) = _ -> _ =>
    destruct (has_dup cols) end; [discriminate|].
  intros H Hdistinct. injection H as <-. unfold len. cbn [rows].
  rewrite enumerate_from_length.
  apply flat_map_length_one. intros l.
  pose proof (matches_at_most_one key (rows right) Hdistinct
                (dict_get (snd l) key CNaN)) as Hone.
  destruct (filter _ (rows right)) as [|m [|m' ms]]; cbn [length map] in *;
    [reflexivity | reflexivity | lia].
Qed.



(** ** Dataset ids: where the lookup by label fails and where it works *)

Lemma range_from_lower_bound n : forall start x,
  In x (range_from start n) -> start <= x.
Proof.
  induction n as [|n IH]; intros start x Hin; simpl in Hin; [destruct Hin|].
  destruct Hin as [<-|Hin]; [lia|]. specialize (IH _ _ Hin). lia.
Qed.

Lemma series_getitem_missing (s : Series) i :
  (forall x, In x s -> fst x <> i) ->
  series_getitem s i = Raise (KeyError (KInt i)).
Proof.
  induction s as [|[label c] s IH]; intros Hs; simpl; [reflexivity|].
  destruct (Z.eqb_spec label i) as [Heq|Hne].
  - exfalso. apply (Hs (label, c)); [left; reflexivity | exact Heq].
  - apply IH. intros x Hx. apply Hs. right. exact Hx.
Qed.

(** X7. If the first row of a report labelled 0, 1, ... is not completed while
    some later row is, the extraction of the completed dataset ids ends with
    [KeyError(0)]: the completed rows keep their labels, none of which is 0,
    and the loop starts by asking for label 0. *)
Theorem dataset_ids_key_error_when_first_row_not_completed
    status_df first rest :
  has_column (columns status_df) "status" = true ->
  has_column (columns status_df) "output" = true ->
  map fst (rows status_df) = range (len status_df) ->
  rows status_df = first :: rest ->
  cell_eq_str (dict_get (snd first) "status" CNaN) "completed" = false ->
  (exists r, In r rest /\
             cell_eq_str (dict_get (snd r) "status" CNaN) "completed" = true) ->
  successful_dataset_ids status_df = Raise (KeyError (KInt 0)).
Proof.
  intros Hstatus Houtput Hlabels Hrows Hfirst [r [Hin Hr]].
  unfold successful_dataset_ids, filter_eq, getcol.
  rewrite Hstatus. cbn [bind]. rewrite Hrows. cbn [filter]. rewrite Hfirst.
  set (completed := filter _ rest).
  assert (Hnonempty : exists c cs, completed = c :: cs).
  { assert (Hc : In r completed) by (apply filter_In; split; assumption).
    destruct completed as [|c cs]; [destruct Hc|]. exists c, cs. reflexivity. }
  destruct Hnonempty as [c [cs Hcompleted]].
  unfold get_successful_dataset_ids, len, getcol.
  cbn [rows columns]. rewrite Houtput, Hcompleted.
  cbn [length range range_from mapM bind].
  rewrite <- Hcompleted.
  rewrite series_getitem_missing; [reflexivity|].
  intros x Hx. apply in_map_iff in Hx. destruct Hx as [r' [<- Hr']].
  cbn [fst].
  assert (Hrest : In r' rest) by (apply (proj1 (filter_In _ _ _) Hr')).
  unfold len in Hlabels. rewrite Hrows in Hlabels.
  cbn [map length range range_from] in Hlabels.
  injection Hlabels as _ Hlabels.
  assert (Hlabel : In (fst r') (range_from 1 (length rest))).
  { rewrite <- Hlabels. apply in_map, Hrest. }
  apply range_from_lower_bound in Hlabel. lia.
Qed.

Lemma dataset_ids_key_error_when_first_row_not_completed_witness :
  successful_dataset_ids
    (pd_DataFrame
       [[("status", CStr "running"); ("output", json_dumps JNull)];
        [("status", CStr "completed");
         ("output", json_dumps (JObj [("datasetId", JStr "d2")]))]])
  = Raise (KeyError (KInt 0)).
Proof.
  eapply dataset_ids_key_error_when_first_row_not_completed.
  - reflexivity.
  - reflexivity.
  - reflexivity.
  - reflexivity.
  - reflexivity.
  - eexists. split; [left; reflexivity | reflexivity].
Defined.

Lemma filter_keeps_all (A : Type) (p : A -> bool) l :
  (forall a, In a l -> p a = true) -> filter p l = l.
Proof.
  induction l as [|a l IH]; intros H; simpl; [reflexivity|].
  rewrite (H a (or_introl eq_refl)), IH; [reflexivity|].
  intros a' Ha'. apply H. right. exact Ha'.
Qed.

Lemma filter_drops_all (A : Type) (p : A -> bool) l :
  (forall a, In a l -> p a = false) -> filter p l = [].
Proof.
  induction l as [|a l IH]; intros H; simpl; [reflexivity|].
  rewrite (H a (or_introl eq_refl)). apply IH.
  intros a' Ha'. apply H. right. exact Ha'.
Qed.

Lemma range_from_app n m : forall start,
  range_from start (n + m)
  = (range_from start n ++ range_from (start + Z.of_nat n) m)%list.
Proof.
  induction n as [|n IH]; intros start.
  - simpl. rewrite Z.add_0_r. reflexivity.
  - cbn [Nat.add range_from app]. rewrite IH. do 3 f_equal. lia.
Qed.

Lemma range_from_length n : forall start, length (range_from start n) = n.
Proof. induction n as [|n IH]; intros start; simpl; [|rewrite IH]; reflexivity. Qed.

(** X8. When the completed rows of a report labelled 0, 1, ... come before all
    other rows, the extraction reads exactly the output cells of the
    completed rows, in row order: each is decoded and its [datasetId] (or
    [None]) taken, and the first cell that cannot be decoded ends the call. *)
Theorem dataset_ids_when_completed_rows_come_first status_df completed others :
  has_column (columns status_df) "status" = true ->
  has_column (columns status_df) "output" = true ->
  map fst (rows status_df) = range (len status_df) ->
  rows status_df = (completed ++ others)%list ->
  (forall r, In r completed ->
             cell_eq_str (dict_get (snd r) "status" CNaN) "completed" = true) ->
  (forall r, In r others ->
             cell_eq_str (dict_get (snd r) "status" CNaN) "completed" = false) ->
  successful_dataset_ids status_df
  = mapM (fun r =>
            decoded <- json_loads (dict_get (snd r) "output" CNaN) ;;
            dataset_id <- json_get decoded "datasetId" JNull ;;
            Ok (of_json dataset_id))
         completed.
Proof.
  intros Hstatus Houtput Hlabels Hrows Hcompleted Hothers.
  unfold successful_dataset_ids, filter_eq, getcol.
  rewrite Hstatus. cbn [bind]. rewrite Hrows, filter_app.
  rewrite (filter_keeps_all _ completed Hcompleted).
  rewrite (filter_drops_all _ others Hothers), app_nil_r.
  rewrite (get_successful_dataset_ids_by_position
             {| columns := columns status_df; rows := completed |});
    [reflexivity | exact Houtput |].
  unfold len in *. cbn [rows]. rewrite Hrows in Hlabels.
  rewrite map_app, length_app in Hlabels. unfold range in *.
  rewrite range_from_app in Hlabels.
  assert (Hlen : length (map fst completed)
                 = length (range_from 0 (length completed)))
    by (rewrite length_map, range_from_length; reflexivity).
  destruct (app_eq_app _ _ _ _ Hlabels) as [tail [[H1 H2]|[H1 H2]]].
  - rewrite H1, length_app in Hlen.
    destruct tail; [rewrite app_nil_r in H1; exact H1 | cbn [length] in Hlen; lia].
  - rewrite H1, length_app in Hlen.
    destruct tail; [rewrite app_nil_r in H1; symmetry; exact H1
                   | cbn [length] in Hlen; lia].
Qed.

Lemma dataset_ids_when_completed_rows_come_first_witness :
  successful_dataset_ids report_without_gap
  = mapM (fun r =>
            decoded <- json_loads (dict_get (snd r) "output" CNaN) ;;
            dataset_id <- json_get decoded "datasetId" JNull ;;
            Ok (of_json dataset_id))
         [(0, [("status", CStr "completed");
               ("output", json_dumps (JObj [("datasetId", JStr "d1")]))]);
          (1, [("status", CStr "completed");
               ("output", json_dumps (JObj [("datasetId", JStr "d2")]))])].
Proof.
  apply (@dataset_ids_when_completed_rows_come_first report_without_gap
           [(0, [("status", CStr "completed");
                 ("output", json_dumps (JObj [("datasetId", JStr "d1")]))]);
            (1, [("status", CStr "completed");
                 ("output", json_dumps (JObj [("datasetId", JStr "d2")]))])]
           [(2, [("status", CStr "running");
                 ("output", json_dumps JNull)])]).
  - reflexivity.
  - reflexivity.
  - reflexivity.
  - reflexivity.
  - intros r [<-|[<-|[]]]; reflexivity.
  - intros r [<-|[]]. reflexivity.
Defined.

Lemma ingest_all_documents_complete_witness :
  exists results,
    ingest_results env_second_lookup_fails submission_order "files" JNull "stage"
    = Ok results
    /\ ingest_all_documents env_second_lookup_fails submission_order
         "files" JNull "stage" = Ok (pd_DataFrame results)
    /\ len (pd_DataFrame results) = length ["a.pdf"; "b.pdf"; "c.pdf"]
    /\ Permutation
         (map (fun row => dict_find row "file_path") results)
         (map (fun file => Some (CStr (os_path_join "files" file)))
              ["a.pdf"; "b.pdf"; "c.pdf"]).
Proof.
  apply (@ingest_all_documents_complete env_second_lookup_fails
           submission_order "files" JNull "stage" ["a.pdf"; "b.pdf"; "c.pdf"]).
  - reflexivity.
  - apply submission_order_fair.
Defined.

(** * The evaluation logic *)

(** ** Keywords are split by occurrence *)

Lemma sort_keywords_from output_text required_keywords : forall matched missing,
  fold_left
    (fun lists keyword =>
       if str_contains (str_lower keyword) output_text
       then ((fst lists ++ [keyword])%list, snd lists)
       else (fst lists, (snd lists ++ [keyword])%list))
    required_keywords (matched, missing)
  = ((matched
        ++ filter (fun k => str_contains (str_lower k) output_text)
                  required_keywords)%list,
     (missing
        ++ filter (fun k => negb (str_contains (str_lower k) output_text))
                  required_keywords)%list).
Proof.
  induction required_keywords as [|k ks IH]; intros matched missing.
  - cbn [fold_left filter]. rewrite !app_nil_r. reflexivity.
  - cbn [fold_left filter fst snd].
    destruct (str_contains (str_lower k) output_text); cbn [negb fst snd];
      rewrite IH, <- app_assoc; reflexivity.
Qed.

Lemma filter_partition_permutation (A : Type) (p : A -> bool) l :
  Permutation (filter p l ++ filter (fun a => negb (p a)) l)%list l.
Proof.
  induction l as [|a l IH]; cbn [filter]; [constructor|].
  destruct (p a); cbn [negb app].
  - constructor. exact IH.
  - apply Permutation_sym, Permutation_cons_app, Permutation_sym, IH.
Qed.

(** X9. For an output with an answer (ASCII text, as are the keywords), the
    evaluation returns; the matched keywords are the required keywords whose
    lower-case form occurs in the lower-cased answer, the missing keywords
    are the others, both in the order in which they were required; together
    they are the required keywords, each once. *)
Theorem evaluation_splits_keywords example output text :
  answer output = Some text ->
  is_ascii text = true ->
  Forall (fun k => is_ascii k = true) (keywords (expected_output example)) ->
  exists evaluation,
    do_evaluate_single_output example output = Ok evaluation
    /\ matched_keywords evaluation
       = filter (fun k => str_contains (str_lower k) (str_lower text))
                (keywords (expected_output example))
    /\ missing_keywords evaluation
       = filter (fun k => negb (str_contains (str_lower k) (str_lower text)))
                (keywords (expected_output example))
    /\ Permutation
         (matched_keywords evaluation ++ missing_keywords evaluation)%list
         (keywords (expected_output example))
    /\ (length (matched_keywords evaluation)
        + length (missing_keywords evaluation)
        = length (keywords (expected_output example)))%nat.
Proof.
  intros Hanswer _ _. unfold do_evaluate_single_output. rewrite Hanswer.
  eexists. split; [reflexivity|]. cbn [matched_keywords missing_keywords].
  unfold sort_keywords. rewrite sort_keywords_from. cbn [fst snd app].
  split; [reflexivity|]. split; [reflexivity|].
  pose proof (filter_partition_permutation
                (fun k => str_contains (str_lower k) (str_lower text))
                (keywords (expected_output example))) as Hperm.
  split; [exact Hperm|].
  rewrite <- length_app. apply Permutation_length, Hperm.
Qed.

Lemma evaluation_splits_keywords_witness :
  exists evaluation,
    do_evaluate_single_output example_encoder output_encoder = Ok evaluation
    /\ matched_keywords evaluation
       = filter (fun k => str_contains (str_lower k)
                            (str_lower "An encoder is a stack of identical layers."))
                (keywords (expected_output example_encoder))
    /\ missing_keywords evaluation
       = filter (fun k => negb (str_contains (str_lower k)
                                  (str_lower "An encoder is a stack of identical layers.")))
                (keywords (expected_output example_encoder))
    /\ Permutation
         (matched_keywords evaluation ++ missing_keywords evaluation)%list
         (keywords (expected_output example_encoder))
    /\ (length (matched_keywords evaluation)
        + length (missing_keywords evaluation)
        = length (keywords (expected_output example_encoder)))%nat.
Proof.
  apply (@evaluation_splits_keywords example_encoder output_encoder
           "An encoder is a stack of identical layers.").
  - reflexivity.
  - reflexivity.
  - repeat constructor.
Defined.

(** ** Score and verdict *)

Lemma Zpos_of_nat_succ n : Z.pos (Pos.of_nat (S n)) = Z.of_nat (S n).
Proof. rewrite <- Pos.of_nat_succ, Zpos_P_of_succ_nat, Nat2Z.inj_succ. reflexivity. Qed.

Lemma filter_length_le (A : Type) (p : A -> bool) l :
  (length (filter p l) <= length l)%nat.
Proof.
  induction l as [|a l IH]; simpl; [lia|]. destruct (p a); simpl; lia.
Qed.

(** X10. For an output with an answer, the score lies between 0 and 1, it is 1
    when no keyword is required, and the evaluation is passed exactly when at
    least half of the required keywords are matched. *)
Theorem evaluation_passes_at_half example output text evaluation :
  answer output = Some text ->
  do_evaluate_single_output example output = Ok evaluation ->
  (0 <= match_score evaluation <= 1)%Q
  /\ (keywords (expected_output example) = [] ->
      (match_score evaluation == 1)%Q)
  /\ (passed evaluation = true
      <-> (length (keywords (expected_output example))
           <= 2 * length (matched_keywords evaluation))%nat).
Proof.
  intros Hanswer. unfold do_evaluate_single_output. rewrite Hanswer.
  intros H. injection H as <-.
  cbn [match_score passed matched_keywords].
  unfold sort_keywords. rewrite sort_keywords_from. cbn [fst app].
  set (ks := keywords (expected_output example)).
  set (matched := filter _ ks).
  assert (Hle : (length matched <= length ks)%nat) by apply filter_length_le.
  destruct ks as [|k ks'] eqn:Hks.
  - split; [split; discriminate|]. split; [reflexivity|].
    split; [intros _; simpl; lia | reflexivity].
  - change (length (k :: ks')) with (S (length ks')) in *.
    split; [|split; [discriminate|]].
    + unfold Qle. cbn [Qnum Qden]. rewrite Zpos_of_nat_succ. split; lia.
    + rewrite Qle_bool_iff. unfold Qle, threshold. cbn [Qnum Qden].
      rewrite Zpos_of_nat_succ. split; intros H; lia.
Qed.

Lemma evaluation_passes_at_half_witness :
  exists evaluation,
    do_evaluate_single_output example_encoder output_encoder = Ok evaluation
    /\ (0 <= match_score evaluation <= 1)%Q
    /\ (keywords (expected_output example_encoder) = [] ->
        (match_score evaluation == 1)%Q)
    /\ (passed evaluation = true
        <-> (length (keywords (expected_output example_encoder))
             <= 2 * length (matched_keywords evaluation))%nat).
Proof.
  eexists. split; [reflexivity|].
  apply (@evaluation_passes_at_half example_encoder output_encoder
           "An encoder is a stack of identical layers.");
    reflexivity.
Defined.

(** ** Running the task and evaluating its output *)

(** X11. [QATask.do_run] reports an answer only when the endpoint returned a JSON
    object whose [answer] is that string and whose [sources] is null or a
    list of strings; the status code of the response plays no part. *)
Theorem do_run_answer_comes_from_response kernel input text :
  answer (do_run kernel input) = Some text ->
  exists status_code response sources_value,
    kernel input = KernelResponse status_code (Some response)
    /\ json_getitem response "answer" = Ok (JStr text)
    /\ json_getitem response "sources" = Ok sources_value
    /\ validate_sources sources_value = Some (sources (do_run kernel input)).
Proof.
  unfold do_run, do_run_try.
  destruct (kernel input) as [|status_code [response|]]; try discriminate.
  destruct (json_getitem response "answer") as [answer_value|e] eqn:Hanswer;
    try discriminate.
  destruct (json_getitem response "sources") as [sources_value|e] eqn:Hsources;
    try discriminate.
  destruct (validate_answer answer_value) as [a|] eqn:Ha; try discriminate.
  destruct (validate_sources sources_value) as [s|] eqn:Hs; try discriminate.
  cbn [answer sources]. intros ->.
  destruct answer_value; try discriminate Ha.
  injection Ha as ->.
  exists status_code, response, sources_value.
  repeat split; assumption.
Qed.

(** X12. When the skill endpoint cannot be reached, answers with a body that is
    not JSON, or answers with JSON that lacks [answer] or [sources],
    [QATask.do_run] returns [Output(answer=None, sources=None)]; and
    evaluating that output ends with [AttributeError] instead of an
    evaluation. *)
Theorem failed_run_cannot_be_evaluated kernel input example :
  kernel input = KernelUnreachable
  \/ (exists status_code, kernel input = KernelResponse status_code None)
  \/ (exists status_code response e,
        kernel input = KernelResponse status_code (Some response)
        /\ (json_getitem response "answer" = Raise e
            \/ json_getitem response "sources" = Raise e)) ->
  do_run kernel input = {| answer := None; sources := None |}
  /\ do_evaluate_single_output example (do_run kernel input)
     = Raise AttributeError.
Proof.
  intros Hfail.
  assert (Hrun : do_run kernel input = {| answer := None; sources := None |}).
  { unfold do_run, do_run_try.
    destruct Hfail as [-> | [[status_code ->] | [status_code [response [e [-> Hkey]]]]]];
      try reflexivity.
    destruct Hkey as [-> | Hsources]; [reflexivity|].
    rewrite Hsources. destruct (json_getitem response "answer"); reflexivity. }
  split; [exact Hrun|]. rewrite Hrun. reflexivity.
Qed.

Lemma do_run_answer_comes_from_response_witness :
  exists status_code response sources_value,
    (fun _ : Input =>
       KernelResponse 500
         (Some (JObj [("answer", JStr "42"); ("sources", JNull)])))
      (input example_encoder)
    = KernelResponse status_code (Some response)
    /\ json_getitem response "answer" = Ok (JStr "42")
    /\ json_getitem response "sources" = Ok sources_value
    /\ validate_sources sources_value
       = Some (sources
                 (do_run
                    (fun _ : Input =>
                       KernelResponse 500
                         (Some (JObj [("answer", JStr "42"); ("sources", JNull)])))
                    (input example_encoder))).
Proof.
  apply (@do_run_answer_comes_from_response
           (fun _ : Input =>
              KernelResponse 500
                (Some (JObj [("answer", JStr "42"); ("sources", JNull)])))
           (input example_encoder) "42").
  reflexivity.
Defined.

Lemma failed_run_cannot_be_evaluated_witness :
  do_run kernel_down (input example_encoder)
  = {| answer := None; sources := None |}
  /\ do_evaluate_single_output example_encoder
       (do_run kernel_down (input example_encoder))
     = Raise AttributeError.
Proof.
  apply (@failed_run_cannot_be_evaluated kernel_down (input example_encoder)
           example_encoder).
  left. reflexivity.
Defined.

(** ** Aggregation *)

Lemma filter_length_all (A : Type) (p : A -> bool) l :
  length (filter p l) = length l <-> (forall a, In a l -> p a = true).
Proof.
  induction l as [|a l IH]; simpl.
  - split; [intros _ a [] | reflexivity].
  - pose proof (filter_length_le p l) as Hle.
    destruct (p a) eqn:Hp; simpl.
    + split.
      * intros H a' [<-|Ha']; [exact Hp|]. apply IH; [lia | exact Ha'].
      * intros H. f_equal. apply IH. intros a' Ha'. apply H. right. exact Ha'.
    + split; [lia|]. intros H. rewrite (H a (or_introl eq_refl)) in Hp. discriminate Hp.
Qed.

Lemma filter_length_none (A : Type) (p : A -> bool) l :
  length (filter p l) = 0%nat <-> (forall a, In a l -> p a = false).
Proof.
  induction l as [|a l IH]; simpl.
  - split; [intros _ a [] | reflexivity].
  - destruct (p a) eqn:Hp; simpl.
    + split; [discriminate|]. intros H.
      rewrite (H a (or_introl eq_refl)) in Hp. discriminate Hp.
    + rewrite IH. split.
      * intros H a' [<-|Ha']; [exact Hp | apply H, Ha'].
      * intros H a' Ha'. apply H. right. exact Ha'.
Qed.

(** X13. The pass rate lies between 0 and 1; it is 1 exactly when there is at
    least one evaluation and all are passed, and 0 exactly when none is
    passed (in particular for no evaluations at all). *)
Theorem aggregate_pass_rate evaluations :
  (0 <= pass_rate (aggregate evaluations) <= 1)%Q
  /\ ((pass_rate (aggregate evaluations) == 1)%Q
      <-> evaluations <> [] /\
          forall e, In e evaluations -> passed e = true)
  /\ ((pass_rate (aggregate evaluations) == 0)%Q
      <-> forall e, In e evaluations -> passed e = false).
Proof.
  destruct evaluations as [|e0 es].
  - cbn [aggregate pass_rate]. split; [split; discriminate|]. split.
    + split; [discriminate | intros [H _]; congruence].
    + split; [intros _ e [] | reflexivity].
  - set (l := e0 :: es).
    assert (Hagg : pass_rate (aggregate l)
                   = (Z.of_nat (length (filter passed l))
                      # Pos.of_nat (S (length es)))%Q) by reflexivity.
    rewrite Hagg.
    pose proof (filter_length_le passed l) as Hle.
    change (length l) with (S (length es)) in Hle.
    unfold Qle, Qeq. cbn [Qnum Qden]. rewrite Zpos_of_nat_succ.
    split; [split; lia|]. split.
    + rewrite <- (filter_length_all passed l).
      change (length l) with (S (length es)).
      split; [intros H; split; [discriminate | lia] | intros [_ H]; lia].
    + rewrite <- (filter_length_none passed l). split; intros H; lia.
Qed.

Lemma Qsum_from_bounds l : forall acc,
  (forall q, In q l -> 0 <= q <= 1)%Q ->
  (acc <= fold_left Qplus l acc
   /\ fold_left Qplus l acc <= acc + inject_Z (Z.of_nat (length l)))%Q.
Proof.
  induction l as [|q l IH]; intros acc Hl.
  - cbn [fold_left length]. change (inject_Z (Z.of_nat 0)) with 0%Q. lra.
  - cbn [fold_left length].
    destruct (IH (acc + q)%Q) as [Hlow Hhigh].
    { intros q' Hq'. apply Hl. right. exact Hq'. }
    destruct (Hl q (or_introl eq_refl)) as [Hq0 Hq1].
    rewrite Nat2Z.inj_succ. unfold Z.succ. rewrite inject_Z_plus.
    change (inject_Z 1) with 1%Q. lra.
Qed.

Lemma match_score_in_unit_interval example output evaluation :
  do_evaluate_single_output example output = Ok evaluation ->
  (0 <= match_score evaluation <= 1)%Q.
Proof.
  unfold do_evaluate_single_output.
  destruct (answer output) as [text|]; [|discriminate].
  intros H. injection H as <-. cbn [match_score].
  unfold sort_keywords. rewrite sort_keywords_from. cbn [fst app].
  set (ks := keywords (expected_output example)).
  pose proof (filter_length_le
                (fun k => str_contains (str_lower k) (str_lower text)) ks) as Hle.
  destruct ks as [|k ks']; [split; discriminate|].
  change (length (k :: ks')) with (S (length ks')) in *.
  unfold Qle. cbn [Qnum Qden]. rewrite Zpos_of_nat_succ. split; lia.
Qed.

(** X14. For evaluations that [do_evaluate_single_output] returned, the average
    match score lies between 0 and 1. *)
Theorem aggregate_average_of_evaluations evaluations :
  (forall e, In e evaluations ->
             exists example output,
               do_evaluate_single_output example output = Ok e) ->
  (0 <= average_match_score (aggregate evaluations) <= 1)%Q.
Proof.
  intros Hfrom.
  destruct evaluations as [|e0 es]; [split; discriminate|].
  set (l := e0 :: es) in *.
  assert (Hagg : average_match_score (aggregate l)
                 = (Qsum (map match_score l)
                    / inject_Z (Z.of_nat (length l)))%Q) by reflexivity.
  rewrite Hagg. unfold Qsum.
  destruct (Qsum_from_bounds (map match_score l) 0%Q) as [Hlow Hhigh].
  { intros q Hq. apply in_map_iff in Hq. destruct Hq as [e [<- He]].
    destruct (Hfrom e He) as [example [output Heval]].
    exact (match_score_in_unit_interval _ _ Heval). }
  rewrite length_map in Hhigh.
  assert (Hpos : (0 < inject_Z (Z.of_nat (length l)))%Q).
  { change 0%Q with (inject_Z 0). rewrite <- Zlt_Qlt.
    change (length l) with (S (length es)). lia. }
  split.
  - apply Qle_shift_div_l; [exact Hpos | lra].
  - apply Qle_shift_div_r; [exact Hpos | lra].
Qed.

Lemma aggregate_average_of_evaluations_witness :
  (0 <= average_match_score
          (aggregate
             [{| matched_keywords := ["Encoder"; "layers"];
                 missing_keywords := ["pickle"];
                 match_score := 2 # 3;
                 passed := true |}]) <= 1)%Q.
Proof.
  apply aggregate_average_of_evaluations.
  intros e [<-|[]]. exists example_encoder, output_encoder. reflexivity.
Defined.

(** * The set-up helpers *)

(** ** Get or create *)

Lemma raise_for_status_cases status_code :
  (raise_for_status status_code = Ok tt /\ ~ (400 <= status_code < 600))
  \/ (raise_for_status status_code = Raise (HTTPError status_code)
      /\ 400 <= status_code < 600).
Proof.
  destruct (Z_le_dec 400 status_code) as [Hlow|Hlow];
    [destruct (Z_lt_dec status_code 600) as [Hhigh|Hhigh]|].
  - right. split; [apply raise_for_status_error|]; lia.
  - left. split; [apply raise_for_status_ok|]; lia.
  - left. split; [apply raise_for_status_ok|]; lia.
Qed.

(** X15. [get_or_create_repository] and [get_or_create_stage] make no request
    when the payload has no name; otherwise the requests they make, in order,
    are the listing alone or the listing followed by the creating POST with
    the payload they were given.  The POST is sent exactly when the listing
    was answered without a 4xx or 5xx status and with a [total] that is not
    greater than 0; and when the listing reports a match, the id of the first
    listed entry is returned and the listing is the only request. *)
Theorem get_or_create_creates_only_when_none_listed platform payload :
  (forall outcome log,
     get_or_create_repository platform payload = (outcome, log) ->
     (log = [] /\ exists e, json_getitem payload "name" = Raise e)
     \/ exists name,
          json_getitem payload "name" = Ok name
          /\ (log = [ListRepositories name]
              \/ log = [ListRepositories name; CreateRepository payload]))
  /\ (forall name,
        json_getitem payload "name" = Ok name ->
        (In (CreateRepository payload)
            (snd (get_or_create_repository platform payload))
         <-> exists status_code page total,
               platform (ListRepositories name) = Response status_code page
               /\ ~ (400 <= status_code < 600)
               /\ json_getitem page "total" = Ok total
               /\ json_gt0 total = Ok false))
  /\ (forall name status_code page total first others id,
        json_getitem payload "name" = Ok name ->
        platform (ListRepositories name) = Response status_code page ->
        ~ (400 <= status_code < 600) ->
        json_getitem page "total" = Ok total ->
        json_gt0 total = Ok true ->
        json_getitem page "repositories" = Ok (JArr (first :: others)) ->
        json_getitem first "repositoryId" = Ok id ->
        get_or_create_repository platform payload
        = (Ok id, [ListRepositories name]))
  /\ (forall outcome log,
        get_or_create_stage platform payload = (outcome, log) ->
        (log = [] /\ exists e, json_getitem payload "name" = Raise e)
        \/ exists name,
             json_getitem payload "name" = Ok name
             /\ (log = [ListStages name]
                 \/ log = [ListStages name; CreateStage payload]))
  /\ (forall name,
        json_getitem payload "name" = Ok name ->
        (In (CreateStage payload) (snd (get_or_create_stage platform payload))
         <-> exists status_code page total,
               platform (ListStages name) = Response status_code page
               /\ ~ (400 <= status_code < 600)
               /\ json_getitem page "total" = Ok total
               /\ json_gt0 total = Ok false))
  /\ (forall name status_code page total first others id,
        json_getitem payload "name" = Ok name ->
        platform (ListStages name) = Response status_code page ->
        ~ (400 <= status_code < 600) ->
        json_getitem page "total" = Ok total ->
        json_gt0 total = Ok true ->
        json_getitem page "stages" = Ok (JArr (first :: others)) ->
        json_getitem first "stageId" = Ok id ->
        get_or_create_stage platform payload = (Ok id, [ListStages name])).
Proof.
  split; [|split; [|split; [|split; [|split]]]].
  - intros outcome log. unfold get_or_create_repository.
    destruct (json_getitem payload "name") as [name|e] eqn:Hname.
    2:{ intros H. injection H as <- <-. left. split; [reflexivity|].
        exists e. reflexivity. }
    intros H. right. exists name. split; [reflexivity|].
    destruct (platform (ListRepositories name)) as [|status_code page];
      [injection H as <- <-; left; reflexivity|].
    destruct (raise_for_status status_code ;;;
              total <- json_getitem page "total" ;; json_gt0 total)
      as [[|]|e]; try (injection H as <- <-; left; reflexivity).
    destruct (platform (CreateRepository payload));
      injection H as <- <-; right; reflexivity.
  - intros name Hname. unfold get_or_create_repository. rewrite Hname.
    destruct (platform (ListRepositories name)) as [|status_code page] eqn:Hlist.
    { cbn [snd]. split.
      - intros [Hc|[]]. discriminate Hc.
      - intros [sc [pg [total [Habs _]]]]. discriminate Habs. }
    destruct (raise_for_status_cases status_code) as [[Hok Hcode]|[Herr Hcode]].
    2:{ rewrite Herr. cbn [bind snd]. split.
        - intros [Hc|[]]. discriminate Hc.
        - intros [sc [pg [total [Heq [Hsc _]]]]]. injection Heq as <- <-.
          contradiction. }
    rewrite Hok. cbn [bind].
    destruct (json_getitem page "total") as [total|e] eqn:Htotal; cbn [bind snd].
    2:{ split.
        - intros [Hc|[]]. discriminate Hc.
        - intros [sc [pg [total [Heq [_ [Ht _]]]]]]. injection Heq as <- <-.
          rewrite Htotal in Ht. discriminate Ht. }
    destruct (json_gt0 total) as [[|]|e] eqn:Hgt; cbn [snd].
    + split.
      * intros [Hc|[]]. discriminate Hc.
      * intros [sc [pg [total' [Heq [_ [Ht Hg]]]]]]. injection Heq as <- <-.
        rewrite Htotal in Ht. injection Ht as <-. rewrite Hgt in Hg.
        discriminate Hg.
    + split.
      * intros _. exists status_code, page, total. repeat split; assumption.
      * intros _. destruct (platform (CreateRepository payload)); cbn [snd];
          right; left; reflexivity.
    + split.
      * intros [Hc|[]]. discriminate Hc.
      * intros [sc [pg [total' [Heq [_ [Ht Hg]]]]]]. injection Heq as <- <-.
        rewrite Htotal in Ht. injection Ht as <-. rewrite Hgt in Hg.
        discriminate Hg.
  - intros name status_code page total first others id
           Hname Hlist Hcode Htotal Hgt Hrepos Hid.
    unfold get_or_create_repository.
    rewrite Hname, Hlist, (raise_for_status_ok Hcode). cbn [bind].
    rewrite Htotal. cbn [bind]. rewrite Hgt, Hrepos. cbn [bind json_first].
    rewrite Hid. reflexivity.
  - intros outcome log. unfold get_or_create_stage.
    destruct (json_getitem payload "name") as [name|e] eqn:Hname.
    2:{ intros H. injection H as <- <-. left. split; [reflexivity|].
        exists e. reflexivity. }
    intros H. right. exists name. split; [reflexivity|].
    destruct (platform (ListStages name)) as [|status_code page];
      [injection H as <- <-; left; reflexivity|].
    destruct (raise_for_status status_code ;;;
              total <- json_getitem page "total" ;; json_gt0 total)
      as [[|]|e]; try (injection H as <- <-; left; reflexivity).
    destruct (platform (CreateStage payload));
      injection H as <- <-; right; reflexivity.
  - intros name Hname. unfold get_or_create_stage. rewrite Hname.
    destruct (platform (ListStages name)) as [|status_code page] eqn:Hlist.
    { cbn [snd]. split.
      - intros [Hc|[]]. discriminate Hc.
      - intros [sc [pg [total [Habs _]]]]. discriminate Habs. }
    destruct (raise_for_status_cases status_code) as [[Hok Hcode]|[Herr Hcode]].
    2:{ rewrite Herr. cbn [bind snd]. split.
        - intros [Hc|[]]. discriminate Hc.
        - intros [sc [pg [total [Heq [Hsc _]]]]]. injection Heq as <- <-.
          contradiction. }
    rewrite Hok. cbn [bind].
    destruct (json_getitem page "total") as [total|e] eqn:Htotal; cbn [bind snd].
    2:{ split.
        - intros [Hc|[]]. discriminate Hc.
        - intros [sc [pg [total [Heq [_ [Ht _]]]]]]. injection Heq as <- <-.
          rewrite Htotal in Ht. discriminate Ht. }
    destruct (json_gt0 total) as [[|]|e] eqn:Hgt; cbn [snd].
    + split.
      * intros [Hc|[]]. discriminate Hc.
      * intros [sc [pg [total' [Heq [_ [Ht Hg]]]]]]. injection Heq as <- <-.
        rewrite Htotal in Ht. injection Ht as <-. rewrite Hgt in Hg.
        discriminate Hg.
    + split.
      * intros _. exists status_code, page, total. repeat split; assumption.
      * intros _. destruct (platform (CreateStage payload)); cbn [snd];
          right; left; reflexivity.
    + split.
      * intros [Hc|[]]. discriminate Hc.
      * intros [sc [pg [total' [Heq [_ [Ht Hg]]]]]]. injection Heq as <- <-.
        rewrite Htotal in Ht. injection Ht as <-. rewrite Hgt in Hg.
        discriminate Hg.
  - intros name status_code page total first others id
           Hname Hlist Hcode Htotal Hgt Hstages Hid.
    unfold get_or_create_stage.
    rewrite Hname, Hlist, (raise_for_status_ok Hcode). cbn [bind].
    rewrite Htotal. cbn [bind]. rewrite Hgt, Hstages. cbn [bind json_first].
    rewrite Hid. reflexivity.
Qed.

Lemma get_or_create_creates_only_when_none_listed_witness :
  get_or_create_repository platform_with_docs (JObj [("name", JStr "docs")])
  = (Ok (JStr "repo-1"), [ListRepositories (JStr "docs")])
  /\ In (CreateStage (JObj [("name", JStr "uploads")]))
        (snd (get_or_create_stage platform_with_docs
                (JObj [("name", JStr "uploads")]))).
Proof.
  split.
  - apply (proj1 (proj2 (proj2 (get_or_create_creates_only_when_none_listed
                                  platform_with_docs
                                  (JObj [("name", JStr "docs")]))))
             (JStr "docs") 200
             (JObj [("total", JNum 1);
                    ("repositories",
                     JArr [JObj [("repositoryId", JStr "repo-1")]])])
             (JNum 1) (JObj [("repositoryId", JStr "repo-1")]) [] (JStr "repo-1")).
    + reflexivity.
    + reflexivity.
    + lia.
    + reflexivity.
    + reflexivity.
    + reflexivity.
    + reflexivity.
  - apply (proj2 (proj1 (proj2 (proj2 (proj2 (proj2
             (get_or_create_creates_only_when_none_listed
                platform_with_docs (JObj [("name", JStr "uploads")]))))))
             (JStr "uploads") eq_refl)).
    exists 200, (JObj [("total", JNum 0); ("stages", JArr [])]), (JNum 0).
    split; [reflexivity|]. split; [lia|]. split; reflexivity.
Defined.

(** ** The collection helper *)

(** X16. [get_or_create_collection] raises in exactly one situation: when the
    listing request itself gets no response, the handler formats the local
    [response] that was never assigned and the call ends with
    [UnboundLocalError].  In every other situation it returns a message.  It
    answers "exists" only when the listing was accepted, is not empty and
    contains the collection, and it sends the creating PUT only when the
    accepted listing is empty or lacks the collection; when that PUT gets no
    response, the message shows the response of the listing. *)
Theorem get_or_create_collection_outcomes platform namespace collection :
  (platform (ListCollections namespace) = NoResponse ->
   get_or_create_collection platform namespace collection
   = (Raise (UnboundLocalError "response"), [ListCollections namespace]))
  /\ (platform (ListCollections namespace) <> NoResponse ->
      exists message,
        fst (get_or_create_collection platform namespace collection)
        = Ok message)
  /\ (fst (get_or_create_collection platform namespace collection)
      = Ok (CollectionExists collection) ->
      exists status_code collections_list n,
        platform (ListCollections namespace)
        = Response status_code collections_list
        /\ ~ (400 <= status_code < 600)
        /\ json_len collections_list = Ok (S n)
        /\ json_contains collection collections_list = Ok true)
  /\ (In (CreateCollection namespace collection)
         (snd (get_or_create_collection platform namespace collection)) ->
      exists status_code collections_list,
        platform (ListCollections namespace)
        = Response status_code collections_list
        /\ ~ (400 <= status_code < 600)
        /\ (json_len collections_list = Ok 0%nat
            \/ json_contains collection collections_list = Ok false))
  /\ (forall status_code collections_list,
        platform (ListCollections namespace)
        = Response status_code collections_list ->
        In (CreateCollection namespace collection)
           (snd (get_or_create_collection platform namespace collection)) ->
        platform (CreateCollection namespace collection) = NoResponse ->
        fst (get_or_create_collection platform namespace collection)
        = Ok (CollectionFailed ConnectionError
                (Response status_code collections_list))).
Proof.
  unfold get_or_create_collection.
  destruct (platform (ListCollections namespace))
    as [|status_code collections_list] eqn:Hlist.
  { split; [reflexivity|]. split; [congruence|].
    split; [discriminate|]. split; [|discriminate].
    cbn [snd]. intros [H|[]]. discriminate H. }
  split; [discriminate|].
  destruct (raise_for_status_cases status_code) as [[Hok Hcode]|[Herr _]].
  2:{ rewrite Herr. cbn [bind collection_handler fst snd].
      split; [eexists; reflexivity|]. split; [discriminate|].
      split; [intros [H|[]]; discriminate H|].
      intros ? ? _ [H|[]]. discriminate H. }
  rewrite Hok. cbn [bind].
  destruct (json_len collections_list) as [n|e] eqn:Hlen; cbn [bind].
  2:{ cbn [collection_handler fst snd].
      split; [eexists; reflexivity|]. split; [discriminate|].
      split; [intros [H|[]]; discriminate H|].
      intros ? ? _ [H|[]]. discriminate H. }
  assert (Hcreate :
    (exists message,
       fst (match platform (CreateCollection namespace collection) with
            | NoResponse =>
                (collection_handler (Some (Response status_code collections_list))
                   ConnectionError,
                 [ListCollections namespace; CreateCollection namespace collection])
            | Response status_code' body =>
                match raise_for_status status_code' with
                | Ok _ =>
                    (Ok (CollectionCreated collection),
                     [ListCollections namespace;
                      CreateCollection namespace collection])
                | Raise e =>
                    (collection_handler (Some (Response status_code' body)) e,
                     [ListCollections namespace;
                      CreateCollection namespace collection])
                end
            end) = Ok message
       /\ message <> CollectionExists collection
       /\ (platform (CreateCollection namespace collection) = NoResponse ->
           message = CollectionFailed ConnectionError
                       (Response status_code collections_list)))).
  { destruct (platform (CreateCollection namespace collection))
      as [|status_code' body].
    - eexists. split; [reflexivity|]. split; [discriminate | reflexivity].
    - destruct (raise_for_status status_code'); eexists;
        (split; [reflexivity|]); (split; [discriminate|]); discriminate. }
  destruct (Nat.eqb_spec n 0) as [->|Hn].
  - destruct Hcreate as [message [Hmsg [Hne Hdown]]].
    split; [exists message; exact Hmsg|].
    split; [intros H; rewrite Hmsg in H; injection H as H; contradiction|].
    split.
    + intros _. exists status_code, collections_list.
      repeat split; try assumption. left. exact Hlen.
    + intros sc cl Heq _ Hno. injection Heq as <- <-.
      rewrite Hmsg. f_equal. apply Hdown, Hno.
  - destruct (json_contains collection collections_list) as [[|]|e] eqn:Hin;
      cbn [bind negb].
    + cbn [fst snd]. split; [eexists; reflexivity|]. split.
      * intros _. destruct n as [|n']; [congruence|].
        exists status_code, collections_list, n'. repeat split; assumption.
      * split; [intros [H|[]]; discriminate H|].
        intros ? ? _ [H|[]]. discriminate H.
    + destruct Hcreate as [message [Hmsg [Hne Hdown]]].
      split; [exists message; exact Hmsg|].
      split; [intros H; rewrite Hmsg in H; injection H as H; contradiction|].
      split.
      * intros _. exists status_code, collections_list.
        repeat split; try assumption. right. exact Hin.
      * intros sc cl Heq _ Hno. injection Heq as <- <-.
        rewrite Hmsg. f_equal. apply Hdown, Hno.
    + cbn [collection_handler fst snd].
      split; [eexists; reflexivity|]. split; [discriminate|].
      split; [intros [H|[]]; discriminate H|].
      intros ? ? _ [H|[]]. discriminate H.
Qed.

Lemma get_or_create_collection_outcomes_witness :
  get_or_create_collection platform_with_docs "Studio" "pharia-tutorial-rag"
  = (Raise (UnboundLocalError "response"), [ListCollections "Studio"]).
Proof.
  apply (proj1 (get_or_create_collection_outcomes platform_with_docs
                  "Studio" "pharia-tutorial-rag")).
  reflexivity.
Defined.

(** ** Index creation and assignment *)

(** X17. [create_index_and_assign_to_collection] first asks for the index to be
    created with the given chunking parameters.  The assignment to the
    collection is requested exactly when the creation was answered without a
    4xx or 5xx status, and the call returns exactly when both requests were
    answered so; otherwise it raises and nothing further is requested. *)
Theorem index_is_assigned_only_after_creation platform
    index_name collection_name namespace chunk_size chunk_overlap embedding_type :
  let call :=
    create_index_and_assign_to_collection platform index_name collection_name
      namespace chunk_size chunk_overlap embedding_type in
  let creation :=
    CreateIndex namespace index_name
      (JObj [("chunk_size", JNum chunk_size);
             ("chunk_overlap", JNum chunk_overlap);
             ("embedding_type", JStr embedding_type)]) in
  let assignment := AssignIndex namespace collection_name index_name in
  (snd call = [creation] \/ snd call = [creation; assignment])
  /\ (In assignment (snd call)
      <-> exists status_code body,
            platform creation = Response status_code body
            /\ ~ (400 <= status_code < 600))
  /\ (fst call = Ok tt
      <-> exists status_code body status_code' body',
            platform creation = Response status_code body
            /\ ~ (400 <= status_code < 600)
            /\ platform assignment = Response status_code' body'
            /\ ~ (400 <= status_code' < 600)).
Proof.
  cbv zeta. unfold create_index_and_assign_to_collection.
  set (creation := CreateIndex namespace index_name _).
  set (assignment := AssignIndex namespace collection_name index_name).
  assert (Hdiff : creation <> assignment) by discriminate.
  destruct (platform creation) as [|status_code body] eqn:Hcreate.
  { cbn [fst snd]. split; [left; reflexivity|]. split; split.
    - intros [H|[]]. contradiction.
    - intros [? [? [H _]]]. discriminate H.
    - discriminate.
    - intros [? [? [? [? [H _]]]]]. discriminate H. }
  destruct (raise_for_status_cases status_code) as [[Hok Hcode]|[Herr Hcode]].
  2:{ rewrite Herr. cbn [fst snd]. split; [left; reflexivity|]. split; split.
      - intros [H|[]]. contradiction.
      - intros [sc [b [H Hsc]]]. injection H as <- <-. contradiction.
      - discriminate.
      - intros [sc [b [? [? [H [Hsc _]]]]]]. injection H as <- <-. contradiction. }
  rewrite Hok.
  destruct (platform assignment) as [|status_code' body'] eqn:Hassign;
    cbn [fst snd].
  { split; [right; reflexivity|]. split; split.
    - intros _. exists status_code, body. split; [reflexivity | exact Hcode].
    - intros _. right. left. reflexivity.
    - discriminate.
    - intros [? [? [? [? [_ [_ [H _]]]]]]]. discriminate H. }
  split; [right; reflexivity|]. split; split.
  - intros _. exists status_code, body. split; [reflexivity | exact Hcode].
  - intros _. right. left. reflexivity.
  - destruct (raise_for_status_cases status_code') as [[Hok' Hcode']|[Herr' _]].
    + intros _. exists status_code, body, status_code', body'.
      repeat split; assumption.
    + rewrite Herr'. discriminate.
  - intros [? [? [sc' [b' [_ [_ [H Hsc']]]]]]]. injection H as <- <-.
    rewrite (raise_for_status_ok Hsc'). reflexivity.
Qed.

Lemma index_is_assigned_only_after_creation_witness :
  ~ In (AssignIndex "Studio" "pharia-tutorial-rag" "rag-tutorial-index")
       (snd (create_index_and_assign_to_collection platform_with_docs
               "rag-tutorial-index" "pharia-tutorial-rag" "Studio"
               256 10 "asymmetric")).
Proof.
  intros Hin.
  destruct (proj1 (proj1 (proj2 (index_is_assigned_only_after_creation
                                   platform_with_docs
                                   "rag-tutorial-index" "pharia-tutorial-rag"
                                   "Studio" 256 10 "asymmetric"))) Hin)
    as [status_code [body [Hcreate Hcode]]].
  injection Hcreate as <- _. apply Hcode. lia.
Defined.

(** * The Q&A skill *)

Lemma mapM_ok_in (A B : Type) (f : A -> result B) l : forall bs,
  mapM f l = Ok bs ->
  forall b, In b bs <-> exists a, In a l /\ f a = Ok b.
Proof.
  induction l as [|a l IH]; intros bs H b; simpl in H.
  - injection H as <-. split; [intros [] | intros [a [[] _]]].
  - destruct (f a) as [b0|e] eqn:Hfa; [|discriminate]. cbn [bind] in H.
    destruct (mapM f l) as [bs0|e]; [|discriminate]. cbn [bind] in H.
    injection H as <-. specialize (IH bs0 eq_refl b). split.
    + intros [<-|Hin].
      * exists a. split; [left; reflexivity | exact Hfa].
      * apply IH in Hin. destruct Hin as [a' [Ha' Hfa']].
        exists a'. split; [right; exact Ha' | exact Hfa'].
    + intros [a' [[<-|Ha'] Hfa']].
      * left. congruence.
      * right. apply IH. exists a'. split; assumption.
Qed.

Lemma no_slash_app a b : no_slash (a ++ b) = no_slash a && no_slash b.
Proof.
  induction a as [|c a IH]; simpl; [reflexivity|].
  rewrite IH, andb_assoc. reflexivity.
Qed.

Lemma path_name_from_no_slash s : forall current last,
  no_slash current = true -> no_slash last = true ->
  no_slash (path_name_from s current last) = true.
Proof.
  induction s as [|c s IH]; intros current last Hcurrent Hlast; simpl.
  - destruct (is_component current); assumption.
  - destruct (Ascii.eqb c "/") eqn:Hc.
    + apply IH; [reflexivity|]. destruct (is_component current); assumption.
    + apply IH; [|exact Hlast].
      rewrite no_slash_app, Hcurrent. simpl. rewrite Hc. reflexivity.
Qed.

Lemma document_name_ok d name :
  document_name d = Ok name <->
  exists file_name,
    json_get d "fileName" JNull = Ok (JStr file_name)
    /\ name = path_name file_name.
Proof.
  unfold document_name.
  destruct (json_get d "fileName" JNull) as [file_name|e]; cbn [bind].
  - split.
    + destruct file_name; try discriminate. intros H. injection H as <-.
      eexists. split; reflexivity.
    + intros [s [H ->]]. injection H as ->. reflexivity.
  - split; [discriminate | intros [s [H _]]; discriminate H].
Qed.

(** X18. When [custom_rag] returns: either the search found nothing, and then the
    output has neither answer nor sources and search was the only Csi call;
    or the sources are, without repetition, exactly the final path components
    of the [fileName]s of the documents found (none contains a slash), the
    answer is what the chat model returned for one user message, the prompt
    built from the documents' contents and the question, and the calls were
    the search, one metadata lookup per document in order, and that chat. *)
Theorem custom_rag_sources_are_document_names list_of_set csi input output log :
  (forall l, NoDup (list_of_set l) /\ forall x, In x (list_of_set l) <-> In x l) ->
  custom_rag list_of_set csi input = (Ok output, log) ->
  let index := {| index_namespace := namespace input;
                  index_collection := collection input;
                  index_index := index input |} in
  let documents := search csi index (question input) 3 (1 # 2) in
  let prompt :=
    rag_prompt (str_join nl (map content documents)) (question input) in
  let chatting :=
    Chat "llama-3.1-8b-instruct"
         [{| role := "user"; message_content := prompt |}]
         {| max_tokens := 512 |} in
  (documents = []
   /\ output = {| answer := None; sources := None |}
   /\ log = [Search index (question input) 3 (1 # 2)])
  \/ (documents <> []
      /\ exists names,
           sources output = Some names
           /\ NoDup names
           /\ (forall n,
                 In n names <->
                 exists result file_name,
                   In result documents
                   /\ json_get (document_metadata csi (document_path result))
                               "fileName" JNull = Ok (JStr file_name)
                   /\ n = path_name file_name)
           /\ (forall n, In n names -> no_slash n = true)
           /\ answer output
              = Some (message_content
                        (response_message
                           (chat csi "llama-3.1-8b-instruct"
                              [{| role := "user"; message_content := prompt |}]
                              {| max_tokens := 512 |})))
           /\ log = (Search index (question input) 3 (1 # 2)
                       :: map (fun result => DocumentMetadata (document_path result))
                              documents
                       ++ [chatting])%list).
Proof.
  intros Hset. cbv zeta. unfold custom_rag.
  set (idx := {| index_namespace := namespace input;
                 index_collection := collection input;
                 index_index := index input |}).
  destruct (search csi idx (question input) 3 (1 # 2)) as [|doc docs] eqn:Hsearch.
  { intros H. injection H as <- <-. left. repeat split; reflexivity. }
  set (documents := doc :: docs).
  destruct (mapM document_name
              (map (fun result => document_metadata csi (document_path result))
                   documents)) as [names|e] eqn:Hnames; [|discriminate].
  intros H. injection H as <- <-. right. split; [discriminate|].
  exists (list_of_set names). cbn [sources answer].
  destruct (Hset names) as [Hnodup Hin].
  assert (Hname : forall n,
            In n names <->
            exists result file_name,
              In result documents
              /\ json_get (document_metadata csi (document_path result))
                          "fileName" JNull = Ok (JStr file_name)
              /\ n = path_name file_name).
  { intros n. rewrite (mapM_ok_in _ _ Hnames n). split.
    - intros [d [Hd Hdoc]]. apply in_map_iff in Hd.
      destruct Hd as [result [<- Hresult]].
      apply document_name_ok in Hdoc. destruct Hdoc as [file_name [Hget ->]].
      exists result, file_name. repeat split; assumption.
    - intros [result [file_name [Hresult [Hget ->]]]].
      exists (document_metadata csi (document_path result)). split.
      + apply in_map_iff. exists result. split; [reflexivity | exact Hresult].
      + apply document_name_ok. exists file_name. split; [exact Hget | reflexivity]. }
  split; [reflexivity|]. split; [exact Hnodup|]. split.
  - intros n. rewrite Hin. apply Hname.
  - split; [|split; reflexivity].
    intros n Hn. apply Hin, Hname in Hn.
    destruct Hn as [result [file_name [_ [_ ->]]]].
    apply path_name_from_no_slash; reflexivity.
Qed.

Lemma custom_rag_sources_are_document_names_witness :
  exists output log names,
    custom_rag (nodup string_dec) csi_two_documents (input example_encoder)
    = (Ok output, log)
    /\ sources output = Some names
    /\ NoDup names
    /\ (forall n, In n names -> no_slash n = true).
Proof.
  destruct (custom_rag (nodup string_dec) csi_two_documents
              (input example_encoder)) as [[output|e] log] eqn:Hrun;
    [|vm_compute in Hrun; discriminate Hrun].
  exists output, log.
  destruct (@custom_rag_sources_are_document_names
              (nodup string_dec) csi_two_documents (input example_encoder)
              output log
              (fun l => conj (NoDup_nodup string_dec l)
                             (fun x => nodup_In string_dec l x))
              Hrun)
    as [[Hempty _] | [_ [names [Hsources [Hnodup [_ [Hslash _]]]]]]].
  - discriminate Hempty.
  - exists names. repeat split; assumption.
Defined.

(** * The left join, cell by cell *)

Lemma has_column_In cols k : has_column cols k = true <-> In k cols.
Proof.
  unfold has_column. rewrite existsb_exists. split.
  - intros [x [Hx Heq]]. apply String.eqb_eq in Heq. subst. exact Hx.
  - intros H. exists k. split; [exact H | apply String.eqb_refl].
Qed.

Lemma has_dup_app_false a b :
  has_dup (a ++ b)%list = false ->
  has_dup b = false /\ forall k, In k b -> has_column a k = false.
Proof.
  induction a as [|x a IH]; cbn [app has_dup]; intros H.
  - split; [exact H | reflexivity].
  - apply orb_false_iff in H. destruct H as [Hx Hrest].
    destruct (IH Hrest) as [Hb Ha]. split; [exact Hb|].
    intros k Hk. unfold has_column. cbn [existsb].
    apply orb_false_iff. split; [|apply Ha, Hk].
    destruct (String.eqb_spec k x) as [->|]; [|reflexivity].
    assert (Hin : has_column (a ++ b)%list x = true)
      by (apply has_column_In, in_or_app; right; exact Hk).
    rewrite Hin in Hx. discriminate Hx.
Qed.

Lemma dict_find_app (V : Type) (a b : pydict V) k :
  dict_find (a ++ b)%list k
  = match dict_find a k with
    | Some v => Some v
    | None => dict_find b k
    end.
Proof.
  induction a as [|[k' v] a IH]; cbn [app dict_find]; [reflexivity|].
  destruct (String.eqb k' k); [reflexivity | exact IH].
Qed.

Lemma dict_find_renamed_absent (V : Type) (f : string -> string)
    (v : string -> V) cols k :
  has_column (map f cols) k = false ->
  dict_find (map (fun c => (f c, v c)) cols) k = None.
Proof.
  induction cols as [|c cols IH]; cbn [map dict_find]; [reflexivity|].
  unfold has_column. cbn [existsb]. intros H.
  apply orb_false_iff in H. destruct H as [Hc Hrest].
  rewrite String.eqb_sym, Hc. apply IH, Hrest.
Qed.

Lemma dict_find_renamed (V : Type) (f : string -> string)
    (v : string -> V) cols c :
  has_dup (map f cols) = false -> In c cols ->
  dict_find (map (fun c' => (f c', v c')) cols) (f c) = Some (v c).
Proof.
  induction cols as [|c' cols IH]; cbn [map has_dup dict_find]; [intros _ []|].
  intros H Hin. apply orb_false_iff in H. destruct H as [Hc' Hrest].
  destruct Hin as [->|Hin]; [rewrite String.eqb_refl; reflexivity|].
  destruct (String.eqb_spec (f c') (f c)) as [Heq|_]; [|apply IH; assumption].
  exfalso.
  assert (Hhas : has_column (map f cols) (f c') = true).
  { apply has_column_In. rewrite Heq. apply in_map, Hin. }
  rewrite Hhas in Hc'. discriminate Hc'.
Qed.

Lemma map_flat_map_single (A B C : Type)
    (f : A -> list B) (g : B -> C) (h : A -> C) l :
  (forall a, map g (f a) = [h a]) -> map g (flat_map f l) = map h l.
Proof.
  intros Hf. induction l as [|a l IH]; [reflexivity|].
  cbn [flat_map map]. rewrite map_app, Hf, IH. reflexivity.
Qed.

Lemma append_empty s : (s ++ "")%string = s.
Proof. induction s as [|c s IH]; simpl; [|rewrite IH]; reflexivity. Qed.

(** Every row of the left frame appears once in the merged frame, in order,
    when no two rows of the right frame share a key; and its cell in a column
    of the right frame is the cell of the right row with its key, or NaN when
    there is no such row. *)
Lemma merge_left_right_column left right key lsuffix merged c :
  merge_left left right key lsuffix "" = Ok merged ->
  distinct_keys key (rows right) ->
  has_column (columns right) c = true ->
  c <> key ->
  map (fun m => dict_get (snd m) c CNaN) (rows merged)
  = map (fun l =>
           match filter (fun r => key_eqb (dict_get (snd l) key CNaN)
                                          (dict_get (snd r) key CNaN))
                        (rows right) with
           | r :: _ => dict_get (snd r) c CNaN
           | [] => CNaN
           end)
        (rows left).
Proof.
  unfold merge_left.
  destruct (has_column (columns right) key); [|discriminate].
  destruct (has_column (columns left) key); [|discriminate].
  cbn [negb].
  match goal with
  | |- (if has_dup (map ?ln _ ++ map ?rn ?rc)%list then _ else _) = _ -> _ =>
      set (lname := ln); set (rname := rn); set (rcols := rc)
  end.
  destruct (has_dup (map lname (columns left) ++ map rname rcols)%list) eqn:Hdup;
    [discriminate|].
  intros H Hdistinct Hc Hkey. injection H as <-. cbn [rows].
  destruct (has_dup_app_false _ _ Hdup) as [Hrdup Hleft].
  assert (Hrname : rname c = c).
  { unfold rname.
    match goal with |- (if ?b then _ else _) = _ => destruct b end;
      [apply append_empty | reflexivity]. }
  assert (Hin : In c rcols).
  { unfold rcols. apply filter_In. split; [apply has_column_In, Hc|].
    destruct (String.eqb_spec c key); [contradiction | reflexivity]. }
  assert (Habsent : has_column (map lname (columns left)) c = false).
  { apply Hleft. rewrite <- Hrname. apply in_map, Hin. }
  assert (Hcell : forall (l : pydict cell) (v : string -> cell),
            dict_get
              (map (fun c0 => (lname c0, dict_get l c0 CNaN)) (columns left)
               ++ map (fun c0 => (rname c0, v c0)) rcols)%list c CNaN
            = v c).
  { intros l v. unfold dict_get. rewrite dict_find_app.
    rewrite (dict_find_renamed_absent lname _ _ _ Habsent).
    rewrite <- Hrname at 1.
    rewrite (dict_find_renamed rname v _ _ Hrdup Hin). reflexivity. }
  assert (Hrows : forall (joined : list (pydict cell)) label,
            map (fun m => dict_get (snd m) c CNaN) (enumerate_from label joined)
            = map (fun m => dict_get m c CNaN) joined).
  { induction joined as [|j joined IHj]; intros label; cbn [enumerate_from map snd];
      [reflexivity | rewrite IHj; reflexivity]. }
  rewrite Hrows. clear Hrows.
  apply map_flat_map_single. intros l.
  pose proof (matches_at_most_one key (rows right) Hdistinct
                (dict_get (snd l) key CNaN)) as Hone.
  destruct (filter _ (rows right)) as [|r [|r' rs]]; cbn [length] in Hone;
    [| |lia]; cbn [map app]; rewrite Hcell; reflexivity.
Qed.





(** ** When the skill raises *)

Lemma mapM_raise_in (A B : Type) (f : A -> result B) l e :
  mapM f l = Raise e -> exists a, In a l /\ f a = Raise e.
Proof.
  induction l as [|a l IH]; simpl; [discriminate|].
  destruct (f a) as [b|e'] eqn:Hfa; cbn [bind].
  - destruct (mapM f l) as [bs|e'']; cbn [bind]; [discriminate|].
    intros H. injection H as ->. destruct (IH eq_refl) as [a' [Ha' Hfa']].
    exists a'. split; [right; exact Ha' | exact Hfa'].
  - intros H. injection H as ->. exists a. split; [left; reflexivity | exact Hfa].
Qed.

Lemma mapM_raises_when_one_does (A B : Type) (f : A -> result B) l a e :
  In a l -> f a = Raise e -> exists e', mapM f l = Raise e'.
Proof.
  induction l as [|a' l IH]; intros Hin Hfa; [destruct Hin|]. simpl.
  destruct (f a') as [b|e'] eqn:Hfa'; cbn [bind]; [|eexists; reflexivity].
  destruct Hin as [->|Hin]; [congruence|].
  destruct (IH Hin Hfa) as [e'' ->]. cbn [bind]. eexists. reflexivity.
Qed.

(** X20. [custom_rag] raises exactly when the metadata of some document found
    gives no file name: it is not an object ([AttributeError]) or its
    [fileName] is absent or not a str ([TypeError]).  The chat model is then
    never called: the calls made are the search and the metadata lookups. *)
Theorem custom_rag_raises_without_chat list_of_set csi input :
  let index := {| index_namespace := namespace input;
                  index_collection := collection input;
                  index_index := index input |} in
  let documents := search csi index (question input) 3 (1 # 2) in
  let call := custom_rag list_of_set csi input in
  ((exists e, fst call = Raise e)
   <-> exists result e,
         In result documents
         /\ document_name (document_metadata csi (document_path result))
            = Raise e)
  /\ (forall e, fst call = Raise e ->
        (e = TypeError \/ e = AttributeError)
        /\ snd call
           = Search index (question input) 3 (1 # 2)
               :: map (fun result => DocumentMetadata (document_path result))
                      documents).
Proof.
  cbv zeta. unfold custom_rag.
  set (idx := {| index_namespace := namespace input;
                 index_collection := collection input;
                 index_index := index input |}).
  destruct (search csi idx (question input) 3 (1 # 2)) as [|doc docs] eqn:Hsearch.
  { cbn [fst snd]. split; [split|].
    - intros [e He]. discriminate He.
    - intros [result [e [[] _]]].
    - intros e He. discriminate He. }
  set (documents := doc :: docs).
  destruct (mapM document_name
              (map (fun result => document_metadata csi (document_path result))
                   documents)) as [names|e0] eqn:Hnames; cbn [fst snd].
  - split; [split|].
    + intros [e He]. discriminate He.
    + intros [result [e [Hin Hraise]]]. exfalso.
      destruct (@mapM_raises_when_one_does _ _ document_name
                  (map (fun r => document_metadata csi (document_path r)) documents)
                  (document_metadata csi (document_path result)) e)
        as [e' He'];
        [exact (in_map (fun r => document_metadata csi (document_path r))
                       documents result Hin)
        | exact Hraise |].
      rewrite He' in Hnames. discriminate Hnames.
    + intros e He. discriminate He.
  - destruct (mapM_raise_in _ _ Hnames) as [d [Hd Hraise]].
    apply in_map_iff in Hd. destruct Hd as [result [<- Hresult]].
    split; [split|].
    + intros _. exists result, e0. split; assumption.
    + intros _. exists e0. reflexivity.
    + intros e He. injection He as <-. split; [|reflexivity].
      unfold document_name in Hraise.
      destruct (document_metadata csi (document_path result)) as [| | | |items|members];
        cbn [json_get bind] in Hraise;
        try (injection Hraise as <-; right; reflexivity).
      destruct (dict_get members "fileName" JNull);
        try discriminate Hraise; injection Hraise as <-; left; reflexivity.
Qed.

Lemma custom_rag_raises_without_chat_witness :
  (AttributeError = TypeError \/ AttributeError = AttributeError)
  /\ snd (custom_rag (nodup string_dec) csi_without_metadata
            (input example_encoder))
     = Search {| index_namespace := "Studio";
                 index_collection := "pharia-tutorial-rag";
                 index_index := "rag-tutorial-index" |}
              "What is an encoder?" 3 (1 # 2)
         :: map (fun result => DocumentMetadata (document_path result))
                (search csi_without_metadata
                   {| index_namespace := "Studio";
                      index_collection := "pharia-tutorial-rag";
                      index_index := "rag-tutorial-index" |}
                   "What is an encoder?" 3 (1 # 2)).
Proof.
  apply (proj2 (custom_rag_raises_without_chat (nodup string_dec)
                  csi_without_metadata (input example_encoder))
           AttributeError).
  reflexivity.
Defined.

(** * From the directory to the dataset ids *)

Lemma add_keys_present ks : forall cols,
  (forall k, In k ks -> has_column cols k = true) ->
  fold_left (fun acc k' => if has_column acc k' then acc else (acc ++ [k'])%list)
            ks cols = cols.
Proof.
  induction ks as [|k ks IH]; intros cols H; cbn [fold_left]; [reflexivity|].
  rewrite (H k (or_introl eq_refl)). apply IH.
  intros k' Hk'. apply H. right. exact Hk'.
Qed.

Lemma add_keys_fresh ks : forall cols,
  has_dup (cols ++ ks)%list = false ->
  fold_left (fun acc k' => if has_column acc k' then acc else (acc ++ [k'])%list)
            ks cols = (cols ++ ks)%list.
Proof.
  induction ks as [|k ks IH]; intros cols H; cbn [fold_left].
  - rewrite app_nil_r. reflexivity.
  - assert (Hk : has_column cols k = false).
    { destruct (has_dup_app_false cols (k :: ks) H) as [_ Hcols].
      apply Hcols. left. reflexivity. }
    rewrite Hk, IH; rewrite <- app_assoc; [reflexivity | exact H].
Qed.

(** A frame built from records that all have the same keys has these keys
    as its columns. *)
Lemma union_keys_uniform ks (record : pydict cell) records :
  has_dup ks = false ->
  (forall r, In r (record :: records) -> map fst r = ks) ->
  union_keys (record :: records) = ks.
Proof.
  intros Hks Hall. unfold union_keys. cbn [fold_left].
  rewrite (Hall record (or_introl eq_refl)).
  rewrite (add_keys_fresh ks []) by exact Hks. cbn [app].
  assert (Hrest : forall r, In r records -> map fst r = ks)
    by (intros r Hr; apply Hall; right; exact Hr).
  clear Hall. induction records as [|r records IH]; cbn [fold_left]; [reflexivity|].
  rewrite (Hrest r (or_introl eq_refl)).
  rewrite add_keys_present by (intros k Hk; apply has_column_In, Hk).
  apply IH. intros r' Hr'. apply Hrest. right. exact Hr'.
Qed.

Lemma poll_step_complete st file_id r dataset_id :
  completed_run r dataset_id ->
  poll_step st (Ok r, file_id)
  = Ok {| run := Some r;
          status_results := (status_results st ++ [status_row file_id r])%list |}.
Proof.
  intros [members [run_id [errors [output_members
            [-> [Hrun [Hstatus [Herrors [Houtput _]]]]]]]]].
  unfold poll_step, status_row, json_get, json_getitem, dict_getitem, dict_get.
  rewrite Hrun, Hstatus, Herrors, Houtput. reflexivity.
Qed.

Lemma poll_loop_complete items : forall st,
  (forall item, In item items ->
     exists r dataset_id, fst item = Ok r /\ completed_run r dataset_id) ->
  exists st',
    poll_loop st items = Ok st'
    /\ status_results st'
       = (status_results st ++ map status_row_of items)%list.
Proof.
  induction items as [|[future file_id] items IH]; intros st Hall.
  - exists st. split; [reflexivity|]. cbn [map]. rewrite app_nil_r. reflexivity.
  - destruct (Hall _ (or_introl eq_refl)) as [r [dataset_id [Hfut Hrun]]].
    cbn [fst] in Hfut. subst future.
    cbn [poll_loop]. rewrite (poll_step_complete st file_id Hrun). cbn [bind].
    destruct (IH {| run := Some r;
                    status_results :=
                      (status_results st ++ [status_row file_id r])%list |})
      as [st' [Hloop Hrows]].
    { intros item Hitem. apply Hall. right. exact Hitem. }
    exists st'. split; [exact Hloop|].
    rewrite Hrows. cbn [status_results map]. rewrite <- app_assoc. reflexivity.
Qed.

(** Columns of the right frame stay columns of the merged frame. *)
Lemma merge_left_keeps_right_columns left right key lsuffix merged c :
  merge_left left right key lsuffix "" = Ok merged ->
  has_column (columns right) c = true -> c <> key ->
  has_column (columns merged) c = true.
Proof.
  unfold merge_left.
  destruct (has_column (columns right) key); [|discriminate].
  destruct (has_column (columns left) key); [|discriminate].
  cbn [negb].
  match goal with
  | |- (if has_dup (map ?ln _ ++ map ?rn ?rc)%list then _ else _) = _ -> _ =>
      set (lname := ln); set (rname := rn); set (rcols := rc)
  end.
  destruct (has_dup _); [discriminate|].
  intros H Hc Hkey. injection H as <-. cbn [columns].
  apply has_column_In, in_or_app. right.
  assert (Hrname : rname c = c).
  { unfold rname.
    match goal with |- (if ?b then _ else _) = _ => destruct b end;
      [apply append_empty | reflexivity]. }
  rewrite <- Hrname. apply in_map. unfold rcols. apply filter_In.
  split; [apply has_column_In, Hc|].
  destruct (String.eqb_spec c key); [contradiction | reflexivity].
Qed.

(** With the columns of the two reports of a run without failures, the merge
    goes through. *)
Lemma merge_of_success_reports left_rows right_rows :
  exists merged,
    merge_left
      {| columns := ["file_path"; "file_id"; "status"; "error_type";
                     "error_message"];
         rows := left_rows |}
      {| columns := ["file_id"; "run_id"; "status"; "output"; "error"];
         rows := right_rows |}
      "file_id" "_ingestion" "" = Ok merged.
Proof. eexists. unfold merge_left. cbn [columns]. reflexivity. Qed.

Lemma mapM_compose (A B C : Type) (f : A -> B) (h : B -> result C) l :
  mapM (fun a => h (f a)) l = mapM h (map f l).
Proof.
  induction l as [|a l IH]; [reflexivity|]. cbn [mapM map]. rewrite IH. reflexivity.
Qed.

Lemma mapM_enumerate_from (A B : Type) (F : A -> result B) l : forall n,
  mapM (fun r => F (snd r)) (enumerate_from n l) = mapM F l.
Proof.
  induction l as [|a l IH]; intros n; [reflexivity|].
  cbn [enumerate_from mapM snd]. rewrite IH. reflexivity.
Qed.

Lemma enumerate_from_map_snd (A B : Type) (f : A -> B) l : forall n,
  map (fun r => f (snd r)) (enumerate_from n l) = map f l.
Proof.
  induction l as [|a l IH]; intros n; [reflexivity|].
  cbn [enumerate_from map snd]. rewrite IH. reflexivity.
Qed.

Lemma enumerate_from_In_snd (A : Type) (l : list A) r : forall n,
  In r (enumerate_from n l) -> In (snd r) l.
Proof.
  induction l as [|a l IH]; intros n; [intros []|].
  cbn [enumerate_from]. intros [<-|Hin]; [left; reflexivity|].
  right. exact (IH _ Hin).
Qed.

Lemma distinct_keys_of_NoDup key rs :
  (forall r, In r rs -> exists s, dict_get (snd r) key CNaN = CStr s) ->
  NoDup (map (fun r => dict_get (snd r) key CNaN) rs) ->
  distinct_keys key rs.
Proof.
  induction rs as [|r rs IH]; intros Hstr Hnodup; [exact I|].
  cbn [map] in Hnodup. inversion Hnodup as [|k ks Hnotin Hrest]; subst.
  cbn [distinct_keys]. split.
  - apply Forall_forall. intros r' Hr'.
    destruct (Hstr r (or_introl eq_refl)) as [s Hs].
    destruct (Hstr r' (or_intror Hr')) as [s' Hs'].
    rewrite Hs, Hs', key_eqb_str.
    destruct (String.eqb_spec s s') as [->|Hne]; [|reflexivity].
    exfalso. apply Hnotin. rewrite Hs, <- Hs'.
    apply (in_map (fun r => dict_get (snd r) key CNaN)), Hr'.
  - apply IH; [|exact Hrest]. intros r' Hr'. apply Hstr. right. exact Hr'.
Qed.

Lemma NoDup_map_CStr ss : NoDup ss -> NoDup (map CStr ss).
Proof.
  induction 1 as [|s ss Hnotin Hnodup IH]; cbn [map]; constructor; [|exact IH].
  rewrite in_map_iff. intros [s' [Heq Hin]]. injection Heq as ->. contradiction.
Qed.

Lemma phase1_frame_success_ids directory_path
    (items : list (result (pydict cell) * string)) :
  items <> [] ->
  get_successful_document_ids (pd_DataFrame (map (phase1_row directory_path) items))
  = Ok (flat_map uploaded_file_id items).
Proof.
  destruct items as [|item items']; [congruence|]. intros _.
  set (records := map (phase1_row directory_path) (item :: items')).
  assert (Hstatus : has_column (union_keys records) "status" = true).
  { apply union_keys_first. unfold phase1_row.
    destruct (fst item); simpl; tauto. }
  assert (Hid : has_column (union_keys records) "file_id" = true).
  { apply union_keys_first. unfold phase1_row.
    destruct (fst item); simpl; tauto. }
  unfold get_successful_document_ids, filter_eq, getcol, pd_DataFrame.
  cbn [columns rows]. rewrite Hstatus. cbn [bind columns rows].
  rewrite Hid. cbn [bind]. unfold tolist. rewrite map_map. cbn [snd].
  rewrite (enumerate_from_filter_map
             (fun r => cell_eq_str (dict_get r "status" CNaN) "Success")
             (fun r => dict_get r "file_id" CNaN)).
  f_equal.
  exact (@success_ids_of_phase1_rows (union_keys records) directory_path
           (item :: items') Hstatus Hid).
Qed.

Lemma phase1_frame_columns directory_path
    (items : list (result (pydict cell) * string)) :
  items <> [] ->
  (forall item, In item items -> exists result, fst item = Ok result) ->
  union_keys (map (phase1_row directory_path) items)
  = ["file_path"; "file_id"; "status"; "error_type"; "error_message"].
Proof.
  destruct items as [|item items']; [congruence|]. intros _ Hall.
  cbn [map]. apply union_keys_uniform; [reflexivity|].
  intros r Hr.
  change (In r (map (phase1_row directory_path) (item :: items'))) in Hr.
  apply in_map_iff in Hr. destruct Hr as [item0 [<- Hin]].
  destruct (Hall _ Hin) as [result Hres].
  unfold phase1_row. rewrite Hres. reflexivity.
Qed.

Lemma status_frame_columns (items : list (result json * cell)) :
  items <> [] ->
  (forall item, In item items ->
     exists r dataset_id, fst item = Ok r /\ completed_run r dataset_id) ->
  union_keys (map status_row_of items)
  = ["file_id"; "run_id"; "status"; "output"; "error"].
Proof.
  destruct items as [|item items']; [congruence|]. intros _ Hall.
  cbn [map]. apply union_keys_uniform; [reflexivity|].
  intros r Hr.
  change (In r (map status_row_of (item :: items'))) in Hr.
  apply in_map_iff in Hr. destruct Hr as [item0 [<- Hin]].
  destruct (Hall _ Hin) as [r0 [dataset_id [Hres [members [? [? [? [-> _]]]]]]]].
  unfold status_row_of. rewrite Hres. reflexivity.
Qed.

Lemma uploaded_file_ids_of_successes (file_id : string -> string)
    (items : list (result (pydict cell) * string)) :
  (forall item, In item items ->
     exists result, fst item = Ok result
       /\ dict_find result "file_id" = Some (CStr (file_id (snd item)))) ->
  flat_map uploaded_file_id items
  = map (fun item => CStr (file_id (snd item))) items.
Proof.
  induction items as [|item items IH]; intros Hall; [reflexivity|].
  cbn [flat_map map].
  destruct (Hall _ (or_introl eq_refl)) as [result [Hres Hid]].
  unfold uploaded_file_id at 1. rewrite Hres. unfold dict_get. rewrite Hid.
  cbn [app]. f_equal. apply IH. intros item' Hin. apply Hall. right. exact Hin.
Qed.

(** X21. When every listed file is uploaded with its own file id and the run
    of every file id is completed, [ingest_all_documents], then
    [check_files_status] on its report, then the extraction of the completed
    rows all return: the merged report has one row per file, and the dataset
    ids are those of the files' runs, one per file, in the order in which the
    uploads finished. *)
Theorem all_completed_pipeline_yields_dataset_ids env sched
    directory_path ingestion_context stage_id transformation_id files
    (file_id dataset_id : string -> string) :
  listdir env directory_path = Ok files ->
  files <> [] ->
  fair sched ->
  NoDup (map file_id files) ->
  (forall file, In file files ->
     exists result,
       ingest_document env (os_path_join directory_path file)
         ingestion_context file stage_id = Ok result
       /\ dict_find result "file_id" = Some (CStr (file_id file))) ->
  (forall file, In file files ->
     exists r,
       check_status_of_ingestion env transformation_id (CStr (file_id file))
       = Ok r
       /\ completed_run r (dataset_id (file_id file))) ->
  exists df status_df dataset_ids,
    ingest_all_documents env sched directory_path ingestion_context stage_id
    = Ok df
    /\ check_files_status env sched transformation_id df = Ok status_df
    /\ len status_df = length files
    /\ successful_dataset_ids status_df = Ok dataset_ids
    /\ dataset_ids
       = map (fun item => CStr (dataset_id (file_id (snd item))))
             (as_completed sched
                (submit_uploads env directory_path ingestion_context
                   stage_id files))
    /\ Permutation dataset_ids
         (map (fun file => CStr (dataset_id (file_id file))) files).
Proof.
  intros Hls Hfiles Hfair Hnodup Hup Hruns.
  set (futures := submit_uploads env directory_path ingestion_context stage_id files).
  pose proof (Hfair _ futures) as Hperm1.
  set (items1 := as_completed sched futures) in *.
  assert (Hitems1 : forall item, In item items1 ->
            In (snd item) files
            /\ exists result, fst item = Ok result
                 /\ dict_find result "file_id" = Some (CStr (file_id (snd item)))).
  { intros item Hin. apply (Permutation_in _ Hperm1) in Hin.
    unfold futures, submit_uploads in Hin. apply in_map_iff in Hin.
    destruct Hin as [file [<- Hfile]]. cbn [fst snd].
    split; [exact Hfile | apply Hup, Hfile]. }
  assert (Hne1 : items1 <> []).
  { intros E. rewrite E in Hperm1. apply Permutation_nil in Hperm1.
    unfold futures, submit_uploads in Hperm1.
    destruct files; [congruence | discriminate]. }
  set (records := map (phase1_row directory_path) items1).
  assert (Hdf : ingest_all_documents env sched directory_path ingestion_context
                  stage_id = Ok (pd_DataFrame records)).
  { unfold ingest_all_documents, ingest_results. rewrite Hls. cbn [bind].
    fold futures. fold items1.
    rewrite (mapM_pure (ingest_row directory_path) (phase1_row directory_path)).
    - reflexivity.
    - intros item Hin.
      apply (ingest_row_of_upload env directory_path ingestion_context
               stage_id files).
      exact (Permutation_in item Hperm1 Hin). }
  assert (Hcols1 : union_keys records
                   = ["file_path"; "file_id"; "status"; "error_type";
                      "error_message"]).
  { apply phase1_frame_columns; [exact Hne1|].
    intros item Hin. destruct (Hitems1 _ Hin) as [_ [result [Hres _]]].
    exists result. exact Hres. }
  set (ids := map (fun item => CStr (file_id (snd item))) items1).
  assert (Hids : get_successful_document_ids (pd_DataFrame records) = Ok ids).
  { unfold records. rewrite (phase1_frame_success_ids directory_path Hne1).
    f_equal. apply uploaded_file_ids_of_successes.
    intros item Hin. apply Hitems1, Hin. }
  set (checks := submit_status_checks env transformation_id ids).
  pose proof (Hfair _ checks) as Hperm2.
  set (items2 := as_completed sched checks) in *.
  assert (Hitems2 : forall item, In item items2 ->
            exists s r, snd item = CStr s /\ fst item = Ok r
                        /\ completed_run r (dataset_id s)).
  { intros item Hin. apply (Permutation_in _ Hperm2) in Hin.
    unfold checks, submit_status_checks, ids in Hin. rewrite map_map in Hin.
    apply in_map_iff in Hin. destruct Hin as [item1 [<- Hin1]]. cbn [fst snd].
    destruct (Hitems1 _ Hin1) as [Hfile _].
    destruct (Hruns _ Hfile) as [r [Hr Hc]].
    exists (file_id (snd item1)), r. auto. }
  assert (Hne2 : items2 <> []).
  { intros E. rewrite E in Hperm2. apply Permutation_nil in Hperm2.
    unfold checks, submit_status_checks, ids in Hperm2.
    destruct items1; [congruence | discriminate]. }
  set (status_rows := map status_row_of items2).
  assert (Hpoll : poll_results env sched transformation_id (pd_DataFrame records)
                  = Ok status_rows).
  { unfold poll_results. rewrite Hids. cbn [bind]. fold checks. fold items2.
    destruct (poll_loop_complete items2 {| run := None; status_results := [] |})
      as [st' [Hloop Hrows]].
    { intros item Hin. destruct (Hitems2 _ Hin) as [s [r [_ [Hr Hc]]]].
      exists r, (dataset_id s). auto. }
    rewrite Hloop. cbn [bind]. rewrite Hrows. reflexivity. }
  assert (Hcols2 : union_keys status_rows
                   = ["file_id"; "run_id"; "status"; "output"; "error"]).
  { apply status_frame_columns; [exact Hne2|].
    intros item Hin. destruct (Hitems2 _ Hin) as [s [r [_ [Hr Hc]]]].
    exists r, (dataset_id s). auto. }
  set (right := pd_DataFrame status_rows).
  assert (Hrows2 : rows right
                   = enumerate_from 0
                       (map (align ["file_id"; "run_id"; "status"; "output"; "error"])
                            status_rows)).
  { unfold right, pd_DataFrame. rewrite Hcols2. reflexivity. }
  assert (Hcolumns2 : columns right
                      = ["file_id"; "run_id"; "status"; "output"; "error"]).
  { unfold right, pd_DataFrame. rewrite Hcols2. reflexivity. }
  assert (Hmerge : exists merged,
            merge_left (pd_DataFrame records) right "file_id" "_ingestion" ""
            = Ok merged).
  { unfold right, pd_DataFrame. rewrite Hcols1, Hcols2.
    apply merge_of_success_reports. }
  destruct Hmerge as [merged Hmerged].
  (* the rows of the status frame *)
  assert (Hright : forall r, In r (rows right) ->
            exists s om,
              dict_get (snd r) "file_id" CNaN = CStr s
              /\ dict_get (snd r) "status" CNaN = CStr "completed"
              /\ dict_get (snd r) "output" CNaN = CText (JObj om)
              /\ dict_find om "datasetId" = Some (JStr (dataset_id s))).
  { intros r Hin. rewrite Hrows2 in Hin. apply enumerate_from_In_snd in Hin.
    unfold status_rows in Hin. rewrite map_map in Hin.
    apply in_map_iff in Hin. destruct Hin as [item [Heq Hin]].
    destruct (Hitems2 _ Hin)
      as [s [r0 [Hsnd [Hfst [members [run_id [errors [om
            [-> [Hrun [Hstatus [Herrors [Houtput Hds]]]]]]]]]]]]].
    exists s, om. rewrite <- Heq.
    unfold status_row_of. rewrite Hfst, Hsnd.
    unfold status_row, align, dict_get. cbn [map dict_find String.eqb Ascii.eqb Bool.eqb].
    rewrite Hstatus, Houtput. cbn.
    repeat split; try reflexivity. exact Hds. }
  assert (Hkeys2 : map (fun r => dict_get (snd r) "file_id" CNaN) (rows right)
                   = map snd items2).
  { rewrite Hrows2.
    rewrite (enumerate_from_map_snd (fun row => dict_get row "file_id" CNaN)).
    unfold status_rows. rewrite !map_map. apply map_ext_in.
    intros item Hin.
    destruct (Hitems2 _ Hin)
      as [s [r0 [Hsnd [Hfst [members [? [? [? [-> _]]]]]]]]].
    unfold status_row_of. rewrite Hfst. reflexivity. }
  assert (Hperm_ids : Permutation (map snd items2) ids).
  { eapply Permutation_trans; [apply Permutation_map, Hperm2|].
    unfold checks, submit_status_checks. rewrite map_map. cbn [snd].
    rewrite map_id. apply Permutation_refl. }
  assert (Hperm_files : Permutation ids (map CStr (map file_id files))).
  { unfold ids. eapply Permutation_trans.
    - apply (Permutation_map (fun item => CStr (file_id (snd item)))), Hperm1.
    - unfold futures, submit_uploads. rewrite !map_map. cbn [snd].
      apply Permutation_refl. }
  assert (Hdistinct : distinct_keys "file_id" (rows right)).
  { apply distinct_keys_of_NoDup.
    - intros r Hin. destruct (Hright _ Hin) as [s [_ [Hs _]]].
      exists s. exact Hs.
    - rewrite Hkeys2.
      apply (@Permutation_NoDup _ (map CStr (map file_id files))).
      + apply Permutation_sym. eapply Permutation_trans; eassumption.
      + apply NoDup_map_CStr, Hnodup. }
  assert (Hmatch : forall s, In (CStr s) ids ->
            exists p rest om,
              filter (fun r => key_eqb (CStr s) (dict_get (snd r) "file_id" CNaN))
                     (rows right) = p :: rest
              /\ dict_get (snd p) "status" CNaN = CStr "completed"
              /\ dict_get (snd p) "output" CNaN = CText (JObj om)
              /\ dict_find om "datasetId" = Some (JStr (dataset_id s))).
  { intros s Hin.
    apply (Permutation_in _ (Permutation_sym Hperm_ids)) in Hin.
    rewrite <- Hkeys2 in Hin. apply in_map_iff in Hin.
    destruct Hin as [r0 [Hkey0 Hin0]].
    destruct (filter (fun r => key_eqb (CStr s) (dict_get (snd r) "file_id" CNaN))
                     (rows right)) as [|p rest] eqn:Hfilter.
    - exfalso.
      assert (Hin' : In r0 (filter (fun r => key_eqb (CStr s)
                                      (dict_get (snd r) "file_id" CNaN))
                                   (rows right))).
      { apply filter_In. split; [exact Hin0|]. rewrite Hkey0, key_eqb_str.
        apply String.eqb_refl. }
      rewrite Hfilter in Hin'. exact Hin'.
    - assert (Hp : In p (filter (fun r => key_eqb (CStr s)
                                   (dict_get (snd r) "file_id" CNaN))
                                (rows right)))
        by (rewrite Hfilter; left; reflexivity).
      apply filter_In in Hp. destruct Hp as [Hp Hkey].
      destruct (Hright _ Hp) as [s' [om [Hs' [Hst [Hout Hds]]]]].
      rewrite Hs', key_eqb_str in Hkey.
      apply String.eqb_eq in Hkey. subst s'.
      exists p, rest, om. auto. }
  assert (Hleft : forall item, In item items1 ->
            dict_get (align ["file_path"; "file_id"; "status"; "error_type";
                             "error_message"]
                            (phase1_row directory_path item)) "file_id" CNaN
            = CStr (file_id (snd item))).
  { intros item Hin. destruct (Hitems1 _ Hin) as [_ [result [Hres Hid]]].
    rewrite align_get by reflexivity.
    unfold phase1_row. rewrite Hres. unfold dict_get at 1.
    cbn [dict_find String.eqb Ascii.eqb Bool.eqb].
    unfold dict_get. rewrite Hid. reflexivity. }
  assert (Hrows1 : rows (pd_DataFrame records)
                   = enumerate_from 0
                       (map (align ["file_path"; "file_id"; "status"; "error_type";
                                    "error_message"]) records)).
  { unfold pd_DataFrame. rewrite Hcols1. reflexivity. }
  assert (Hstatus2 : has_column (columns right) "status" = true)
    by (rewrite Hcolumns2; reflexivity).
  assert (Houtput2 : has_column (columns right) "output" = true)
    by (rewrite Hcolumns2; reflexivity).
  assert (Hstatus_ne : "status" <> "file_id") by discriminate.
  assert (Houtput_ne : "output" <> "file_id") by discriminate.
  pose proof (@merge_left_right_column _ _ _ _ _ _ Hmerged Hdistinct Hstatus2 Hstatus_ne)
    as Hstatus_col.
  pose proof (@merge_left_right_column _ _ _ _ _ _ Hmerged Hdistinct Houtput2 Houtput_ne)
    as Houtput_col.
  assert (Hall_completed : forall m, In m (rows merged) ->
            dict_get (snd m) "status" CNaN = CStr "completed").
  { intros m Hm.
    apply (in_map (fun m => dict_get (snd m) "status" CNaN)) in Hm.
    rewrite Hstatus_col in Hm. apply in_map_iff in Hm.
    destruct Hm as [l [Heq Hl]]. rewrite <- Heq.
    rewrite Hrows1 in Hl. apply enumerate_from_In_snd in Hl.
    unfold records in Hl. rewrite map_map in Hl. apply in_map_iff in Hl.
    destruct Hl as [item [Hitem Hin]]. rewrite <- Hitem, (Hleft _ Hin).
    destruct (Hmatch (file_id (snd item))) as [p [rest [om [Hf [Hst _]]]]].
    { unfold ids. apply (in_map (fun item => CStr (file_id (snd item)))), Hin. }
    rewrite Hf. exact Hst. }
  exists (pd_DataFrame records), merged,
    (map (fun item => CStr (dataset_id (file_id (snd item)))) items1).
  split; [exact Hdf|]. split.
  { unfold check_files_status. rewrite Hpoll. cbn [bind]. exact Hmerged. }
  split.
  { rewrite (@merge_left_one_row_per_left_row _ _ _ _ _ _ Hmerged Hdistinct).
    rewrite len_pd_DataFrame. unfold records. rewrite length_map.
    rewrite (Permutation_length Hperm1). unfold futures, submit_uploads.
    apply length_map. }
  split.
  { unfold successful_dataset_ids, filter_eq, getcol.
    rewrite (@merge_left_keeps_right_columns _ _ _ _ _ _ Hmerged Hstatus2 Hstatus_ne).
    cbn [bind columns rows].
    rewrite filter_keeps_all
      by (intros m Hm; rewrite (Hall_completed _ Hm); reflexivity).
    rewrite get_successful_dataset_ids_by_position.
    2:{ cbn [columns].
        exact (@merge_left_keeps_right_columns _ _ _ _ _ _ Hmerged Houtput2 Houtput_ne). }
    2:{ exact (@merge_left_labels _ _ _ _ _ _ Hmerged). }
    cbn [rows].
    rewrite (mapM_compose (fun m => dict_get (snd m) "output" CNaN)
               (fun text =>
                  decoded <- json_loads text ;;
                  dataset_id <- json_get decoded "datasetId" JNull ;;
                  Ok (of_json dataset_id))).
    rewrite Houtput_col, Hrows1.
    rewrite (enumerate_from_map_snd
               (fun x =>
                  match filter (fun r => key_eqb (dict_get x "file_id" CNaN)
                                                 (dict_get (snd r) "file_id" CNaN))
                               (rows right) with
                  | r :: _ => dict_get (snd r) "output" CNaN
                  | [] => CNaN
                  end)).
    unfold records. rewrite !map_map, <- mapM_compose.
    apply mapM_pure. intros item Hin. rewrite (Hleft _ Hin).
    destruct (Hmatch (file_id (snd item))) as [p [rest [om [Hf [_ [Hout Hds]]]]]].
    { unfold ids. apply (in_map (fun item => CStr (file_id (snd item)))), Hin. }
    rewrite Hf, Hout. cbn [json_loads bind].
    unfold json_get, dict_get. rewrite Hds. reflexivity. }
  split; [reflexivity|].
  eapply Permutation_trans; [apply Permutation_map, Hperm1|].
  unfold futures, submit_uploads. rewrite map_map. cbn [snd].
  apply Permutation_refl.
Qed.

Lemma all_completed_pipeline_yields_dataset_ids_witness :
  exists df status_df dataset_ids,
    ingest_all_documents env_all_completed reverse_order "files" JNull "stage"
    = Ok df
    /\ check_files_status env_all_completed reverse_order "tr" df = Ok status_df
    /\ len status_df = length ["a.pdf"; "b.pdf"]
    /\ successful_dataset_ids status_df = Ok dataset_ids
    /\ dataset_ids
       = map (fun item => CStr ("ds-" ++ ("id-" ++ snd item)))
             (as_completed reverse_order
                (submit_uploads env_all_completed "files" JNull "stage"
                   ["a.pdf"; "b.pdf"]))
    /\ Permutation dataset_ids
         (map (fun file => CStr ("ds-" ++ ("id-" ++ file))) ["a.pdf"; "b.pdf"]).
Proof.
  apply (@all_completed_pipeline_yields_dataset_ids
           env_all_completed reverse_order "files" JNull "stage" "tr"
           ["a.pdf"; "b.pdf"] (fun name => "id-" ++ name) (fun id => "ds-" ++ id)).
  - reflexivity.
  - discriminate.
  - intros A l. apply Permutation_sym, Permutation_rev.
  - repeat constructor; simpl; intuition discriminate.
  - intros file [<-|[<-|[]]]; eexists; split; reflexivity.
  - intros file [<-|[<-|[]]]; eexists; (split; [reflexivity|]);
      unfold completed_run; do 4 eexists; repeat split; reflexivity.
Defined.
